(** * zcombinator: the staking panel and the market-data route

    A shallow embedding of
      - [src/ui/components/StakeContent.tsx]: [fetchVaultData], the wallet
        effect, [handleDeposit], [handleRedeem], the percentage input and the
        action button;
      - [src/ui/app/api/market-data/[tokenAddress]/route.ts]: [POST].

    JavaScript [number]s are IEEE 754 binary64 values; they are modelled by
    [spec_float] at precision 53 and maximal exponent 1024, with the
    operations of [SpecFloat].  [bigint]s and [BN]s are modelled by [Z].
    Awaited calls into the RPC node, the wallet and the vault program are
    read from an explicit environment; what a handler does to the outside
    (state setters apart) is recorded as a list of events. *)

From Stdlib Require Import ZArith Lia Bool List String Ascii.
From Stdlib Require Import SpecFloat.
Import ListNotations.
Local Open Scope string_scope.
Local Open Scope list_scope.
Local Open Scope Z_scope.
Set Warnings "-register-all".

(** ** Exceptions and fallible calls *)

(** A thrown value: an [Error] object with its message, or anything else. *)
Inductive thrown : Type :=
| JsError (message : string)
| JsNonError.

Inductive result (A : Type) : Type :=
| Ok (a : A)
| Throw (e : thrown).
Arguments Ok {A} a.
Arguments Throw {A} e.

Definition bind {A B : Type} (r : result A) (k : A -> result B) : result B :=
  match r with
  | Ok a => k a
  | Throw e => Throw e
  end.

(** ** JavaScript numbers *)

Module JS.

Definition number : Type := spec_float.

(** [Number(x)] for a [bigint] or [BN] [x]: the nearest double, ties to even. *)
Definition Number (z : Z) : number := binary_normalize 53 1024 z 0 false.

Definition add (x y : number) : number := SFadd 53 1024 x y.
Definition mul (x y : number) : number := SFmul 53 1024 x y.
Definition div (x y : number) : number := SFdiv 53 1024 x y.
Definition lt (x y : number) : bool := SFltb x y.
Definition le (x y : number) : bool := SFleb x y.
Definition gt (x y : number) : bool := SFltb y x.
Definition strict_eq (x y : number) : bool := SFeqb x y.

Definition NaN : number := S754_nan.
Definition zero : number := S754_zero false.

Definition isNaN (x : number) : bool :=
  match x with S754_nan => true | _ => false end.

(** [!x] is true exactly for [NaN], [+0] and [-0]. *)
Definition falsy (x : number) : bool :=
  match x with
  | S754_nan | S754_zero _ => true
  | _ => false
  end.

(** A double is a well-formed value of the type when its mantissa and
    exponent are in canonical form. *)
Definition wf (x : number) : bool := valid_binary 53 1024 x.

Definition signed (s : bool) (m : positive) : Z := if s then Zneg m else Zpos m.

(** The literals [100], [1_000_000] and [1]. *)
Definition n100 : number := Number 100.
Definition n1_000_000 : number := Number 1000000.
Definition one : number := Number 1.

(** [Math.floor]. *)
Definition Math_floor (x : number) : number :=
  match x with
  | S754_finite s m e =>
      if 0 <=? e then x
      else
        let z := signed s m / 2 ^ (- e) in
        if z =? 0 then S754_zero s else Number z
  | _ => x
  end.

(** [Math.pow(2, k)] for an integer [k]: the power of two when a double
    holds it, which is the case for [-1074 <= k <= 1023], [Infinity] above
    and 0 below. *)
Definition Math_pow_2 (k : Z) : number := binary_normalize 53 1024 1 k false.

Definition not_an_integer : thrown :=
  JsError "The number cannot be converted to a BigInt because it is not an integer".

(** [BigInt(x)]: the integer [x] denotes, a [RangeError] when [x] is not an
    integer. *)
Definition BigInt (x : number) : result Z :=
  match x with
  | S754_zero _ => Ok 0
  | S754_finite s m e =>
      if 0 <=? e then Ok (signed s m * 2 ^ e)
      else if Zpos m mod 2 ^ (- e) =? 0 then Ok (signed s m / 2 ^ (- e))
      else Throw not_an_integer
  | _ => Throw not_an_integer
  end.

End JS.

(** ** The redeemed amount ([handleRedeem], line 337) *)

(** [(totalShares * BigInt(Math.floor(redeemPercentNum * 100))) / BigInt(10000)];
    [bigint] division truncates. *)
Definition sharesToRedeem (totalShares : Z) (redeemPercentNum : JS.number)
  : result Z :=
  bind (JS.BigInt (JS.Math_floor (JS.mul redeemPercentNum JS.n100)))
       (fun bps => Ok (Z.quot (totalShares * bps) 10000)).
(** ** Component state ([useState], lines 31-45) *)

Inductive modal_mode : Type := Deposit | Redeem.

Definition pubkey : Type := string.

Record ui_state : Type := {
  loading : bool;
  modalMode : modal_mode;
  amount : string;
  redeemPercent : string;
  zcBalance : JS.number;
  vaultBalance : JS.number;
  userShareBalance : JS.number;
  userShareValue : JS.number;
  exchangeRate : JS.number;
  zcTotalSupply : JS.number;
  refreshing : bool;
  postTransactionRefreshing : bool;
  withdrawalsEnabled : bool;
  copiedWallet : bool
}.

Definition initial_state : ui_state := {|
  loading := false;
  modalMode := Deposit;
  amount := "";
  redeemPercent := "";
  zcBalance := JS.zero;
  vaultBalance := JS.zero;
  userShareBalance := JS.zero;
  userShareValue := JS.zero;
  exchangeRate := JS.zero;
  zcTotalSupply := JS.zero;
  refreshing := false;
  postTransactionRefreshing := false;
  withdrawalsEnabled := true;
  copiedWallet := false
|}.

Definition setLoading (v : bool) (st : ui_state) : ui_state :=
  {| loading := v; modalMode := modalMode st; amount := amount st;
     redeemPercent := redeemPercent st; zcBalance := zcBalance st;
     vaultBalance := vaultBalance st; userShareBalance := userShareBalance st;
     userShareValue := userShareValue st; exchangeRate := exchangeRate st;
     zcTotalSupply := zcTotalSupply st; refreshing := refreshing st;
     postTransactionRefreshing := postTransactionRefreshing st;
     withdrawalsEnabled := withdrawalsEnabled st; copiedWallet := copiedWallet st |}.

Definition setModalMode (v : modal_mode) (st : ui_state) : ui_state :=
  {| loading := loading st; modalMode := v; amount := amount st;
     redeemPercent := redeemPercent st; zcBalance := zcBalance st;
     vaultBalance := vaultBalance st; userShareBalance := userShareBalance st;
     userShareValue := userShareValue st; exchangeRate := exchangeRate st;
     zcTotalSupply := zcTotalSupply st; refreshing := refreshing st;
     postTransactionRefreshing := postTransactionRefreshing st;
     withdrawalsEnabled := withdrawalsEnabled st; copiedWallet := copiedWallet st |}.

Definition setAmount (v : string) (st : ui_state) : ui_state :=
  {| loading := loading st; modalMode := modalMode st; amount := v;
     redeemPercent := redeemPercent st; zcBalance := zcBalance st;
     vaultBalance := vaultBalance st; userShareBalance := userShareBalance st;
     userShareValue := userShareValue st; exchangeRate := exchangeRate st;
     zcTotalSupply := zcTotalSupply st; refreshing := refreshing st;
     postTransactionRefreshing := postTransactionRefreshing st;
     withdrawalsEnabled := withdrawalsEnabled st; copiedWallet := copiedWallet st |}.

Definition setRedeemPercent (v : string) (st : ui_state) : ui_state :=
  {| loading := loading st; modalMode := modalMode st; amount := amount st;
     redeemPercent := v; zcBalance := zcBalance st;
     vaultBalance := vaultBalance st; userShareBalance := userShareBalance st;
     userShareValue := userShareValue st; exchangeRate := exchangeRate st;
     zcTotalSupply := zcTotalSupply st; refreshing := refreshing st;
     postTransactionRefreshing := postTransactionRefreshing st;
     withdrawalsEnabled := withdrawalsEnabled st; copiedWallet := copiedWallet st |}.

Definition setZcBalance (v : JS.number) (st : ui_state) : ui_state :=
  {| loading := loading st; modalMode := modalMode st; amount := amount st;
     redeemPercent := redeemPercent st; zcBalance := v;
     vaultBalance := vaultBalance st; userShareBalance := userShareBalance st;
     userShareValue := userShareValue st; exchangeRate := exchangeRate st;
     zcTotalSupply := zcTotalSupply st; refreshing := refreshing st;
     postTransactionRefreshing := postTransactionRefreshing st;
     withdrawalsEnabled := withdrawalsEnabled st; copiedWallet := copiedWallet st |}.

Definition setVaultBalance (v : JS.number) (st : ui_state) : ui_state :=
  {| loading := loading st; modalMode := modalMode st; amount := amount st;
     redeemPercent := redeemPercent st; zcBalance := zcBalance st;
     vaultBalance := v; userShareBalance := userShareBalance st;
     userShareValue := userShareValue st; exchangeRate := exchangeRate st;
     zcTotalSupply := zcTotalSupply st; refreshing := refreshing st;
     postTransactionRefreshing := postTransactionRefreshing st;
     withdrawalsEnabled := withdrawalsEnabled st; copiedWallet := copiedWallet st |}.

Definition setUserShareBalance (v : JS.number) (st : ui_state) : ui_state :=
  {| loading := loading st; modalMode := modalMode st; amount := amount st;
     redeemPercent := redeemPercent st; zcBalance := zcBalance st;
     vaultBalance := vaultBalance st; userShareBalance := v;
     userShareValue := userShareValue st; exchangeRate := exchangeRate st;
     zcTotalSupply := zcTotalSupply st; refreshing := refreshing st;
     postTransactionRefreshing := postTransactionRefreshing st;
     withdrawalsEnabled := withdrawalsEnabled st; copiedWallet := copiedWallet st |}.

Definition setUserShareValue (v : JS.number) (st : ui_state) : ui_state :=
  {| loading := loading st; modalMode := modalMode st; amount := amount st;
     redeemPercent := redeemPercent st; zcBalance := zcBalance st;
     vaultBalance := vaultBalance st; userShareBalance := userShareBalance st;
     userShareValue := v; exchangeRate := exchangeRate st;
     zcTotalSupply := zcTotalSupply st; refreshing := refreshing st;
     postTransactionRefreshing := postTransactionRefreshing st;
     withdrawalsEnabled := withdrawalsEnabled st; copiedWallet := copiedWallet st |}.

Definition setExchangeRate (v : JS.number) (st : ui_state) : ui_state :=
  {| loading := loading st; modalMode := modalMode st; amount := amount st;
     redeemPercent := redeemPercent st; zcBalance := zcBalance st;
     vaultBalance := vaultBalance st; userShareBalance := userShareBalance st;
     userShareValue := userShareValue st; exchangeRate := v;
     zcTotalSupply := zcTotalSupply st; refreshing := refreshing st;
     postTransactionRefreshing := postTransactionRefreshing st;
     withdrawalsEnabled := withdrawalsEnabled st; copiedWallet := copiedWallet st |}.

Definition setZcTotalSupply (v : JS.number) (st : ui_state) : ui_state :=
  {| loading := loading st; modalMode := modalMode st; amount := amount st;
     redeemPercent := redeemPercent st; zcBalance := zcBalance st;
     vaultBalance := vaultBalance st; userShareBalance := userShareBalance st;
     userShareValue := userShareValue st; exchangeRate := exchangeRate st;
     zcTotalSupply := v; refreshing := refreshing st;
     postTransactionRefreshing := postTransactionRefreshing st;
     withdrawalsEnabled := withdrawalsEnabled st; copiedWallet := copiedWallet st |}.

Definition setRefreshing (v : bool) (st : ui_state) : ui_state :=
  {| loading := loading st; modalMode := modalMode st; amount := amount st;
     redeemPercent := redeemPercent st; zcBalance := zcBalance st;
     vaultBalance := vaultBalance st; userShareBalance := userShareBalance st;
     userShareValue := userShareValue st; exchangeRate := exchangeRate st;
     zcTotalSupply := zcTotalSupply st; refreshing := v;
     postTransactionRefreshing := postTransactionRefreshing st;
     withdrawalsEnabled := withdrawalsEnabled st; copiedWallet := copiedWallet st |}.

Definition setPostTransactionRefreshing (v : bool) (st : ui_state) : ui_state :=
  {| loading := loading st; modalMode := modalMode st; amount := amount st;
     redeemPercent := redeemPercent st; zcBalance := zcBalance st;
     vaultBalance := vaultBalance st; userShareBalance := userShareBalance st;
     userShareValue := userShareValue st; exchangeRate := exchangeRate st;
     zcTotalSupply := zcTotalSupply st; refreshing := refreshing st;
     postTransactionRefreshing := v;
     withdrawalsEnabled := withdrawalsEnabled st; copiedWallet := copiedWallet st |}.

Definition setWithdrawalsEnabled (v : bool) (st : ui_state) : ui_state :=
  {| loading := loading st; modalMode := modalMode st; amount := amount st;
     redeemPercent := redeemPercent st; zcBalance := zcBalance st;
     vaultBalance := vaultBalance st; userShareBalance := userShareBalance st;
     userShareValue := userShareValue st; exchangeRate := exchangeRate st;
     zcTotalSupply := zcTotalSupply st; refreshing := refreshing st;
     postTransactionRefreshing := postTransactionRefreshing st;
     withdrawalsEnabled := v; copiedWallet := copiedWallet st |}.

(** ** What a handler does to the outside *)

Inductive mint : Type := ZC_TOKEN_MINT | shareMint.

Inductive instruction : Type :=
| CreateAssociatedTokenAccount (payer ata owner : pubkey) (m : mint)
| DepositIx (depositAmountBN : Z) (signer : pubkey)
| RedeemIx (shares : Z) (signer : pubkey).

Record transaction : Type := {
  instructions : list instruction;
  recentBlockhash : string;
  feePayer : pubkey
}.

Inductive toast_kind : Type := ToastError | ToastSuccess.

(** The text of a toast: a fixed string, or one of the two templates
    [`Staked ${depositAmount} ZC to the vault`] and
    [`Redeemed ${redeemPercentNum}% of your vault shares for ZC`]. *)
Inductive message : Type :=
| Text (s : string)
| Staked (depositAmount : JS.number)
| Redeemed (redeemPercentNum : JS.number).

(** The two timer callbacks of the component: the retry of [fetchVaultData]
    (line 194) and the refresh after a confirmed transaction (lines 301 and
    402). *)
Inductive timer_callback : Type :=
| RetryFetchVaultData (retryCount maxRetries : nat)
| PostTransactionRefresh.

Inductive event : Type :=
| ConsoleLog (msg : string)
| ConsoleError (msg : string) (e : thrown)
| ShowToast (k : toast_kind) (msg : message)
| SetTimeout (cb : timer_callback) (ms : JS.number)
| SignAndSend (tx : transaction).

(** ** Handlers as state-and-exception computations *)

Definition action (A : Type) : Type :=
  ui_state -> ui_state * list event * result A.

Definition ret {A : Type} (a : A) : action A := fun st => (st, [], Ok a).

Definition bindA {A B : Type} (c : action A) (k : A -> action B) : action B :=
  fun st =>
    let '(st1, ev1, r) := c st in
    match r with
    | Ok a => let '(st2, ev2, r2) := k a st1 in (st2, ev1 ++ ev2, r2)
    | Throw e => (st1, ev1, Throw e)
    end.

(** [await p] for a call whose outcome the environment fixes. *)
Definition await {A : Type} (r : result A) : action A := fun st => (st, [], r).

Definition throw {A : Type} (e : thrown) : action A :=
  fun st => (st, [], Throw e).

Definition emit (e : event) : action unit := fun st => (st, [e], Ok tt).

Definition set (f : ui_state -> ui_state) : action unit :=
  fun st => (f st, [], Ok tt).

Definition try_catch {A : Type} (body : action A) (handler : thrown -> action A)
  : action A :=
  fun st =>
    let '(st1, ev1, r) := body st in
    match r with
    | Ok a => (st1, ev1, Ok a)
    | Throw e => let '(st2, ev2, r2) := handler e st1 in (st2, ev1 ++ ev2, r2)
    end.

Definition try_finally {A : Type} (body : action A) (fin : action unit)
  : action A :=
  fun st =>
    let '(st1, ev1, r) := body st in
    let '(st2, ev2, _) := fin st1 in
    (st2, ev1 ++ ev2, r).

Declare Scope action_scope.
Delimit Scope action_scope with action.
Notation "x <- c ;; k" := (bindA c (fun x => k))
  (at level 61, c at next level, right associativity) : action_scope.
Notation "c ;; k" := (bindA c (fun _ => k))
  (at level 61, right associativity) : action_scope.
Local Open Scope action_scope.

(** ** The surroundings of the component *)

Definition provider : Type := string.

(** [wallet] comes from [useWallet]; the wallet adapters are the [solana] and
    [solflare] properties of [window]; [anchor_provider] is the outcome of
    [new AnchorProvider(...)]. *)
Record context : Type := {
  wallet : option pubkey;
  window_defined : bool;
  window_solana : option provider;
  window_solflare : option provider;
  anchor_provider : result unit
}.

(** [window.solana || window.solflare]. *)
Definition walletProvider (ctx : context) : option provider :=
  match window_solana ctx with
  | Some p => Some p
  | None => window_solflare ctx
  end.

(** [getProvider], lines 49-66, with what it prints. *)
Definition getProvider (ctx : context) : option provider * list event :=
  if negb (window_defined ctx) then (None, [])
  else
    match wallet ctx, walletProvider ctx with
    | Some _, Some p =>
        match anchor_provider ctx with
        | Ok _ => (Some p, [])
        | Throw error => (None, [ConsoleError "Failed to create provider:" error])
        end
    | _, _ => (None, [])
    end.

(** [getProgram], lines 68-72: a program exactly when there is a provider. *)
Definition getProgram (ctx : context) : option provider := fst (getProvider ctx).

(** The account of the vault state as [getAccountInfo] returns it, with the
    outcome of decoding its data and reading [operationsEnabled]. *)
Record account_info : Type := {
  decode_operationsEnabled : result bool
}.

(** What the RPC node and the vault program answer while one call runs. *)
Record chain_reads : Type := {
  getAccountInfo_vaultState : result (option account_info);
  view_totalAssets : result Z;
  view_previewRedeem : Z -> result Z;
  getAssociatedTokenAddress : mint -> pubkey -> result pubkey;
  getAccount : pubkey -> result Z;
  getParsedAccountInfo_supply : result (option Z)
}.

(** [Number(x) / 1_000_000]. *)
Definition toDisplay (raw : Z) : JS.number := JS.div (JS.Number raw) JS.n1_000_000.

(** ** [fetchZcBalance], lines 84-105 *)

Definition fetchZcBalance (ctx : context) (rd : chain_reads) : action unit :=
  match wallet ctx with
  | None => set (setZcBalance JS.zero)
  | Some w =>
      try_catch
        (userTokenAccount <- await (getAssociatedTokenAddress rd ZC_TOKEN_MINT w) ;;
         amt <- await (getAccount rd userTokenAccount) ;;
         set (setZcBalance (toDisplay amt)) ;;
         mintInfo <- await (getParsedAccountInfo_supply rd) ;;
         match mintInfo with
         | Some supply => set (setZcTotalSupply (toDisplay supply))
         | None => ret tt
         end)
        (fun _ =>
           emit (ConsoleLog "User ZC token account not found") ;;
           set (setZcBalance JS.zero))
  end.

(** ** [fetchVaultData], lines 107-207 *)

(** Lines 128-139. *)
Definition readVaultState (rd : chain_reads) : action unit :=
  try_catch
    (vaultStateAccountInfo <- await (getAccountInfo_vaultState rd) ;;
     match vaultStateAccountInfo with
     | Some info =>
         operationsEnabled <- await (decode_operationsEnabled info) ;;
         set (setWithdrawalsEnabled operationsEnabled)
     | None => set (setWithdrawalsEnabled false)
     end)
    (fun error =>
       emit (ConsoleError "Failed to fetch vault state:" error) ;;
       set (setWithdrawalsEnabled false)).

(** Lines 141-153. *)
Definition readTotalAssets (rd : chain_reads) : action unit :=
  try_catch
    (totalAssets <- await (view_totalAssets rd) ;;
     set (setVaultBalance (toDisplay totalAssets)))
    (fun error =>
       emit (ConsoleError "Failed to fetch vault metrics:" error) ;;
       set (setVaultBalance JS.zero)).

(** Lines 155-169. *)
Definition readExchangeRate (rd : chain_reads) : action unit :=
  try_catch
    (assetsForOneShare <- await (view_previewRedeem rd 1000000) ;;
     set (setExchangeRate (toDisplay assetsForOneShare)))
    (fun error =>
       emit (ConsoleError "Failed to fetch exchange rate:" error) ;;
       set (setExchangeRate JS.one)).

(** The body of the last [try], lines 172-189. *)
Definition readUserShares (w : pubkey) (rd : chain_reads) : action unit :=
  userShareAccount <- await (getAssociatedTokenAddress rd shareMint w) ;;
  amt <- await (getAccount rd userShareAccount) ;;
  let shareBalance := toDisplay amt in
  set (setUserShareBalance shareBalance) ;;
  if JS.gt shareBalance JS.zero then
    assets <- await (view_previewRedeem rd amt) ;;
    set (setUserShareValue (toDisplay assets))
  else set (setUserShareValue JS.zero).

(** [Math.pow(2, retryCount) * 1000], in milliseconds, as the doubles give
    it: [2 ^ retryCount * 1000] up to [retryCount = 1014], [Infinity] from
    1015 on. *)
Definition retry_delay (retryCount : nat) : JS.number :=
  JS.mul (JS.Math_pow_2 (Z.of_nat retryCount)) (JS.Number 1000).

(** One invocation of [fetchVaultData(retryCount, maxRetries)].  The program
    addresses of lines 115-126 are constants and raise nothing.  The two
    arguments are the counts the component passes: 0 and 3 by default, then
    [retryCount + 1] from the timer; counts up to [2 ^ 53] are exact as
    doubles, and so are [retryCount + 1] and [retryCount < maxRetries] on
    them. *)
Definition fetchVaultData (ctx : context) (rd : chain_reads)
    (retryCount maxRetries : nat) : action unit :=
  try_finally
    (try_catch
       (set (setRefreshing true) ;;
        match getProgram ctx, wallet ctx with
        | Some _, Some w =>
            readVaultState rd ;;
            readTotalAssets rd ;;
            readExchangeRate rd ;;
            try_catch
              (readUserShares w rd)
              (fun _ =>
                 emit (ConsoleLog "User share account not found") ;;
                 if (retryCount <? maxRetries)%nat then
                   emit (SetTimeout
                           (RetryFetchVaultData (retryCount + 1) maxRetries)
                           (retry_delay retryCount))
                 else
                   set (setUserShareBalance JS.zero) ;;
                   set (setUserShareValue JS.zero))
        | _, _ => emit (ConsoleLog "No program or wallet available")
        end)
       (fun error => emit (ConsoleError "Failed to fetch vault data:" error)))
    (set (setRefreshing false)).

(** The default arguments of [fetchVaultData]. *)
Definition default_retryCount : nat := 0.
Definition default_maxRetries : nat := 3.

(** The retry a list of events has scheduled, if any. *)
Fixpoint pending_retry (evs : list event) : option (nat * nat) :=
  match evs with
  | [] => None
  | SetTimeout (RetryFetchVaultData rc mr) _ :: _ => Some (rc, mr)
  | _ :: evs' => pending_retry evs'
  end.

(** An invocation together with the retries its timers start: the timer
    callback of line 194 calls [fetchVaultData] again.  [reads k] is what the
    chain answers when the invocation with [retryCount = k] runs. *)
Fixpoint run_fetchVaultData (fuel : nat) (ctx : context)
    (reads : nat -> chain_reads) (retryCount maxRetries : nat) (st : ui_state)
  : option (ui_state * list event) :=
  match fuel with
  | O => None
  | S fuel' =>
      let '(st1, ev1, _) :=
        fetchVaultData ctx (reads retryCount) retryCount maxRetries st in
      match pending_retry ev1 with
      | Some (rc, mr) =>
          match run_fetchVaultData fuel' ctx reads rc mr st1 with
          | Some (st2, ev2) => Some (st2, ev1 ++ ev2)
          | None => None
          end
      | None => Some (st1, ev1)
      end
  end.

(** The delays of the timers in a list of events, and how often a line was
    printed. *)
Fixpoint timer_delays (evs : list event) : list JS.number :=
  match evs with
  | [] => []
  | SetTimeout _ ms :: evs' => ms :: timer_delays evs'
  | _ :: evs' => timer_delays evs'
  end.

Fixpoint count_log (msg : string) (evs : list event) : nat :=
  match evs with
  | [] => 0
  | ConsoleLog m :: evs' =>
      ((if String.eqb m msg then 1 else 0) + count_log msg evs')%nat
  | _ :: evs' => count_log msg evs'
  end.

Fixpoint submissions (evs : list event) : list transaction :=
  match evs with
  | [] => []
  | SignAndSend tx :: evs' => tx :: submissions evs'
  | _ :: evs' => submissions evs'
  end.

(** ** The wallet effect, lines 209-214, and the timer callbacks *)




(** ** The wallet and the transaction calls *)

(** [new_BN] is [new BN(x)] for a [number] [x]; [instruction_built] is the
    outcome of [program.methods.<m>(...).accounts(...).instruction()]. *)
Record wallet_rpc : Type := {
  new_BN : JS.number -> result Z;
  instruction_built : instruction -> result unit;
  getLatestBlockhash : result (string * Z);
  signAndSendTransaction : transaction -> result string;
  confirmTransaction : string -> result unit
}.

(** [error instanceof Error ? error.message : fallback]. *)
Definition error_message (error : thrown) (fallback : string) : string :=
  match error with
  | JsError m => m
  | JsNonError => fallback
  end.

(** The pattern [/^\d*\.?\d*$/] of the two inputs. *)
Definition is_digit (c : ascii) : bool :=
  let n := nat_of_ascii c in ((48 <=? n) && (n <=? 57))%nat.

Fixpoint all_digits (s : string) : bool :=
  match s with
  | EmptyString => true
  | String c s' => is_digit c && all_digits s'
  end.

Fixpoint decimal_pattern (s : string) : bool :=
  match s with
  | EmptyString => true
  | String c s' =>
      if is_digit c then decimal_pattern s'
      else if Ascii.eqb c "." then all_digits s'
      else false
  end.

Section Handlers.

(** The built-in [parseFloat]. *)
Variable parseFloat : string -> JS.number.

Variable ctx : context.
Variable rd : chain_reads.
Variable rpc : wallet_rpc.

(** The [try] block of [handleDeposit], lines 230-304. *)
Definition handleDeposit_try (depositAmount : JS.number) (w : pubkey)
  : action unit :=
  set (setLoading true) ;;
  match getProgram ctx with
  | None => throw (JsError "Program not available")
  | Some _ => ret tt
  end ;;
  depositAmountBN <- await (new_BN rpc (JS.mul depositAmount JS.n1_000_000)) ;;
  senderTokenAccount <- await (getAssociatedTokenAddress rd ZC_TOKEN_MINT w) ;;
  senderShareAccount <- await (getAssociatedTokenAddress rd shareMint w) ;;
  before <- try_catch
              (await (getAccount rd senderShareAccount) ;; ret [])
              (fun _ => ret [CreateAssociatedTokenAccount
                               w senderShareAccount w shareMint]) ;;
  let depositIx := DepositIx depositAmountBN w in
  await (instruction_built rpc depositIx) ;;
  latest <- await (getLatestBlockhash rpc) ;;
  let transaction := {| instructions := before ++ [depositIx];
                        recentBlockhash := fst latest;
                        feePayer := w |} in
  emit (SignAndSend transaction) ;;
  signature <- await (signAndSendTransaction rpc transaction) ;;
  await (confirmTransaction rpc signature) ;;
  emit (ShowToast ToastSuccess (Staked depositAmount)) ;;
  set (setAmount "") ;;
  set (setPostTransactionRefreshing true) ;;
  emit (SetTimeout PostTransactionRefresh (JS.Number 8000)).

(** [handleDeposit], lines 216-311.  The handler reads [amount] from the
    state it was rendered with. *)
Definition handleDeposit : action unit :=
  fun st =>
    let depositAmount := parseFloat (amount st) in
    if JS.falsy depositAmount || JS.le depositAmount JS.zero then
      emit (ShowToast ToastError (Text "Please enter a valid deposit amount")) st
    else
      match wallet ctx, walletProvider ctx with
      | Some w, Some _ =>
          try_finally
            (try_catch
               (handleDeposit_try depositAmount w)
               (fun error =>
                  emit (ConsoleError "Deposit failed:" error) ;;
                  emit (ShowToast ToastError
                          (Text (error_message error "Failed to deposit tokens")))))
            (set (setLoading false)) st
      | _, _ =>
          emit (ShowToast ToastError (Text "Please connect your wallet first")) st
      end.

(** The [try] block of [handleRedeem], lines 327-405. *)
Definition handleRedeem_try (redeemPercentNum : JS.number) (w : pubkey)
  : action unit :=
  set (setLoading true) ;;
  match getProgram ctx with
  | None => throw (JsError "Program not available")
  | Some _ => ret tt
  end ;;
  userShareAccount <- await (getAssociatedTokenAddress rd shareMint w) ;;
  totalShares <- await (getAccount rd userShareAccount) ;;
  shares <- await (sharesToRedeem totalShares redeemPercentNum) ;;
  senderTokenAccount <- await (getAssociatedTokenAddress rd ZC_TOKEN_MINT w) ;;
  let senderShareAccount := userShareAccount in
  before <- try_catch
              (await (getAccount rd senderTokenAccount) ;; ret [])
              (fun _ => ret [CreateAssociatedTokenAccount
                               w senderTokenAccount w ZC_TOKEN_MINT]) ;;
  let redeemIx := RedeemIx shares w in
  await (instruction_built rpc redeemIx) ;;
  latest <- await (getLatestBlockhash rpc) ;;
  let transaction := {| instructions := before ++ [redeemIx];
                        recentBlockhash := fst latest;
                        feePayer := w |} in
  emit (SignAndSend transaction) ;;
  signature <- await (signAndSendTransaction rpc transaction) ;;
  await (confirmTransaction rpc signature) ;;
  emit (ShowToast ToastSuccess (Redeemed redeemPercentNum)) ;;
  set (setRedeemPercent "") ;;
  set (setPostTransactionRefreshing true) ;;
  emit (SetTimeout PostTransactionRefresh (JS.Number 8000)).

(** [handleRedeem], lines 313-412. *)
Definition handleRedeem : action unit :=
  fun st =>
    let redeemPercentNum := parseFloat (redeemPercent st) in
    if JS.falsy redeemPercentNum || JS.le redeemPercentNum JS.zero
       || JS.gt redeemPercentNum JS.n100 then
      emit (ShowToast ToastError
              (Text "Please enter a valid percentage between 0 and 100")) st
    else
      match wallet ctx, walletProvider ctx with
      | Some w, Some _ =>
          try_finally
            (try_catch
               (handleRedeem_try redeemPercentNum w)
               (fun error =>
                  emit (ConsoleError "Redemption failed:" error) ;;
                  emit (ShowToast ToastError
                          (Text (error_message error "Failed to redeem shares")))))
            (set (setLoading false)) st
      | _, _ =>
          emit (ShowToast ToastError (Text "Please connect your wallet first")) st
      end.

(** ** The inputs and the action button *)

(** [onChange] of the amount input, lines 582-587. *)
Definition onChange_amount (value : string) (st : ui_state) : ui_state :=
  if String.eqb value "" || decimal_pattern value then setAmount value st
  else st.

(** [onChange] of the percentage input, lines 644-649. *)
Definition onChange_redeemPercent (value : string) (st : ui_state) : ui_state :=
  if String.eqb value ""
     || (decimal_pattern value && JS.le (parseFloat value) JS.n100)
  then setRedeemPercent value st
  else st.

(** The percentage input is disabled, line 655. *)
Definition redeemPercent_input_disabled (st : ui_state) : bool :=
  negb (withdrawalsEnabled st)
  || match wallet ctx with Some _ => false | None => true end.

(** [onClick] of the MAX button of the redeem panel, lines 660-664. *)
Definition onClick_max_redeem (st : ui_state) : ui_state :=
  if JS.gt (userShareBalance st) JS.zero then setRedeemPercent "100" st else st.

(** The [disabled] attribute of the action button, lines 732-735. *)
Definition action_button_disabled (st : ui_state) : bool :=
  loading st
  || match modalMode st with
     | Deposit =>
         String.eqb (amount st) "" || JS.le (parseFloat (amount st)) JS.zero
     | Redeem =>
         String.eqb (redeemPercent st) ""
         || JS.le (parseFloat (redeemPercent st)) JS.zero
         || negb (withdrawalsEnabled st)
         || JS.strict_eq (userShareBalance st) JS.zero
     end.

Inductive click_handler : Type :=
| ConnectWallet
| HandleDeposit
| HandleRedeem.

Record button : Type := {
  onClick : click_handler;
  disabled : bool
}.

(** The button under the panel, lines 691-741. *)
Definition action_button (st : ui_state) : button :=
  match wallet ctx with
  | None => {| onClick := ConnectWallet; disabled := loading st |}
  | Some _ =>
      {| onClick := match modalMode st with
                    | Deposit => HandleDeposit
                    | Redeem => HandleRedeem
                    end;
         disabled := action_button_disabled st |}
  end.

(** The handler a click on the button starts; a disabled button starts
    none. *)
Definition click (st : ui_state) : option click_handler :=
  let b := action_button st in
  if disabled b then None else Some (onClick b).

(** The label of the action button, line 738. *)
Definition action_button_label (st : ui_state) : string :=
  if loading st then "Processing..."
  else match modalMode st with
       | Deposit => "Stake"
       | Redeem =>
           if negb (withdrawalsEnabled st) then "Redemptions Disabled"
           else if JS.strict_eq (userShareBalance st) JS.zero
                then "No Shares to Redeem"
                else "Redeem"
       end.

End Handlers.

(** ** A reference [parseFloat] for the strings the inputs hold

    The state strings [amount] and [redeemPercent] come from the two
    [onChange] handlers and the MAX button, so they are empty or match
    [decimal_pattern].  On such strings [parseFloat] reads the digits as a
    decimal fraction and rounds it to the nearest double; with no digit at
    all it returns [NaN].  Other strings are outside this definition. *)

Definition digit_value (c : ascii) : Z := Z.of_nat (nat_of_ascii c) - 48.

(** The digits read so far as an integer, and how many there are. *)
Fixpoint read_digits (s : string) (acc : Z) (n : nat) : Z * nat * string :=
  match s with
  | String c s' =>
      if is_digit c then read_digits s' (10 * acc + digit_value c) (S n)
      else (acc, n, s)
  | EmptyString => (acc, n, s)
  end.

Definition parseFloat_decimal (s : string) : JS.number :=
  let '(int_part, n_int, rest) := read_digits s 0 0 in
  let '(mantissa, n_frac) :=
    match rest with
    | String "." rest' =>
        let '(m, n, _) := read_digits rest' int_part 0 in (m, n)
    | _ => (int_part, O)
    end in
  if (n_int + n_frac =? 0)%nat then JS.NaN
  else
    match mantissa with
    | Zpos m =>
        SFdiv 53 1024 (S754_finite false m 0)
              (S754_finite false (Z.to_pos (10 ^ Z.of_nat n_frac)) 0)
    | _ => JS.zero
    end.

(** ** The market-data route ([route.ts], [POST]) *)

Module Route.

Notation "x <~ c ;; k" := (bind c (fun x => k))
  (at level 61, c at next level, right associativity).

Inductive json : Type :=
| JNull
| JBool (b : bool)
| JNumber (n : JS.number)
| JString (s : string)
| JArray (items : list json)
| JObject (fields : list (string * json)).

(** A JavaScript value as the route handles it: [undefined], or a value
    that came out of [JSON.parse]. *)
Inductive value : Type :=
| Undefined
| Json (j : json).

(** The properties of an object are listed as [JSON.parse] leaves them, one
    entry for a key. *)
Fixpoint lookup (key : string) (fields : list (string * json)) : value :=
  match fields with
  | [] => Undefined
  | (k, v) :: fields' => if String.eqb k key then Json v else lookup key fields'
  end.

(** [v.key] for the keys the route reads ([tokenAddress], [data], [price],
    ...), none of which is a property of strings, arrays, numbers or
    booleans: reading from [null] or [undefined] throws a [TypeError], and
    reading from a primitive or an array gives [undefined]. *)
Definition get (v : value) (key : string) : result value :=
  match v with
  | Undefined | Json JNull =>
      Throw (JsError "Cannot read properties of null or undefined")
  | Json (JObject fields) => Ok (lookup key fields)
  | Json _ => Ok Undefined
  end.

Definition truthy (v : value) : bool :=
  match v with
  | Undefined | Json JNull => false
  | Json (JBool b) => b
  | Json (JNumber n) => negb (JS.falsy n)
  | Json (JString s) => negb (String.eqb s "")
  | Json (JArray _) | Json (JObject _) => true
  end.

(** [a || b]. *)
Definition or (a b : value) : value := if truthy a then a else b.

(** An object literal as [JSON.stringify] writes it: properties whose value
    is [undefined] are left out. *)
Fixpoint object (props : list (string * value)) : list (string * json) :=
  match props with
  | [] => []
  | (k, Undefined) :: props' => object props'
  | (k, Json j) :: props' => (k, j) :: object props'
  end.

(** The [Response] of the upstream: [ok], [status], which is an unsigned
    short, and the outcome of [await response.json()]. *)
Record upstream : Type := {
  ok : bool;
  upstream_status : Z;
  upstream_json : result json
}.

(** What the request and the outside answer: [await request.json()],
    [shouldUseMockBirdeye()], [mockBirdeye.getTokenMarketData(tokenAddress)]
    and the [fetch] of the Birdeye URL built from [tokenAddress]. *)
Record request_env : Type := {
  request_json : result json;
  shouldUseMockBirdeye : bool;
  getTokenMarketData : value -> result json;
  fetch : value -> result upstream
}.

Inductive log : Type :=
| LogMock (tokenAddress : value) (mockData : json)
| LogError (msg : string) (e : thrown).

(** The document that [JSON.stringify] writes for a value that came out of
    [JSON.parse], given as the value a reader of the response parses back:
    a number that is not finite is written as [null], and [-0] as [0]. *)
Fixpoint JSON_stringify (j : json) : json :=
  match j with
  | JNumber (S754_finite _ _ _) => j
  | JNumber (S754_zero _) => JNumber JS.zero
  | JNumber _ => JNull
  | JArray items => JArray (map JSON_stringify items)
  | JObject fields =>
      JObject (map (fun '(k, v) => (k, JSON_stringify v)) fields)
  | _ => j
  end.

Record response : Type := {
  status : Z;
  body : json
}.

(** The statuses that go with no body (Fetch standard, null body status). *)
Definition null_body_status (s : Z) : bool :=
  (s =? 101) || (s =? 103) || (s =? 204) || (s =? 205) || (s =? 304).

Definition status_out_of_range : thrown :=
  JsError "The status provided is outside the range [200, 599]".

Definition body_with_null_body_status : thrown :=
  JsError "Response with null body status cannot have body".

(** [NextResponse.json(data, { status })], which is [Response.json] of the
    Fetch standard: the body is the JSON text of [data], and the constructor
    throws a [RangeError] for a status outside 200..599 and a [TypeError]
    for a body with a null body status.  The status is 200 when none is
    given. *)
Definition NextResponse_json (data : json) (s : Z) : result response :=
  if (s <? 200) || (599 <? s) then Throw status_out_of_range
  else if null_body_status s then Throw body_with_null_body_status
  else Ok {| status := s; body := JSON_stringify data |}.

Definition failure (error : string) : json :=
  JObject [("success", JBool false); ("data", JNull); ("error", JString error)].

Definition zero : value := Json (JNumber JS.zero).

(** The normalised object of lines 49-60. *)
Definition normalize (data : value) : result json :=
  price <~ get data "price" ;;
  liquidity <~ get data "liquidity" ;;
  totalSupply <~ get data "totalSupply" ;;
  circulatingSupply <~ get data "circulatingSupply" ;;
  fdv <~ get data "fdv" ;;
  marketCap <~ get data "marketCap" ;;
  market_cap <~ get data "market_cap" ;;
  priceChange24h <~ get data "priceChange24h" ;;
  price_change_24h <~ get data "price_change_24h" ;;
  Ok (JObject (object
    [("success", Json (JBool true));
     ("data", Json (JObject (object
        [("price", or price zero);
         ("liquidity", or liquidity zero);
         ("total_supply", or totalSupply zero);
         ("circulating_supply", or circulatingSupply zero);
         ("fdv", or fdv zero);
         ("market_cap", or (or marketCap market_cap) zero);
         ("price_change_24h", or priceChange24h price_change_24h)])))])).

(** The [try] block, lines 8-60. *)
Definition POST_try (env : request_env) : result (response * list log) :=
  body <~ request_json env ;;
  tokenAddress <~ get (Json body) "tokenAddress" ;;
  if negb (truthy tokenAddress) then
    r <~ NextResponse_json (failure "Token address is required") 400 ;;
    Ok (r, [])
  else if shouldUseMockBirdeye env then
    mockData <~ getTokenMarketData env tokenAddress ;;
    r <~ NextResponse_json mockData 200 ;;
    Ok (r, [LogMock tokenAddress mockData])
  else
    upstream_response <~ fetch env tokenAddress ;;
    if negb (ok upstream_response) then
      r <~ NextResponse_json (failure "Failed to fetch market data")
             (upstream_status upstream_response) ;;
      Ok (r, [])
    else
      responseData <~ upstream_json upstream_response ;;
      d <~ get (Json responseData) "data" ;;
      let data := or d (Json responseData) in
      out <~ normalize data ;;
      r <~ NextResponse_json out 200 ;;
      Ok (r, []).

(** The answer of the [catch] clause, lines 61-65: the constructor accepts
    the status 500. *)
Definition internal_error : response :=
  {| status := 500;
     body := JSON_stringify (failure "Failed to fetch market data") |}.

(** [POST], lines 4-66. *)
Definition POST (env : request_env) : response * list log :=
  match POST_try env with
  | Ok r => r
  | Throw error =>
      (internal_error, [LogError "Error fetching market data:" error])
  end.

(** A request with the mock off, and an upstream that limits the rate. *)
Definition sample_env (request : result json) (response : upstream)
  : request_env := {|
  request_json := request;
  shouldUseMockBirdeye := false;
  getTokenMarketData := fun _ => Ok JNull;
  fetch := fun _ => Ok response
|}.

Definition rate_limited : upstream :=
  {| ok := false; upstream_status := 429; upstream_json := Ok JNull |}.

(** An upstream that answers 304 Not Modified. *)
Definition not_modified : upstream :=
  {| ok := false; upstream_status := 304; upstream_json := Ok JNull |}.

(** An upstream whose price is too large for a double: [JSON.parse] reads
    [1e400] as [Infinity]. *)
Definition overflowing_price : upstream :=
  {| ok := true; upstream_status := 200;
     upstream_json :=
       Ok (JObject [("success", JBool true);
                    ("data", JObject [("price", JNumber (S754_infinity false));
                                      ("liquidity", JNumber (JS.Number 3));
                                      ("marketCap", JNumber (JS.Number 0))])]) |}.

(** A property of the answer as it is read back; a property that is absent
    reads as [undefined]. *)
Definition written (v : value) : value :=
  match v with
  | Undefined => Undefined
  | Json j => Json (JSON_stringify j)
  end.

End Route.

(** ** Sample surroundings *)

Definition sample_wallet : pubkey := "9xQeWvG816bUx9EPjHmaT23yvVM2ZWbrrpZb9PusVFin".

Definition connected : context := {|
  wallet := Some sample_wallet;
  window_defined := true;
  window_solana := Some "phantom";
  window_solflare := None;
  anchor_provider := Ok tt
|}.

Definition not_found : thrown := JsError "TokenAccountNotFoundError".

(** The associated token account of a mint, as an address. *)
Definition sample_ata (m : mint) (owner : pubkey) : result pubkey :=
  Ok (match m with
      | ZC_TOKEN_MINT => "zc-account-of-" ++ owner
      | shareMint => "share-account-of-" ++ owner
      end)%string.

(** A vault program for the examples, which pays shares their pro-rata part
    of the assets, rounded down to a base unit.  The vault program itself
    is not part of the sources: the component only sees its answers. *)
Definition sample_previewRedeem (totalAssets totalShares shares : Z) : Z :=
  shares * totalAssets / totalShares.

(** A vault with [totalAssets] base units behind [totalShares] shares, open
    for redemption, and a wallet that holds [zc] base units of the token and,
    when [shares] is given, that many shares. *)
Definition sample_reads (totalAssets totalShares zc : Z) (shares : option Z)
  : chain_reads := {|
  getAccountInfo_vaultState := Ok (Some {| decode_operationsEnabled := Ok true |});
  view_totalAssets := Ok totalAssets;
  view_previewRedeem := fun s => Ok (sample_previewRedeem totalAssets totalShares s);
  getAssociatedTokenAddress := sample_ata;
  getAccount := fun a =>
    if String.eqb a ("zc-account-of-" ++ sample_wallet)%string then Ok zc
    else match shares with
         | Some b => Ok b
         | None => Throw not_found
         end;
  getParsedAccountInfo_supply := Ok (Some 1000000000000000)
|}.

(** The share account appears at the second retry. *)
Definition reads_after_two_failures (k : nat) : chain_reads :=
  sample_reads 4000000000001 3000000000000 0
    (if (k <? 2)%nat then None else Some 1500000).

(** The share account is there from the start, but the vault's view call for
    the balance fails at the first attempt. *)
Definition preview_fails_once (k : nat) : chain_reads :=
  let rd := sample_reads 4000000000001 3000000000000 0 (Some 1500000) in
  {| getAccountInfo_vaultState := getAccountInfo_vaultState rd;
     view_totalAssets := view_totalAssets rd;
     view_previewRedeem := fun s =>
       if (k =? 0)%nat && (s =? 1500000)
       then Throw (JsError "429 Too Many Requests")
       else view_previewRedeem rd s;
     getAssociatedTokenAddress := getAssociatedTokenAddress rd;
     getAccount := getAccount rd;
     getParsedAccountInfo_supply := getParsedAccountInfo_supply rd |}.

(** A panel that shows 7 shares worth 9 tokens. *)
Definition held_position : ui_state :=
  setUserShareValue (toDisplay 9000000)
    (setUserShareBalance (toDisplay 7000000) initial_state).

(** A wallet adapter and a node that accept everything. *)
Definition sample_rpc : wallet_rpc := {|
  new_BN := fun x =>
    if JS.lt x (JS.Number (2 ^ 53)) then JS.BigInt (JS.Math_floor x)
    else Throw (JsError "Assertion failed");
  instruction_built := fun _ => Ok tt;
  getLatestBlockhash := Ok ("blockhash", 1000);
  signAndSendTransaction := fun _ => Ok "signature";
  confirmTransaction := fun _ => Ok tt
|}.

(** A wallet adapter whose user rejects the request. *)
Definition rejecting_rpc : wallet_rpc := {|
  new_BN := new_BN sample_rpc;
  instruction_built := fun _ => Ok tt;
  getLatestBlockhash := Ok ("blockhash", 1000);
  signAndSendTransaction := fun _ => Throw (JsError "User rejected the request");
  confirmTransaction := fun _ => Ok tt
|}.

(** ** Auxiliary definitions for the proofs *)

(** An event list that only holds [console.error] lines. *)
Definition quiet (evs : list event) : Prop :=
  Forall (fun e => match e with ConsoleError _ _ => True | _ => False end) evs.

(** The end of an invocation of [fetchVaultData] once the share account has
    been read with outcome [x]: lines 190-206. *)
Definition settle (retryCount maxRetries : nat)
    (x : ui_state * list event * result unit) : ui_state * list event :=
  let '(st, evs, r) := x in
  match r with
  | Ok _ => (setRefreshing false st, evs)
  | Throw _ =>
      if (retryCount <? maxRetries)%nat then
        (setRefreshing false st,
         evs ++ [ConsoleLog "User share account not found";
                 SetTimeout (RetryFetchVaultData (retryCount + 1) maxRetries)
                            (retry_delay retryCount)])
      else
        (setRefreshing false (setUserShareValue JS.zero (setUserShareBalance JS.zero st)),
         evs ++ [ConsoleLog "User share account not found"])
  end.

Definition inexact (r : shr_record) : bool := shr_r r || shr_s r.

(** What [k] single shifts of [(M, false, false)] have kept and lost. *)
Definition shifted (M : Z) (k : Z) (r : shr_record) : Prop :=
  0 <= shr_m r /\ shr_m r * 2 ^ k <= M /\ M < (shr_m r + 1) * 2 ^ k /\
  (inexact r = true -> shr_m r * 2 ^ k < M).

(** The integers up to [n] survive [Number] followed by [BigInt]. *)
Fixpoint exact_upto (n : nat) : bool :=
  match JS.BigInt (JS.Number (Z.of_nat n)) with
  | Ok z => z =? Z.of_nat n
  | Throw _ => false
  end &&
  match n with
  | O => true
  | S n' => exact_upto n'
  end.

(** ** [formatAddress], lines 414-416 *)

(** [s.slice(0, n)] and [s.slice(-n)], on strings of one-byte characters as
    addresses are. *)
Definition slice_first (n : nat) (s : string) : string := substring 0 n s.

Definition slice_last (n : nat) (s : string) : string :=
  substring (String.length s - n) n s.

Definition formatAddress (address : string) : string :=
  (slice_first 4 address ++ "..." ++ slice_last 4 address)%string.

(** ** Mode buttons, lines 523-540 *)

Definition toggle_modalMode (st : ui_state) : ui_state :=
  setModalMode (match modalMode st with Deposit => Redeem | Redeem => Deposit end) st.

(** ** The refresh after a transaction, lines 301-304 and 402-405

    [await Promise.all([fetchVaultData(), fetchZcBalance()])] followed by
    [setPostTransactionRefreshing(false)].  The two calls run interleaved;
    this is the order in which they start. *)
Definition postTransactionRefresh (ctx : context) (rd : chain_reads)
  : action unit :=
  fetchVaultData ctx rd default_retryCount default_maxRetries ;;
  fetchZcBalance ctx rd ;;
  set (setPostTransactionRefreshing false).

(** The strings the percentage input can hold. *)
Definition percent_ok (parseFloat : string -> JS.number) (s : string) : Prop :=
  s = "" \/
  (decimal_pattern s = true /\ JS.le (parseFloat s) JS.n100 = true).

(** A position that one read of the share account explains: zero and zero,
    or the balance of the account at some attempt [k] with the value the
    vault gave for it then. *)
Definition position_from_one_read (reads : nat -> chain_reads) (w : pubkey)
    (st : ui_state) : Prop :=
  (userShareBalance st = JS.zero /\ userShareValue st = JS.zero) \/
  exists k a amt,
    getAssociatedTokenAddress (reads k) shareMint w = Ok a /\
    getAccount (reads k) a = Ok amt /\
    userShareBalance st = toDisplay amt /\
    ((JS.gt (toDisplay amt) JS.zero = false /\ userShareValue st = JS.zero) \/
     (exists assets, JS.gt (toDisplay amt) JS.zero = true /\
                     view_previewRedeem (reads k) amt = Ok assets /\
                     userShareValue st = toDisplay assets)).

(** A position that the read of the share account from [rd] explains: the
    balance of the account with the value the vault gave for it. *)
Definition position_read_from (rd : chain_reads) (w : pubkey) (st : ui_state)
  : Prop :=
  exists a amt,
    getAssociatedTokenAddress rd shareMint w = Ok a /\
    getAccount rd a = Ok amt /\
    userShareBalance st = toDisplay amt /\
    ((JS.gt (toDisplay amt) JS.zero = false /\ userShareValue st = JS.zero) \/
     (exists assets, JS.gt (toDisplay amt) JS.zero = true /\
                     view_previewRedeem rd amt = Ok assets /\
                     userShareValue st = toDisplay assets)).



(** * Proofs *)

(** ** Facts about rounding in [SpecFloat] *)

Section ShiftRight.

Lemma iter_pos_nat {A : Type} (f : A -> A) (p : positive) (x : A) :
  iter_pos f p x = Nat.iter (Pos.to_nat p) f x.
Proof.
  revert x; induction p as [p IH | p IH |]; intro x; cbn [iter_pos].
  - rewrite !IH, Pos2Nat.inj_xI.
    replace (S (2 * Pos.to_nat p))%nat with (Pos.to_nat p + S (Pos.to_nat p))%nat by lia.
    now rewrite Nat.iter_add, Nat.iter_succ_r.
  - rewrite !IH, Pos2Nat.inj_xO.
    replace (2 * Pos.to_nat p)%nat with (Pos.to_nat p + Pos.to_nat p)%nat by lia.
    now rewrite Nat.iter_add.
  - reflexivity.
Qed.

Lemma shr_1_shifted M k r :
  0 <= k -> shifted M k r -> shifted M (k + 1) (shr_1 r).
Proof.
  intros Hk (Hm & Hle & Hlt & Hin). unfold shifted.
  rewrite Z.pow_add_r, Z.pow_1_r by lia.
  assert (0 < 2 ^ k) by (apply Z.pow_pos_nonneg; lia).
  destruct r as [m r s]; unfold inexact in *; cbn [shr_m shr_r shr_s] in *.
  set (P := 2 ^ k) in *.
  destruct m as [| [p | p |] | p]; cbn [shr_1 shr_m shr_r shr_s]; try lia.
  all: repeat split; try lia.
  all: intro Hs; rewrite ?orb_false_l in Hs; apply Hin in Hs; lia.
Qed.

Lemma iter_shr_1_shifted M (n : nat) r :
  shifted M 0 r -> shifted M (Z.of_nat n) (Nat.iter n shr_1 r).
Proof.
  intro H0. induction n as [| n IH].
  - exact H0.
  - rewrite Nat2Z.inj_succ, <- Z.add_1_r. simpl.
    apply shr_1_shifted; [lia | exact IH].
Qed.

Lemma shr_exact_shifted M e n :
  0 <= M ->
  let '(r, e') := shr (Build_shr_record M false false) e n in
  e' = e + Z.max 0 n /\ shifted M (Z.max 0 n) r.
Proof.
  intro HM.
  assert (H0 : shifted M 0 (Build_shr_record M false false)).
  { unfold shifted, inexact; cbn [shr_m shr_r shr_s orb].
    rewrite Z.pow_0_r. repeat split; try lia; discriminate. }
  destruct n as [| p | p]; cbn [shr].
  - split; [lia | exact H0].
  - split; [lia |].
    rewrite iter_pos_nat.
    replace (Z.max 0 (Z.pos p)) with (Z.of_nat (Pos.to_nat p)) by lia.
    now apply iter_shr_1_shifted.
  - split; [lia | exact H0].
Qed.

Lemma digits2_pos_bounds (p : positive) :
  2 ^ (Zpos (digits2_pos p) - 1) <= Zpos p < 2 ^ Zpos (digits2_pos p).
Proof.
  induction p as [p IH | p IH |]; simpl digits2_pos.
  - rewrite Pos2Z.inj_succ.
    replace (Z.succ (Zpos (digits2_pos p)) - 1) with (Zpos (digits2_pos p) - 1 + 1) by lia.
    rewrite Z.pow_succ_r by lia.
    destruct (Pos.eq_dec (digits2_pos p) 1) as [E | NE].
    + rewrite E in *. simpl in *. lia.
    + rewrite Z.pow_add_r, Z.pow_1_r by lia. lia.
  - rewrite Pos2Z.inj_succ.
    replace (Z.succ (Zpos (digits2_pos p)) - 1) with (Zpos (digits2_pos p) - 1 + 1) by lia.
    rewrite Z.pow_succ_r by lia.
    rewrite Z.pow_add_r, Z.pow_1_r by lia. lia.
  - simpl. lia.
Qed.

Lemma round_nearest_even_le m l :
  m <= round_nearest_even m l <= m + 1.
Proof.
  destruct l as [| []]; simpl; try lia. destruct (Z.even m); lia.
Qed.

Lemma round_nearest_even_exact m r :
  inexact r = false -> round_nearest_even m (loc_of_shr_record r) = m.
Proof.
  destruct r as [m' [] []]; unfold inexact; simpl; congruence.
Qed.

End ShiftRight.

(** ** Multiplying a percentage by 100 *)

Section Times100.

(** An upper bound [c] that is an integer below [2^53] survives the rounding
    of a product whose exact value does not exceed it.  Values are compared
    after scaling by [2^B]. *)
Lemma binary_round_aux_upper (s : bool) (M : positive) (E B c : Z) :
  E <= 0 -> 0 <= E + B -> 0 < c < 2 ^ 53 ->
  Zpos M * 2 ^ (E + B) <= c * 2 ^ B ->
  match binary_round_aux 53 1024 s (Zpos M) E loc_Exact with
  | S754_zero s' => s' = s
  | S754_finite s' m e => s' = s /\ E <= e /\ Zpos m * 2 ^ (e + B) <= c * 2 ^ B
  | _ => False
  end.
Proof.
  intros HE HB Hc HM.
  assert (HBpos : 0 <= B) by lia.
  unfold binary_round_aux, shr_fexp. cbn [shr_record_of_loc Zdigits2].
  pose proof (digits2_pos_bounds M) as [HdL HdU].
  set (d := Zpos (digits2_pos M)) in *.
  assert (Hd : d + E <= 53).
  { assert (H1 : 2 ^ (d - 1 + (E + B)) < 2 ^ (53 + B)).
    { rewrite Z.pow_add_r by lia.
      apply Z.le_lt_trans with (Zpos M * 2 ^ (E + B)).
      - apply Z.mul_le_mono_nonneg_r; [apply Z.pow_nonneg; lia | exact HdL].
      - apply Z.le_lt_trans with (c * 2 ^ B); [exact HM |].
        rewrite Z.pow_add_r by lia.
        apply Z.mul_lt_mono_pos_r; [apply Z.pow_pos_nonneg; lia | lia]. }
    apply Z.pow_lt_mono_r_iff in H1; lia. }
  pose proof (shr_exact_shifted (Zpos M) E (fexp 53 1024 (d + E) - E) (Pos2Z.is_nonneg M)) as H1.
  destruct (shr _ E _) as [r1 e1].
  destruct H1 as [He1 (Hm1 & Hle1 & _ & Hin1)].
  set (k1 := Z.max 0 (fexp 53 1024 (d + E) - E)) in *.
  assert (Hk1 : 0 <= k1) by lia.
  assert (He1' : e1 <= 0).
  { unfold k1, fexp, emin in *. lia. }
  set (m2 := round_nearest_even (shr_m r1) (loc_of_shr_record r1)).
  assert (Hm2 : 0 <= m2 /\ m2 * 2 ^ (e1 + B) <= c * 2 ^ B).
  { pose proof (round_nearest_even_le (shr_m r1) (loc_of_shr_record r1)) as Hr.
    fold m2 in Hr. split; [lia |].
    assert (Hsplit : 2 ^ (e1 + B) = 2 ^ k1 * 2 ^ (E + B)).
    { rewrite <- Z.pow_add_r by lia. f_equal. lia. }
    assert (HPE : 0 < 2 ^ (E + B)) by (apply Z.pow_pos_nonneg; lia).
    assert (HP1 : 0 < 2 ^ (e1 + B)) by (apply Z.pow_pos_nonneg; lia).
    destruct (inexact r1) eqn:Hi.
    - specialize (Hin1 eq_refl).
      assert (HQ : 2 ^ B = 2 ^ (- e1) * 2 ^ (e1 + B)).
      { rewrite <- Z.pow_add_r by lia. f_equal. lia. }
      assert (Hlt : shr_m r1 * 2 ^ (e1 + B) < c * 2 ^ (- e1) * 2 ^ (e1 + B)).
      { rewrite <- Z.mul_assoc, <- HQ.
        apply Z.lt_le_trans with (Zpos M * 2 ^ (E + B)); [| exact HM].
        rewrite Hsplit, Z.mul_assoc.
        apply Z.mul_lt_mono_pos_r; assumption. }
      apply Z.mul_lt_mono_pos_r in Hlt; [| exact HP1].
      rewrite HQ, Z.mul_assoc.
      apply Z.mul_le_mono_nonneg_r; lia.
    - unfold m2. rewrite round_nearest_even_exact by exact Hi.
      apply Z.le_trans with (Zpos M * 2 ^ (E + B)); [| exact HM].
      rewrite Hsplit, Z.mul_assoc.
      apply Z.mul_le_mono_nonneg_r; lia. }
  destruct Hm2 as [Hm2 Hb2].
  pose proof (shr_exact_shifted m2 e1 (fexp 53 1024 (Zdigits2 m2 + e1) - e1) Hm2) as H2.
  fold m2.
  destruct (shr _ e1 _) as [r2 e2].
  destruct H2 as [He2 (Hm3 & Hle3 & _ & _)].
  set (k2 := Z.max 0 (fexp 53 1024 (Zdigits2 m2 + e1) - e1)) in *.
  assert (Hk2 : 0 <= k2) by lia.
  assert (Hb3 : shr_m r2 * 2 ^ (e2 + B) <= c * 2 ^ B).
  { apply Z.le_trans with (m2 * 2 ^ (e1 + B)); [| exact Hb2].
    replace (e2 + B) with (k2 + (e1 + B)) by lia.
    rewrite Z.pow_add_r, Z.mul_assoc by lia.
    apply Z.mul_le_mono_nonneg_r; [apply Z.pow_nonneg; lia | exact Hle3]. }
  destruct (shr_m r2) as [| m3 | m3]; [reflexivity | | lia].
  assert (He2' : e2 < 53).
  { assert (H3 : 2 ^ (e2 + B) < 2 ^ (53 + B)).
    { apply Z.le_lt_trans with (Zpos m3 * 2 ^ (e2 + B)).
      - assert (0 < 2 ^ (e2 + B)) by (apply Z.pow_pos_nonneg; lia). nia.
      - apply Z.le_lt_trans with (c * 2 ^ B); [exact Hb3 |].
        rewrite Z.pow_add_r by lia.
        apply Z.mul_lt_mono_pos_r; [apply Z.pow_pos_nonneg; lia | lia]. }
    apply Z.pow_lt_mono_r_iff in H3; lia. }
  replace (e2 <=? 1024 - 53) with true by (symmetry; apply Z.leb_le; lia).
  repeat split; [lia | exact Hb3].
Qed.

End Times100.

Section BasisPoints.

Lemma Number_100 : JS.n100 = S754_finite false 7036874417766400 (-46).
Proof. vm_compute. reflexivity. Qed.

Lemma wf_finite_bounds s m e :
  JS.wf (S754_finite s m e) = true -> -1074 <= e <= 971 /\ Zpos m < 2 ^ 53.
Proof.
  unfold JS.wf, valid_binary, bounded, canonical_mantissa, fexp, emin.
  intro H. apply andb_prop in H as [H1 H2].
  apply Z.eqb_eq in H1. apply Z.leb_le in H2.
  pose proof (digits2_pos_bounds m) as [_ HU].
  split; [lia |].
  apply Z.lt_le_trans with (2 ^ Zpos (digits2_pos m)); [exact HU |].
  apply Z.pow_le_mono_r; lia.
Qed.

Lemma exact_upto_spec n k :
  exact_upto n = true -> (k <= n)%nat ->
  JS.BigInt (JS.Number (Z.of_nat k)) = Ok (Z.of_nat k).
Proof.
  induction n as [| n IH]; intros H Hk; cbn [exact_upto] in H;
    apply andb_prop in H as [H1 H2].
  - replace k with O by lia.
    destruct (JS.BigInt _); [apply Z.eqb_eq in H1; now subst | discriminate].
  - destruct (Nat.eq_dec k (S n)) as [-> | NE].
    + destruct (JS.BigInt _); [apply Z.eqb_eq in H1; now subst | discriminate].
    + apply IH; [exact H2 | lia].
Qed.

Lemma BigInt_Number_small z :
  0 <= z <= 10000 -> JS.BigInt (JS.Number z) = Ok z.
Proof.
  intro Hz. rewrite <- (Z2Nat.id z) by lia.
  apply (exact_upto_spec (Z.to_nat 10000)); [vm_compute; reflexivity | lia].
Qed.

Lemma percent_scaled p mx ex B :
  p = S754_finite false mx ex -> JS.wf p = true ->
  JS.le p (JS.n100) = true -> 1074 <= B ->
  ex <= -46 /\ Zpos mx * 2 ^ (ex + B) <= 100 * 2 ^ B.
Proof.
  intros -> Hwf Hle HB.
  apply wf_finite_bounds in Hwf as [[HeL _] Hmx].
  rewrite Number_100 in Hle. unfold JS.le, SFleb, SFcompare in Hle.
  destruct (Z.compare_spec ex (-46)) as [-> | Hlt | Hgt]; [| | discriminate].
  - split; [lia |].
    rewrite Pos.compare_cont_spec in Hle. cbn [Pos.switch_Eq] in Hle.
    assert (Hm : Zpos mx <= 100 * 2 ^ 46).
    { change (100 * 2 ^ 46) with (Zpos 7036874417766400).
      destruct (Pos.compare_spec mx 7036874417766400) as [H | H | H].
      - subst mx. apply Z.le_refl.
      - apply Z.lt_le_incl, Pos2Z.pos_lt_pos, H.
      - discriminate. }
    replace (2 ^ B) with (2 ^ 46 * 2 ^ (-46 + B))
      by (rewrite <- Z.pow_add_r by lia; f_equal; lia).
    rewrite Z.mul_assoc.
    apply Z.mul_le_mono_nonneg_r; [apply Z.pow_nonneg; lia | exact Hm].
  - split; [lia |].
    apply Z.le_trans with (2 ^ 53 * 2 ^ (-47 + B)).
    + apply Z.mul_le_mono_nonneg.
      * apply Pos2Z.is_nonneg.
      * apply Z.lt_le_incl, Hmx.
      * apply Z.pow_nonneg; lia.
      * apply Z.pow_le_mono_r; lia.
    + replace (2 ^ B) with (2 ^ 47 * 2 ^ (-47 + B))
        by (rewrite <- Z.pow_add_r by lia; f_equal; lia).
      rewrite Z.mul_assoc.
      apply Z.mul_le_mono_nonneg_r; [apply Z.pow_nonneg; lia | lia].
Qed.

Lemma positive_percent_finite p :
  JS.lt JS.zero p = true -> JS.le p (JS.n100) = true ->
  exists mx ex, p = S754_finite false mx ex.
Proof.
  rewrite Number_100.
  destruct p as [s | [] | | [] mx ex]; try discriminate; eauto.
Qed.

(** [BigInt(Math.floor(p * 100))] for a percentage [0 < p <= 100]. *)
Lemma basis_points_bound p :
  JS.wf p = true -> JS.lt JS.zero p = true -> JS.le p (JS.n100) = true ->
  exists bps, JS.BigInt (JS.Math_floor (JS.mul p (JS.n100))) = Ok bps /\
              0 <= bps <= 10000.
Proof.
  intros Hwf Hpos Hle.
  destruct (positive_percent_finite p Hpos Hle) as (mx & ex & Hp).
  destruct (percent_scaled p mx ex 1200 Hp Hwf Hle ltac:(lia)) as [Hex Hsc].
  pose proof Hwf as Hwf'. rewrite Hp in Hwf'.
  apply wf_finite_bounds in Hwf' as [[HeL _] _].
  subst p. rewrite Number_100. unfold JS.mul, SFmul. cbn [xorb].
  assert (Hup : Zpos (mx * 7036874417766400) * 2 ^ (ex + -46 + 1200)
                <= 10000 * 2 ^ 1200).
  { rewrite Pos2Z.inj_mul.
    change (Zpos 7036874417766400) with (100 * 2 ^ 46).
    replace (ex + -46 + 1200) with (ex + 1200 - 46) by lia.
    replace (2 ^ (ex + 1200)) with (2 ^ 46 * 2 ^ (ex + 1200 - 46)) in Hsc
      by (rewrite <- Z.pow_add_r by lia; f_equal; lia).
    set (X := 2 ^ (ex + 1200 - 46)) in *. set (Y := 2 ^ 1200) in *.
    set (Q := 2 ^ 46) in *. set (m := Zpos mx) in *.
    replace (m * (100 * Q) * X) with (100 * (m * (Q * X))) by ring.
    lia. }
  apply (binary_round_aux_upper false) in Hup; [| lia | lia | lia].
  destruct (binary_round_aux 53 1024 false _ _ loc_Exact) as [s | s | | s m e];
    try contradiction.
  - exists 0. split; [reflexivity | lia].
  - destruct Hup as (-> & He & Hb).
    assert (HP : 0 < 2 ^ (e + 1200)) by (apply Z.pow_pos_nonneg; lia).
    unfold JS.Math_floor. destruct (Z.leb_spec 0 e) as [Hpos' | Hneg].
    + exists (Zpos m * 2 ^ e). unfold JS.BigInt, JS.signed.
      replace (0 <=? e) with true by (symmetry; apply Z.leb_le; lia).
      split; [reflexivity |].
      rewrite Z.pow_add_r in Hb by lia.
      assert (0 <= 2 ^ e) by (apply Z.pow_nonneg; lia).
      split; [lia |].
      apply Z.mul_le_mono_pos_r with (p := 2 ^ 1200);
        [apply Z.pow_pos_nonneg; lia | lia].
    + cbn [JS.signed].
      assert (HQ : 0 < 2 ^ (- e)) by (apply Z.pow_pos_nonneg; lia).
      assert (Hz : 0 <= Zpos m / 2 ^ (- e) <= 10000).
      { split; [apply Z.div_pos; lia |].
        apply Z.div_le_upper_bound; [exact HQ |].
        replace (2 ^ 1200) with (2 ^ (- e) * 2 ^ (e + 1200)) in Hb
          by (rewrite <- Z.pow_add_r by lia; f_equal; lia).
        rewrite Z.mul_assoc in Hb.
        apply Z.mul_le_mono_pos_r in Hb; [lia | exact HP]. }
      destruct (Z.eqb_spec (Zpos m / 2 ^ (- e)) 0) as [E0 | NE0].
      * exists 0. split; [reflexivity | lia].
      * exists (Zpos m / 2 ^ (- e)). split; [| exact Hz].
        now apply BigInt_Number_small.
Qed.

End BasisPoints.

(** ** Event lists *)

Section Events.

Lemma timer_delays_app evs1 evs2 :
  timer_delays (evs1 ++ evs2) = timer_delays evs1 ++ timer_delays evs2.
Proof.
  induction evs1 as [| [] evs1 IH]; cbn [timer_delays app]; rewrite ?IH; reflexivity.
Qed.

Lemma count_log_app msg evs1 evs2 :
  count_log msg (evs1 ++ evs2) = (count_log msg evs1 + count_log msg evs2)%nat.
Proof.
  induction evs1 as [| [] evs1 IH]; cbn [count_log app]; rewrite ?IH; lia.
Qed.

Lemma submissions_app evs1 evs2 :
  submissions (evs1 ++ evs2) = submissions evs1 ++ submissions evs2.
Proof.
  induction evs1 as [| [] evs1 IH]; cbn [submissions app]; rewrite ?IH; reflexivity.
Qed.

Lemma quiet_nil : quiet [].
Proof. constructor. Qed.

Lemma quiet_error msg e : quiet [ConsoleError msg e].
Proof. repeat constructor. Qed.

Lemma quiet_app evs1 evs2 : quiet evs1 -> quiet evs2 -> quiet (evs1 ++ evs2).
Proof. intros H1 H2. apply Forall_app. now split. Qed.

Lemma quiet_timer_delays evs : quiet evs -> timer_delays evs = [].
Proof.
  induction 1 as [| [] evs H _ IH]; cbn [timer_delays]; try contradiction; auto.
Qed.

Lemma quiet_count_log msg evs : quiet evs -> count_log msg evs = 0%nat.
Proof.
  induction 1 as [| [] evs H _ IH]; cbn [count_log]; try contradiction; auto.
Qed.

Lemma quiet_submissions evs : quiet evs -> submissions evs = [].
Proof.
  induction 1 as [| [] evs H _ IH]; cbn [submissions]; try contradiction; auto.
Qed.

Lemma quiet_pending_retry evs1 evs2 :
  quiet evs1 -> pending_retry (evs1 ++ evs2) = pending_retry evs2.
Proof.
  induction 1 as [| [] evs H _ IH]; cbn [pending_retry app]; try contradiction; auto.
Qed.

End Events.

Create HintDb events.
#[local] Hint Resolve quiet_nil quiet_error quiet_app : events.

(** ** The reads of [fetchVaultData] *)

Section Reads.

Variable rd : chain_reads.

(** The three reads before the share account never throw; they set one
    field each and print at most an error. *)
Lemma readVaultState_spec st :
  exists b evs,
    readVaultState rd st = (setWithdrawalsEnabled b st, evs, Ok tt) /\ quiet evs /\
    (b = true <->
     exists info, getAccountInfo_vaultState rd = Ok (Some info) /\
                  decode_operationsEnabled info = Ok true).
Proof.
  unfold readVaultState, try_catch, bindA, await, set, emit.
  destruct (getAccountInfo_vaultState rd) as [[info |] | e] eqn:Hinfo.
  - destruct (decode_operationsEnabled info) as [b | e] eqn:Hdec.
    + exists b, []. repeat split; auto with events.
      * intros ->. eauto.
      * intros (info' & [= <-] & H). congruence.
    + exists false, [ConsoleError "Failed to fetch vault state:" e].
      repeat split; auto with events; try discriminate.
      intros (info' & [= <-] & H). congruence.
  - exists false, []. repeat split; auto with events; try discriminate.
    intros (info' & [=] & _).
  - exists false, [ConsoleError "Failed to fetch vault state:" e].
    repeat split; auto with events; try discriminate.
    intros (info' & [=] & _).
Qed.

Lemma readTotalAssets_spec st :
  exists v evs,
    readTotalAssets rd st = (setVaultBalance v st, evs, Ok tt) /\ quiet evs.
Proof.
  unfold readTotalAssets, try_catch, bindA, await, set, emit.
  destruct (view_totalAssets rd) as [a | e].
  - exists (toDisplay a), []. auto with events.
  - exists JS.zero, [ConsoleError "Failed to fetch vault metrics:" e].
    auto with events.
Qed.

Lemma readExchangeRate_spec st :
  exists evs,
    readExchangeRate rd st =
      (setExchangeRate
         match view_previewRedeem rd 1000000 with
         | Ok a => toDisplay a
         | Throw _ => JS.one
         end st, evs, Ok tt) /\ quiet evs.
Proof.
  unfold readExchangeRate, try_catch, bindA, await, set, emit.
  destruct (view_previewRedeem rd 1000000) as [a | e].
  - exists []. auto with events.
  - exists [ConsoleError "Failed to fetch exchange rate:" e]. auto with events.
Qed.

End Reads.

(** ** One invocation of [fetchVaultData] *)

Section Invocation.

Variable ctx : context.
Variable rd : chain_reads.

(** Reading the share account prints nothing. *)
Lemma readUserShares_events w st :
  snd (fst (readUserShares w rd st)) = [].
Proof.
  unfold readUserShares, bindA, await, set.
  destruct (getAssociatedTokenAddress rd shareMint w) as [a |]; [| reflexivity].
  destruct (getAccount rd a) as [amt |]; [| reflexivity].
  destruct (JS.gt (toDisplay amt) JS.zero); [| reflexivity].
  destruct (view_previewRedeem rd amt); reflexivity.
Qed.

(** With a program and a wallet, an invocation runs the three reads, then
    the share account, and ends as [settle] says. *)
Lemma fetchVaultData_connected retryCount maxRetries st p w :
  getProgram ctx = Some p -> wallet ctx = Some w ->
  exists b v evs,
    quiet evs /\
    (b = true <->
     exists info, getAccountInfo_vaultState rd = Ok (Some info) /\
                  decode_operationsEnabled info = Ok true) /\
    let st1 :=
      setExchangeRate
        match view_previewRedeem rd 1000000 with
        | Ok a => toDisplay a
        | Throw _ => JS.one
        end
        (setVaultBalance v (setWithdrawalsEnabled b (setRefreshing true st))) in
    fetchVaultData ctx rd retryCount maxRetries st =
      (fst (settle retryCount maxRetries (readUserShares w rd st1)),
       evs ++ snd (settle retryCount maxRetries (readUserShares w rd st1)),
       Ok tt).
Proof.
  intros Hp Hw.
  destruct (readVaultState_spec rd (setRefreshing true st)) as (b & ev1 & H1 & Q1 & Hb).
  destruct (readTotalAssets_spec rd (setWithdrawalsEnabled b (setRefreshing true st)))
    as (v & ev2 & H2 & Q2).
  destruct (readExchangeRate_spec rd
              (setVaultBalance v (setWithdrawalsEnabled b (setRefreshing true st))))
    as (ev3 & H3 & Q3).
  exists b, v, (ev1 ++ ev2 ++ ev3).
  split; [auto with events |]. split; [exact Hb |].
  intro st1. unfold fetchVaultData. rewrite Hp, Hw.
  unfold try_finally, try_catch at 1. unfold bindA at 1.
  cbn [set]. unfold bindA at 1. rewrite H1.
  unfold bindA at 1. rewrite H2.
  unfold bindA at 1. rewrite H3. fold st1.
  unfold try_catch, settle.
  destruct (readUserShares w rd st1) as [[st2 ev4] [[] | e]].
  - cbn [fst snd app]. rewrite !app_assoc, ?app_nil_r. reflexivity.
  - unfold bindA, emit, set.
    destruct (retryCount <? maxRetries)%nat; cbn [fst snd app];
      rewrite ?app_assoc, ?app_nil_r; reflexivity.
Qed.

(** Without a program or a wallet, an invocation only prints a line. *)
Lemma fetchVaultData_disconnected retryCount maxRetries st :
  getProgram ctx = None \/ wallet ctx = None ->
  fetchVaultData ctx rd retryCount maxRetries st =
    (setRefreshing false (setRefreshing true st),
     [ConsoleLog "No program or wallet available"], Ok tt).
Proof.
  intro H. unfold fetchVaultData, try_finally, try_catch, bindA, set, emit.
  destruct H as [-> | ->]; [| destruct (getProgram ctx)]; reflexivity.
Qed.

End Invocation.

(** ** An invocation and its retries *)

Section Retries.

Variable ctx : context.
Variable reads : nat -> chain_reads.
Variables (p : provider) (w : pubkey).
Hypothesis Hprogram : getProgram ctx = Some p.
Hypothesis Hwallet : wallet ctx = Some w.

Lemma run_fetchVaultData_S fuel retryCount maxRetries st :
  run_fetchVaultData (S fuel) ctx reads retryCount maxRetries st =
    let '(st1, ev1, _) :=
      fetchVaultData ctx (reads retryCount) retryCount maxRetries st in
    match pending_retry ev1 with
    | Some (rc, mr) =>
        match run_fetchVaultData fuel ctx reads rc mr st1 with
        | Some (st2, ev2) => Some (st2, ev1 ++ ev2)
        | None => None
        end
    | None => Some (st1, ev1)
    end.
Proof. reflexivity. Qed.

(** When the share account cannot be read from [retryCount] on, the
    invocation settles on zero after the retries that are left. *)
Lemma run_all_fail maxRetries :
  (forall k st, exists st2 e,
      readUserShares w (reads k) st = (st2, [], Throw e)) ->
  forall n retryCount st,
    (retryCount + n = maxRetries)%nat ->
    exists st' evs,
      run_fetchVaultData (S n) ctx reads retryCount maxRetries st = Some (st', evs) /\
      userShareBalance st' = JS.zero /\ userShareValue st' = JS.zero /\
      refreshing st' = false /\
      timer_delays evs = map retry_delay (seq retryCount n) /\
      count_log "User share account not found" evs = S n.
Proof.
  intros Hfail n. induction n as [| n IH]; intros rc st Hn.
  - rewrite run_fetchVaultData_S.
    destruct (fetchVaultData_connected ctx (reads rc) rc maxRetries st p w
                Hprogram Hwallet) as (b & v & ev & Q & _ & Heq).
    cbv zeta in Heq. rewrite Heq.
    match type of Heq with context [readUserShares w (reads rc) ?s] =>
      destruct (Hfail rc s) as (st2 & e & Hsh) end.
    rewrite Hsh. unfold settle.
    replace (rc <? maxRetries)%nat with false
      by (symmetry; apply Nat.ltb_ge; lia).
    cbn [fst snd app].
    rewrite quiet_pending_retry by exact Q. cbn [pending_retry].
    eexists _, _. split; [reflexivity |].
    rewrite timer_delays_app, count_log_app.
    rewrite quiet_timer_delays, quiet_count_log by exact Q.
    repeat split; reflexivity.
  - rewrite run_fetchVaultData_S.
    destruct (fetchVaultData_connected ctx (reads rc) rc maxRetries st p w
                Hprogram Hwallet) as (b & v & ev & Q & _ & Heq).
    cbv zeta in Heq. rewrite Heq.
    match type of Heq with context [readUserShares w (reads rc) ?s] =>
      destruct (Hfail rc s) as (st2 & e & Hsh) end.
    rewrite Hsh. unfold settle.
    replace (rc <? maxRetries)%nat with true
      by (symmetry; apply Nat.ltb_lt; lia).
    cbn [fst snd app].
    rewrite quiet_pending_retry by exact Q. cbn [pending_retry].
    destruct (IH (rc + 1)%nat (setRefreshing false st2) ltac:(lia))
      as (st' & evs & Hrun & Hb & Hv & Hr & Ht & Hc).
    rewrite Hrun.
    eexists _, _. split; [reflexivity |].
    rewrite !timer_delays_app, !count_log_app.
    rewrite quiet_timer_delays, quiet_count_log by exact Q.
    rewrite Ht, Hc. cbn [timer_delays count_log app seq map].
    replace (S rc) with (rc + 1)%nat by lia.
    repeat split; auto.
Qed.

(** When the share account is read at attempt [k], after failures at the
    attempts before it, the balance and the value of that attempt are what
    the invocation leaves. *)
Lemma run_success_at maxRetries k B V :
  (k <= maxRetries)%nat ->
  (forall j st, (j < k)%nat -> exists st2 e,
      readUserShares w (reads j) st = (st2, [], Throw e)) ->
  (forall st, readUserShares w (reads k) st =
              (setUserShareValue V (setUserShareBalance B st), [], Ok tt)) ->
  forall n retryCount st,
    (retryCount + n = k)%nat ->
    exists st' evs,
      run_fetchVaultData (S n) ctx reads retryCount maxRetries st = Some (st', evs) /\
      userShareBalance st' = B /\ userShareValue st' = V /\
      refreshing st' = false /\
      timer_delays evs = map retry_delay (seq retryCount n) /\
      count_log "User share account not found" evs = n.
Proof.
  intros Hk Hfail Hok n. induction n as [| n IH]; intros rc st Hn.
  - rewrite run_fetchVaultData_S.
    destruct (fetchVaultData_connected ctx (reads rc) rc maxRetries st p w
                Hprogram Hwallet) as (b & v & ev & Q & _ & Heq).
    cbv zeta in Heq. rewrite Heq.
    replace rc with k by lia. rewrite Hok. unfold settle.
    cbn [fst snd app].
    rewrite quiet_pending_retry by exact Q. cbn [pending_retry].
    eexists _, _. split; [reflexivity |].
    rewrite app_nil_r, quiet_timer_delays, quiet_count_log by exact Q.
    repeat split; reflexivity.
  - rewrite run_fetchVaultData_S.
    destruct (fetchVaultData_connected ctx (reads rc) rc maxRetries st p w
                Hprogram Hwallet) as (b & v & ev & Q & _ & Heq).
    cbv zeta in Heq. rewrite Heq.
    match type of Heq with context [readUserShares w (reads rc) ?s] =>
      destruct (Hfail rc s ltac:(lia)) as (st2 & e & Hsh) end.
    rewrite Hsh. unfold settle.
    replace (rc <? maxRetries)%nat with true
      by (symmetry; apply Nat.ltb_lt; lia).
    cbn [fst snd app].
    rewrite quiet_pending_retry by exact Q. cbn [pending_retry].
    destruct (IH (rc + 1)%nat (setRefreshing false st2) ltac:(lia))
      as (st' & evs & Hrun & Hb & Hv & Hr & Ht & Hc).
    rewrite Hrun.
    eexists _, _. split; [reflexivity |].
    rewrite !timer_delays_app, !count_log_app.
    rewrite quiet_timer_delays, quiet_count_log by exact Q.
    rewrite Ht, Hc. cbn [timer_delays count_log app seq map].
    replace (S rc) with (rc + 1)%nat by lia.
    repeat split; auto.
Qed.

End Retries.

(** ** The refresh: claims C1, C4, C6 *)

Lemma readUserShares_not_found w rd a e st :
  getAssociatedTokenAddress rd shareMint w = Ok a ->
  getAccount rd a = Throw e ->
  readUserShares w rd st = (st, [], Throw e).
Proof.
  intros Ha Hacc. unfold readUserShares, bindA, await. now rewrite Ha, Hacc.
Qed.

Lemma readUserShares_found w rd a amt assets st :
  getAssociatedTokenAddress rd shareMint w = Ok a ->
  getAccount rd a = Ok amt ->
  (JS.gt (toDisplay amt) JS.zero = true -> view_previewRedeem rd amt = Ok assets) ->
  readUserShares w rd st =
    (setUserShareValue
       (if JS.gt (toDisplay amt) JS.zero then toDisplay assets else JS.zero)
       (setUserShareBalance (toDisplay amt) st), [], Ok tt).
Proof.
  intros Ha Hacc Hv. unfold readUserShares, bindA, await, set.
  rewrite Ha, Hacc.
  destruct (JS.gt (toDisplay amt) JS.zero); [rewrite Hv by reflexivity |]; reflexivity.
Qed.

(** C1 (amended).  When the wallet's share account is not found at any
    attempt, [fetchVaultData()] with its default budget of 3 retries sets
    timers of 1000, 2000 and 4000 ms for the retries and then leaves
    [userShareBalance = 0] and [userShareValue = 0]; the read has failed 4
    times by then: in the first invocation and in each of the 3 retries. *)
Theorem C1_missing_share_account_settles_on_zero
    (ctx : context) (reads : nat -> chain_reads) (p : provider) (w : pubkey)
    (st : ui_state) :
  getProgram ctx = Some p -> wallet ctx = Some w ->
  (forall k, exists a e,
      getAssociatedTokenAddress (reads k) shareMint w = Ok a /\
      getAccount (reads k) a = Throw e) ->
  exists st' evs,
    run_fetchVaultData 4 ctx reads default_retryCount default_maxRetries st
      = Some (st', evs) /\
    userShareBalance st' = JS.zero /\ userShareValue st' = JS.zero /\
    timer_delays evs = [JS.Number 1000; JS.Number 2000; JS.Number 4000] /\
    count_log "User share account not found" evs = 4%nat.
Proof.
  intros Hp Hw Hmissing.
  destruct (run_all_fail ctx reads p w Hp Hw default_maxRetries) with
    (n := 3%nat) (retryCount := default_retryCount) (st := st)
    as (st' & evs & Hrun & Hb & Hv & _ & Ht & Hc).
  - intros k st0. destruct (Hmissing k) as (a & e & Ha & Hacc).
    exists st0, e. now apply readUserShares_not_found with a.
  - reflexivity.
  - exists st', evs. repeat split; assumption.
Qed.

Lemma C1_missing_share_account_witness :
  exists st' evs,
    run_fetchVaultData 4 connected
      (fun _ => sample_reads 4000000000001 3000000000000 0 None)
      default_retryCount default_maxRetries initial_state = Some (st', evs) /\
    userShareBalance st' = JS.zero /\ userShareValue st' = JS.zero /\
    timer_delays evs = [JS.Number 1000; JS.Number 2000; JS.Number 4000] /\
    count_log "User share account not found" evs = 4%nat.
Proof.
  apply (C1_missing_share_account_settles_on_zero connected _ "phantom" sample_wallet).
  - reflexivity.
  - reflexivity.
  - intro k. eexists _, _. split; reflexivity.
Defined.

(** C1 as stated fails: with no share account, the read has failed 4 times,
    not 3, when the invocation settles. *)
Lemma C1_three_failed_attempts_counterexample :
  exists st' evs,
    run_fetchVaultData 4 connected
      (fun _ => sample_reads 4000000000001 3000000000000 0 None)
      default_retryCount default_maxRetries initial_state = Some (st', evs) /\
    count_log "User share account not found" evs = 4%nat /\
    count_log "User share account not found" evs <> 3%nat.
Proof.
  eexists _, _. split; [vm_compute; reflexivity |].
  split; [reflexivity | discriminate].
Qed.

(** C6 (amended).  With a program and a wallet, whatever the chain
    answers, an invocation of [fetchVaultData] ends in one of two ways.
    No retry is pending: then both fields were written by it, either 0 and
    0, or the balance it read and the value derived from that balance by
    the same invocation.  Or a retry is pending: then [userShareValue] is
    still the prior one, beside the prior balance or the one just read.
    And when the block that reads the share account fails at the attempts
    before [k] and completes at attempt [k], within the retry budget, the
    invocation and its retries end with both fields replaced by what
    attempt [k] computed. *)
Theorem C6_success_replaces_balance_and_value
    (ctx : context) (reads : nat -> chain_reads) (p : provider) (w : pubkey)
    (maxRetries : nat) (st : ui_state) :
  getProgram ctx = Some p -> wallet ctx = Some w ->
  (forall retryCount st0,
      exists st1 evs,
        fetchVaultData ctx (reads retryCount) retryCount maxRetries st0
          = (st1, evs, Ok tt) /\
        ((pending_retry evs = None /\
          ((userShareBalance st1 = JS.zero /\ userShareValue st1 = JS.zero) \/
           position_read_from (reads retryCount) w st1)) \/
         (pending_retry evs = Some ((retryCount + 1)%nat, maxRetries) /\
          (retryCount < maxRetries)%nat /\
          userShareValue st1 = userShareValue st0 /\
          (userShareBalance st1 = userShareBalance st0 \/
           exists a amt,
             getAssociatedTokenAddress (reads retryCount) shareMint w = Ok a /\
             getAccount (reads retryCount) a = Ok amt /\
             userShareBalance st1 = toDisplay amt)))) /\
  (forall k a amt assets,
      (k <= maxRetries)%nat ->
      (forall j st0, (j < k)%nat -> exists st2 e,
          readUserShares w (reads j) st0 = (st2, [], Throw e)) ->
      getAssociatedTokenAddress (reads k) shareMint w = Ok a ->
      getAccount (reads k) a = Ok amt ->
      (JS.gt (toDisplay amt) JS.zero = true ->
       view_previewRedeem (reads k) amt = Ok assets) ->
      exists st' evs,
        run_fetchVaultData (S k) ctx reads 0 maxRetries st = Some (st', evs) /\
        userShareBalance st' = toDisplay amt /\
        userShareValue st' =
          (if JS.gt (toDisplay amt) JS.zero then toDisplay assets else JS.zero)).
Proof.
  intros Hp Hw. split.
  - intros rc st0.
    destruct (fetchVaultData_connected ctx (reads rc) rc maxRetries st0 p w Hp Hw)
      as (b & v & ev & Q & _ & Heq).
    cbv zeta in Heq. rewrite Heq. clear Heq.
    unfold readUserShares, bindA, await, set, settle.
    destruct (getAssociatedTokenAddress (reads rc) shareMint w) as [a | e] eqn:Ha.
    2:{ destruct (rc <? maxRetries)%nat eqn:Hlt; cbn [fst snd app];
          eexists _, _; (split; [reflexivity |]);
          rewrite quiet_pending_retry by exact Q.
        - right. apply Nat.ltb_lt in Hlt. split; [reflexivity |].
          split; [exact Hlt |]. split; [reflexivity |]. left. reflexivity.
        - left. split; [reflexivity |]. left. split; reflexivity. }
    destruct (getAccount (reads rc) a) as [amt | e] eqn:Hacc.
    2:{ destruct (rc <? maxRetries)%nat eqn:Hlt; cbn [fst snd app];
          eexists _, _; (split; [reflexivity |]);
          rewrite quiet_pending_retry by exact Q.
        - right. apply Nat.ltb_lt in Hlt. split; [reflexivity |].
          split; [exact Hlt |]. split; [reflexivity |]. left. reflexivity.
        - left. split; [reflexivity |]. left. split; reflexivity. }
    destruct (JS.gt (toDisplay amt) JS.zero) eqn:Hgt.
    2:{ cbn [fst snd app]. eexists _, _. split; [reflexivity |].
        rewrite quiet_pending_retry by exact Q. left. split; [reflexivity |].
        right. exists a, amt.
        split; [exact Ha |]. split; [exact Hacc |]. split; [reflexivity |].
        left. split; [exact Hgt | reflexivity]. }
    destruct (view_previewRedeem (reads rc) amt) as [assets | e] eqn:Hview.
    + cbn [fst snd app]. eexists _, _. split; [reflexivity |].
      rewrite quiet_pending_retry by exact Q. left. split; [reflexivity |].
      right. exists a, amt.
      split; [exact Ha |]. split; [exact Hacc |]. split; [reflexivity |].
      right. exists assets. repeat split; auto.
    + destruct (rc <? maxRetries)%nat eqn:Hlt; cbn [fst snd app];
        eexists _, _; (split; [reflexivity |]);
        rewrite quiet_pending_retry by exact Q.
      * right. apply Nat.ltb_lt in Hlt. split; [reflexivity |].
        split; [exact Hlt |]. split; [reflexivity |]. right.
        exists a, amt. split; [reflexivity |]. split; [exact Hacc | reflexivity].
      * left. split; [reflexivity |]. left. split; reflexivity.
  - intros k a amt assets Hk Hfail Ha Hacc Hv.
    destruct (run_success_at ctx reads p w Hp Hw maxRetries k
                (toDisplay amt)
                (if JS.gt (toDisplay amt) JS.zero then toDisplay assets else JS.zero)
                Hk Hfail) with (n := k) (retryCount := 0%nat) (st := st)
      as (st' & evs & Hrun & Hb & Hval & _).
    + intro st0. now apply readUserShares_found with a.
    + reflexivity.
    + exists st', evs. auto.
Qed.

Lemma C6_success_replaces_witness :
  (exists st1 evs,
      fetchVaultData connected (preview_fails_once 0) 0 3 held_position
        = (st1, evs, Ok tt) /\
      pending_retry evs = Some (1%nat, 3%nat) /\
      userShareValue st1 = userShareValue held_position) /\
  (exists st' evs,
      run_fetchVaultData 3 connected reads_after_two_failures 0 3 initial_state
        = Some (st', evs) /\
      userShareBalance st' = toDisplay 1500000 /\
      userShareValue st' =
        (if JS.gt (toDisplay 1500000) JS.zero then toDisplay 2000000 else JS.zero)).
Proof.
  split.
  - destruct (proj1 (C6_success_replaces_balance_and_value connected
                       preview_fails_once "phantom" sample_wallet 3 held_position
                       eq_refl eq_refl) 0%nat held_position)
      as (st1 & evs & Heq & [[Hnone _] | (Hp & _ & Hv & _)]).
    + exfalso. revert Hnone.
      replace evs with
        (snd (fst (fetchVaultData connected (preview_fails_once 0) 0 3
                     held_position))) by (rewrite Heq; reflexivity).
      vm_compute. discriminate.
    + exists st1, evs. split; [exact Heq |]. split; [exact Hp | exact Hv].
  - apply (proj2 (C6_success_replaces_balance_and_value connected
                    reads_after_two_failures "phantom" sample_wallet 3
                    initial_state eq_refl eq_refl)
             2%nat ("share-account-of-" ++ sample_wallet)%string).
    + lia.
    + intros j st0 Hj. exists st0, not_found.
      assert (Hcases : j = 0%nat \/ j = 1%nat) by lia.
      destruct Hcases as [-> | ->]; reflexivity.
    + reflexivity.
    + reflexivity.
    + intros _. reflexivity.
Defined.

(** C6 as stated fails: the share account is read at the first attempt,
    [previewRedeem] of the balance throws, and the invocation ends with the
    new [userShareBalance] beside the prior [userShareValue], a retry
    pending. *)
Lemma C6_partial_update_counterexample :
  exists st1 evs,
    fetchVaultData connected (preview_fails_once 0) 0 3 held_position
      = (st1, evs, Ok tt) /\
    getAccount (preview_fails_once 0) ("share-account-of-" ++ sample_wallet)%string
      = Ok 1500000 /\
    userShareBalance st1 = toDisplay 1500000 /\
    userShareBalance st1 <> userShareBalance held_position /\
    userShareValue st1 = userShareValue held_position /\
    pending_retry evs = Some (1%nat, 3%nat).
Proof.
  eexists _, _. split; [vm_compute; reflexivity |].
  split; [reflexivity |]. split; [reflexivity |].
  split; [discriminate |]. split; reflexivity.
Qed.

(** C4.  When the vault-state account is missing, cannot be read or
    decoded, or holds [operationsEnabled = false], an invocation of
    [fetchVaultData] leaves [withdrawalsEnabled = false]; and in every
    state with [withdrawalsEnabled = false], whatever the share balance, a
    click on the action button does not start [handleRedeem]: in redeem mode
    the button is disabled. *)
Theorem C4_redeem_disabled_when_operations_off
    (parseFloat : string -> JS.number) (ctx : context) (rd : chain_reads)
    (p : provider) (w : pubkey) (retryCount maxRetries : nat) (st : ui_state) :
  getProgram ctx = Some p -> wallet ctx = Some w ->
  (getAccountInfo_vaultState rd = Ok None \/
   (exists e, getAccountInfo_vaultState rd = Throw e) \/
   (exists info, getAccountInfo_vaultState rd = Ok (Some info) /\
                 (decode_operationsEnabled info = Ok false \/
                  exists e, decode_operationsEnabled info = Throw e))) ->
  withdrawalsEnabled (fst (fst (fetchVaultData ctx rd retryCount maxRetries st)))
    = false /\
  forall st', withdrawalsEnabled st' = false ->
    click parseFloat ctx st' <> Some HandleRedeem /\
    (modalMode st' = Redeem ->
     onClick (action_button parseFloat ctx st') = HandleRedeem /\
     disabled (action_button parseFloat ctx st') = true).
Proof.
  intros Hp Hw Hflag. split.
  - destruct (fetchVaultData_connected ctx rd retryCount maxRetries st p w Hp Hw)
      as (b & v & ev & _ & Hb & Heq).
    cbv zeta in Heq. rewrite Heq.
    assert (Hfalse : b = false).
    { destruct b; [| reflexivity]. exfalso.
      destruct (proj1 Hb eq_refl) as (info & Hinfo & Hdec).
      destruct Hflag as [H | [[e H] | (info' & H & [H' | [e H']])]]; congruence. }
    subst b.
    destruct (readUserShares w rd _) as [[st2 ev2] r] eqn:Hsh.
    assert (Hkeep : withdrawalsEnabled st2 = false).
    { revert Hsh. unfold readUserShares, bindA, await, set.
      destruct (getAssociatedTokenAddress rd shareMint w) as [a |];
        [| intros [= <- _ _]; reflexivity].
      destruct (getAccount rd a) as [amt |]; [| intros [= <- _ _]; reflexivity].
      destruct (JS.gt (toDisplay amt) JS.zero);
        [destruct (view_previewRedeem rd amt) |]; intros [= <- _ _]; reflexivity. }
    unfold settle. destruct r; [| destruct (retryCount <? maxRetries)%nat];
      cbn [fst snd]; exact Hkeep.
  - intros st' Hoff.
    unfold click, action_button, action_button_disabled. rewrite Hw, Hoff.
    cbn [onClick disabled negb].
    destruct (loading st'); cbn [orb].
    + split; [discriminate |]. intros ->. split; reflexivity.
    + destruct (modalMode st'); cbn [orb].
      * split; [| discriminate].
        destruct (_ || _); discriminate.
      * rewrite !orb_true_r. cbn [orb].
        split; [discriminate |]. intros _. split; reflexivity.
Qed.

Lemma C4_redeem_disabled_witness :
  withdrawalsEnabled
    (fst (fst (fetchVaultData connected
                 {| getAccountInfo_vaultState := Ok None;
                    view_totalAssets := Ok 4000000000001;
                    view_previewRedeem := fun s => Ok s;
                    getAssociatedTokenAddress := sample_ata;
                    getAccount := fun _ => Ok 1500000;
                    getParsedAccountInfo_supply := Ok None |}
                 0 3 initial_state))) = false /\
  forall st', withdrawalsEnabled st' = false ->
    click parseFloat_decimal connected st' <> Some HandleRedeem /\
    (modalMode st' = Redeem ->
     onClick (action_button parseFloat_decimal connected st') = HandleRedeem /\
     disabled (action_button parseFloat_decimal connected st') = true).
Proof.
  apply (C4_redeem_disabled_when_operations_off parseFloat_decimal connected _
           "phantom" sample_wallet).
  - reflexivity.
  - reflexivity.
  - left. reflexivity.
Defined.

(** ** Comparisons of doubles *)

Section Comparisons.

Lemma SFcompare_antisym x y :
  SFcompare y x =
    match SFcompare x y with
    | Some c => Some (CompOpp c)
    | None => None
    end.
Proof.
  destruct x as [sx | sx | | sx mx ex], y as [sy | sy | | sy my ey];
    cbn [SFcompare]; try reflexivity;
    try (destruct sx; reflexivity); try (destruct sy; reflexivity);
    try (destruct sx, sy; reflexivity).
  destruct sx, sy; try reflexivity.
  - rewrite (Z.compare_antisym ex ey).
    destruct (ex ?= ey); cbn [CompOpp]; try reflexivity.
    rewrite (Pos.compare_cont_antisym mx my Eq). reflexivity.
  - rewrite (Z.compare_antisym ex ey).
    destruct (ex ?= ey); cbn [CompOpp]; try reflexivity.
    rewrite (Pos.compare_cont_antisym mx my Eq). reflexivity.
Qed.

(** A number that is not [NaN] and not [x > y] satisfies [x <= y]. *)
Lemma not_gt_le x y :
  JS.isNaN x = false -> JS.isNaN y = false -> JS.gt x y = false -> JS.le x y = true.
Proof.
  unfold JS.gt, JS.le, SFltb, SFleb. rewrite (SFcompare_antisym x y).
  destruct (SFcompare x y) as [[] |] eqn:Hc; cbn [CompOpp]; try congruence.
  destruct x, y; cbn in *; try discriminate;
    repeat match goal with b : bool |- _ => destruct b end; discriminate.
Qed.

Lemma not_le_gt x y :
  JS.isNaN x = false -> JS.isNaN y = false -> JS.le x y = false -> JS.gt x y = true.
Proof.
  unfold JS.gt, JS.le, SFltb, SFleb. rewrite (SFcompare_antisym x y).
  destruct (SFcompare x y) as [[] |] eqn:Hc; cbn [CompOpp]; try congruence.
  destruct x, y; cbn in *; try discriminate;
    repeat match goal with b : bool |- _ => destruct b end; discriminate.
Qed.

Lemma gt_not_le x y : JS.gt x y = true -> JS.le x y = false.
Proof.
  unfold JS.gt, JS.le, SFltb, SFleb. rewrite (SFcompare_antisym x y).
  destruct (SFcompare x y) as [[] |]; cbn [CompOpp]; congruence.
Qed.

Lemma falsy_not_NaN x : JS.falsy x = false -> JS.isNaN x = false.
Proof. destruct x; cbn; congruence. Qed.

Lemma n100_not_NaN : JS.isNaN JS.n100 = false.
Proof. reflexivity. Qed.

(** The guard of [handleRedeem] lets through exactly the percentages in
    (0, 100]. *)
Lemma redeem_guard_range p :
  JS.falsy p || JS.le p JS.zero || JS.gt p JS.n100 = false ->
  JS.lt JS.zero p = true /\ JS.le p JS.n100 = true.
Proof.
  intro H. apply orb_false_elim in H as [H Hgt].
  apply orb_false_elim in H as [Hf Hle].
  pose proof (falsy_not_NaN p Hf) as Hnan.
  split.
  - apply (not_le_gt p JS.zero Hnan eq_refl Hle).
  - apply (not_gt_le p JS.n100 Hnan n100_not_NaN Hgt).
Qed.

End Comparisons.

(** ** The two transaction handlers *)

Section HandlerFacts.

Variable parseFloat : string -> JS.number.
Variable ctx : context.
Variable rd : chain_reads.
Variable rpc : wallet_rpc.

Ltac run_step :=
  match goal with
  | |- context [match getProgram ctx with _ => _ end] =>
      destruct (getProgram ctx) eqn:?
  | |- context [match getAssociatedTokenAddress rd ?m ?w with _ => _ end] =>
      destruct (getAssociatedTokenAddress rd m w) eqn:?
  | |- context [match getAccount rd ?a with _ => _ end] =>
      destruct (getAccount rd a) eqn:?
  | |- context [match new_BN rpc ?x with _ => _ end] =>
      destruct (new_BN rpc x) eqn:?
  | |- context [match sharesToRedeem ?t ?p with _ => _ end] =>
      destruct (sharesToRedeem t p) eqn:?
  | |- context [match instruction_built rpc ?i with _ => _ end] =>
      destruct (instruction_built rpc i) eqn:?
  | |- context [match getLatestBlockhash rpc with _ => _ end] =>
      destruct (getLatestBlockhash rpc) eqn:?
  | |- context [match signAndSendTransaction rpc ?t with _ => _ end] =>
      destruct (signAndSendTransaction rpc t) eqn:?
  | |- context [match confirmTransaction rpc ?s with _ => _ end] =>
      destruct (confirmTransaction rpc s) eqn:?
  end; cbv beta iota zeta; cbn [app fst snd].

(** What the [try] block of [handleRedeem] has done when it ends: it has
    thrown before or at the submission, or it has submitted one transaction,
    seen it confirmed and scheduled the refresh. *)
Lemma handleRedeem_try_outcome p w st :
  let '(st1, evs, r) := handleRedeem_try ctx rd rpc p w st in
  (evs = [] /\ (exists e, r = Throw e) /\ st1 = setLoading true st) \/
  exists a T shares tx,
    getAssociatedTokenAddress rd shareMint w = Ok a /\
    getAccount rd a = Ok T /\
    sharesToRedeem T p = Ok shares /\
    (exists before,
        instructions tx = before ++ [RedeemIx shares w] /\
        forall i, In i before ->
                  exists ata, i = CreateAssociatedTokenAccount w ata w ZC_TOKEN_MINT) /\
    feePayer tx = w /\
    ((evs = [SignAndSend tx] /\ (exists e, r = Throw e) /\ st1 = setLoading true st) \/
     (evs = [SignAndSend tx; ShowToast ToastSuccess (Redeemed p);
             SetTimeout PostTransactionRefresh (JS.Number 8000)] /\
      r = Ok tt /\
      (exists signature, signAndSendTransaction rpc tx = Ok signature /\
                         confirmTransaction rpc signature = Ok tt) /\
      st1 = setPostTransactionRefreshing true
              (setRedeemPercent "" (setLoading true st)))).
Proof.
  unfold handleRedeem_try, bindA, try_catch, await, set, emit, throw, ret.
  cbv beta iota zeta.
  repeat run_step.
  all: try (left; repeat split; eauto; fail).
  all: match goal with
       | |- context [SignAndSend ?t :: _] => right; eexists _, _, _, t
       end.
  all: split; [reflexivity |]; split; [eassumption |]; split; [eassumption |].
  all: split;
    [first [ exists []; split; [reflexivity | intros i []]
           | eexists [_]; split;
             [reflexivity | intros i [<- | []]; eauto] ] |].
  all: split; [reflexivity |].
  all: first [ left; repeat split; eauto; fail | right; repeat split; eauto ].
  all: repeat match goal with u : unit |- _ => destruct u end; eauto.
Qed.

Lemma handleDeposit_try_outcome x w st :
  let '(st1, evs, r) := handleDeposit_try ctx rd rpc x w st in
  (evs = [] /\ (exists e, r = Throw e) /\ st1 = setLoading true st) \/
  exists depositAmountBN tx,
    new_BN rpc (JS.mul x JS.n1_000_000) = Ok depositAmountBN /\
    (exists before,
        instructions tx = before ++ [DepositIx depositAmountBN w] /\
        forall i, In i before ->
                  exists ata, i = CreateAssociatedTokenAccount w ata w shareMint) /\
    feePayer tx = w /\
    ((evs = [SignAndSend tx] /\ (exists e, r = Throw e) /\ st1 = setLoading true st) \/
     (evs = [SignAndSend tx; ShowToast ToastSuccess (Staked x);
             SetTimeout PostTransactionRefresh (JS.Number 8000)] /\
      r = Ok tt /\
      (exists signature, signAndSendTransaction rpc tx = Ok signature /\
                         confirmTransaction rpc signature = Ok tt) /\
      st1 = setPostTransactionRefreshing true
              (setAmount "" (setLoading true st)))).
Proof.
  unfold handleDeposit_try, bindA, try_catch, await, set, emit, throw, ret.
  cbv beta iota zeta.
  repeat run_step.
  all: try (left; repeat split; eauto; fail).
  all: match goal with
       | |- context [SignAndSend ?t :: _] => right; eexists _, t
       end.
  all: split; [reflexivity |].
  all: split;
    [first [ exists []; split; [reflexivity | intros i []]
           | eexists [_]; split;
             [reflexivity | intros i [<- | []]; eauto] ] |].
  all: split; [reflexivity |].
  all: first [ left; repeat split; eauto; fail | right; repeat split; eauto ].
  all: repeat match goal with u : unit |- _ => destruct u end; eauto.
Qed.

End HandlerFacts.

Section RedeemFacts.

Variable parseFloat : string -> JS.number.
Variable ctx : context.
Variable rd : chain_reads.
Variable rpc : wallet_rpc.

(** Past its two guards, [handleRedeem] is its [try] block followed by the
    [catch] and [finally] clauses. *)
Lemma handleRedeem_connected w wp st :
  (let p := parseFloat (redeemPercent st) in
   JS.falsy p || JS.le p JS.zero || JS.gt p JS.n100 = false) ->
  wallet ctx = Some w -> walletProvider ctx = Some wp ->
  handleRedeem parseFloat ctx rd rpc st =
    let '(st1, evs, r) :=
      handleRedeem_try ctx rd rpc (parseFloat (redeemPercent st)) w st in
    (setLoading false st1,
     evs ++ match r with
            | Ok _ => []
            | Throw e =>
                [ConsoleError "Redemption failed:" e;
                 ShowToast ToastError
                   (Text (error_message e "Failed to redeem shares"))]
            end,
     Ok tt).
Proof.
  cbv zeta. intros Hguard Hw Hwp. unfold handleRedeem.
  rewrite Hguard, Hw, Hwp.
  unfold try_finally, try_catch, bindA, emit, set.
  destruct (handleRedeem_try _ _ _ _ _ _) as [[st1 evs] [[] | e]]; cbn [app];
    rewrite ?app_nil_r; reflexivity.
Qed.

Lemma handleDeposit_connected w wp st :
  (let x := parseFloat (amount st) in
   JS.falsy x || JS.le x JS.zero = false) ->
  wallet ctx = Some w -> walletProvider ctx = Some wp ->
  handleDeposit parseFloat ctx rd rpc st =
    let '(st1, evs, r) :=
      handleDeposit_try ctx rd rpc (parseFloat (amount st)) w st in
    (setLoading false st1,
     evs ++ match r with
            | Ok _ => []
            | Throw e =>
                [ConsoleError "Deposit failed:" e;
                 ShowToast ToastError
                   (Text (error_message e "Failed to deposit tokens"))]
            end,
     Ok tt).
Proof.
  cbv zeta. intros Hguard Hw Hwp. unfold handleDeposit.
  rewrite Hguard, Hw, Hwp.
  unfold try_finally, try_catch, bindA, emit, set.
  destruct (handleDeposit_try _ _ _ _ _ _) as [[st1 evs] [[] | e]]; cbn [app];
    rewrite ?app_nil_r; reflexivity.
Qed.

(** A redeem instruction that [handleRedeem] submits carries the shares
    that [sharesToRedeem] computed from the balance of the share account,
    for a percentage that passed the guard. *)
Lemma handleRedeem_submitted w st tx shares signer :
  wallet ctx = Some w ->
  In tx (submissions (snd (fst (handleRedeem parseFloat ctx rd rpc st)))) ->
  In (RedeemIx shares signer) (instructions tx) ->
  let p := parseFloat (redeemPercent st) in
  JS.lt JS.zero p = true /\ JS.le p JS.n100 = true /\
  exists a T,
    getAssociatedTokenAddress rd shareMint w = Ok a /\
    getAccount rd a = Ok T /\
    sharesToRedeem T p = Ok shares.
Proof.
  intros Hw Htx Hix p.
  destruct (JS.falsy p || JS.le p JS.zero || JS.gt p JS.n100) eqn:Hguard.
  { unfold handleRedeem in Htx. fold p in Htx. rewrite Hguard in Htx.
    cbn in Htx. contradiction. }
  destruct (walletProvider ctx) as [wp |] eqn:Hwp.
  2:{ unfold handleRedeem in Htx. fold p in Htx.
      rewrite Hguard, Hw, Hwp in Htx. cbn in Htx. contradiction. }
  rewrite (handleRedeem_connected w wp st Hguard Hw Hwp) in Htx.
  pose proof (handleRedeem_try_outcome ctx rd rpc p w st) as Hout.
  fold p in Htx.
  destruct (handleRedeem_try ctx rd rpc p w st) as [[st1 evs] r].
  cbn [fst snd] in Htx. rewrite submissions_app in Htx.
  assert (Hquiet : submissions
                     match r with
                     | Ok _ => []
                     | Throw e =>
                         [ConsoleError "Redemption failed:" e;
                          ShowToast ToastError
                            (Text (error_message e "Failed to redeem shares"))]
                     end = []) by (destruct r; reflexivity).
  rewrite Hquiet, app_nil_r in Htx.
  destruct (redeem_guard_range p Hguard) as [Hpos Hle].
  split; [exact Hpos |]. split; [exact Hle |].
  destruct Hout as [(-> & _) | (a & T & shares' & tx' & Ha & HT & Hsh & Hins & _ & Hev)].
  { contradiction. }
  assert (Htx' : tx = tx').
  { destruct Hev as [(-> & _) | (-> & _)]; cbn in Htx; destruct Htx as [-> | []];
      reflexivity. }
  subst tx'. destruct Hins as (before & Hinstr & Hbefore).
  rewrite Hinstr in Hix. apply in_app_or in Hix as [Hix | [Hix | []]].
  - destruct (Hbefore _ Hix) as (ata & Habs). discriminate.
  - injection Hix as <- _. eauto.
Qed.

End RedeemFacts.

(** ** The redeemed amount: claims C3, C5, C9 *)

Lemma sharesToRedeem_100 T : sharesToRedeem T JS.n100 = Ok T.
Proof.
  unfold sharesToRedeem.
  replace (JS.BigInt (JS.Math_floor (JS.mul JS.n100 JS.n100))) with (Ok 10000)
    by (vm_compute; reflexivity).
  cbn [bind]. f_equal. apply Z.quot_mul. discriminate.
Qed.

(** C3.  For every share balance [totalShares], the amount computed for
    100% by the basis-point formula is [totalShares] itself.  A redeem
    instruction that [handleRedeem] submits for the input 100 carries the
    whole balance of the share account; and [handleRedeem] does submit
    one: when the program, the wallet adapter, the token address, the
    instruction builder and the block hash are there, it hands the wallet
    exactly one transaction, which ends with the redemption of
    [totalShares]. *)
Theorem C3_full_percentage_redeems_all_shares
    (parseFloat : string -> JS.number) (ctx : context) (rd : chain_reads)
    (rpc : wallet_rpc) (w a : pubkey) (totalShares : Z) (st : ui_state) :
  parseFloat (redeemPercent st) = JS.n100 ->
  wallet ctx = Some w ->
  getAssociatedTokenAddress rd shareMint w = Ok a ->
  getAccount rd a = Ok totalShares ->
  sharesToRedeem totalShares (parseFloat (redeemPercent st)) = Ok totalShares /\
  (forall tx shares signer,
      In tx (submissions (snd (fst (handleRedeem parseFloat ctx rd rpc st)))) ->
      In (RedeemIx shares signer) (instructions tx) ->
      shares = totalShares) /\
  (forall p senderTokenAccount latest,
      getProgram ctx = Some p ->
      getAssociatedTokenAddress rd ZC_TOKEN_MINT w = Ok senderTokenAccount ->
      instruction_built rpc (RedeemIx totalShares w) = Ok tt ->
      getLatestBlockhash rpc = Ok latest ->
      submissions (snd (fst (handleRedeem parseFloat ctx rd rpc st))) =
        [{| instructions :=
              match getAccount rd senderTokenAccount with
              | Ok _ => []
              | Throw _ =>
                  [CreateAssociatedTokenAccount w senderTokenAccount w ZC_TOKEN_MINT]
              end ++ [RedeemIx totalShares w];
            recentBlockhash := fst latest;
            feePayer := w |}]).
Proof.
  intros Hp Hw Ha HT. rewrite Hp. split; [apply sharesToRedeem_100 |]. split.
  - intros tx shares signer Htx Hix.
    destruct (handleRedeem_submitted parseFloat ctx rd rpc w st tx shares signer
                Hw Htx Hix) as (_ & _ & a' & T' & Ha' & HT' & Hsh).
    rewrite Hp in Hsh. rewrite Ha in Ha'. injection Ha' as <-.
    rewrite HT in HT'. injection HT' as <-.
    rewrite sharesToRedeem_100 in Hsh. now injection Hsh.
  - intros p sta latest Hprog Hsta Hix Hlatest.
    assert (Hwp : exists wp, walletProvider ctx = Some wp).
    { revert Hprog. unfold getProgram, getProvider.
      destruct (window_defined ctx); cbn [negb fst]; [| discriminate].
      rewrite Hw. destruct (walletProvider ctx) as [wp |]; [eauto | discriminate]. }
    destruct Hwp as [wp Hwp].
    unfold handleRedeem. rewrite Hp.
    replace (JS.falsy JS.n100 || JS.le JS.n100 JS.zero || JS.gt JS.n100 JS.n100)
      with false by (vm_compute; reflexivity).
    rewrite Hw, Hwp.
    cbv beta iota zeta delta
      [handleRedeem_try try_finally try_catch bindA await set emit ret throw].
    rewrite Hprog, Ha, HT, sharesToRedeem_100, Hsta.
    destruct (getAccount rd sta) as [amt | e];
      rewrite Hix, Hlatest;
      (destruct (signAndSendTransaction rpc _) as [sg | e'];
       [destruct (confirmTransaction rpc sg) as [u | e''] |]);
      reflexivity.
Qed.

(** C9.  For a percentage [0 < p <= 100] and a balance [totalShares >= 0]
    the amount computed by the basis-point formula lies between 0 and
    [totalShares], and no redeem instruction that [handleRedeem] submits
    carries more shares than the share account holds. *)
Theorem C9_redeemed_shares_within_balance
    (parseFloat : string -> JS.number) (ctx : context) (rd : chain_reads)
    (rpc : wallet_rpc) (w a : pubkey) (totalShares : Z) (st : ui_state) :
  JS.wf (parseFloat (redeemPercent st)) = true ->
  wallet ctx = Some w ->
  getAssociatedTokenAddress rd shareMint w = Ok a ->
  getAccount rd a = Ok totalShares ->
  0 <= totalShares ->
  (forall p, JS.wf p = true -> JS.lt JS.zero p = true -> JS.le p JS.n100 = true ->
     exists shares, sharesToRedeem totalShares p = Ok shares /\
                    0 <= shares <= totalShares) /\
  forall tx shares signer,
    In tx (submissions (snd (fst (handleRedeem parseFloat ctx rd rpc st)))) ->
    In (RedeemIx shares signer) (instructions tx) ->
    0 <= shares <= totalShares.
Proof.
  intros Hwf Hw Ha HT Hnonneg.
  assert (Hformula : forall p, JS.wf p = true -> JS.lt JS.zero p = true ->
            JS.le p JS.n100 = true ->
            exists shares, sharesToRedeem totalShares p = Ok shares /\
                           0 <= shares <= totalShares).
  { intros p Hp Hpos Hle.
    destruct (basis_points_bound p Hp Hpos Hle) as (bps & Hbps & Hrange).
    exists (Z.quot (totalShares * bps) 10000).
    unfold sharesToRedeem. rewrite Hbps. split; [reflexivity |].
    rewrite Z.quot_div_nonneg by nia. split.
    - apply Z.div_pos; nia.
    - apply Z.div_le_upper_bound; nia. }
  split; [exact Hformula |].
  intros tx shares signer Htx Hix.
  destruct (handleRedeem_submitted parseFloat ctx rd rpc w st tx shares signer
              Hw Htx Hix) as (Hpos & Hle & a' & T' & Ha' & HT' & Hsh).
  rewrite Ha in Ha'. injection Ha' as <-.
  rewrite HT in HT'. injection HT' as <-.
  destruct (Hformula _ Hwf Hpos Hle) as (shares' & Hsh' & Hrange).
  rewrite Hsh in Hsh'. injection Hsh' as <-. exact Hrange.
Qed.

(** C5.  When [parseFloat] of the percentage is [NaN], is at most 0 or
    exceeds 100, [handleRedeem] shows the error toast and does nothing else:
    the state is unchanged and nothing is submitted.  The input does not
    clamp either: a typed value above 100 is not stored. *)
Theorem C5_percentage_outside_range_is_rejected
    (parseFloat : string -> JS.number) (ctx : context) (rd : chain_reads)
    (rpc : wallet_rpc) (st : ui_state) :
  (JS.isNaN (parseFloat (redeemPercent st)) = true \/
   JS.le (parseFloat (redeemPercent st)) JS.zero = true \/
   JS.gt (parseFloat (redeemPercent st)) JS.n100 = true) ->
  handleRedeem parseFloat ctx rd rpc st =
    (st,
     [ShowToast ToastError
        (Text "Please enter a valid percentage between 0 and 100")],
     Ok tt) /\
  forall value,
    value <> "" -> JS.gt (parseFloat value) JS.n100 = true ->
    onChange_redeemPercent parseFloat value st = st.
Proof.
  intro Hout. split.
  - unfold handleRedeem.
    assert (Hguard : JS.falsy (parseFloat (redeemPercent st))
                     || JS.le (parseFloat (redeemPercent st)) JS.zero
                     || JS.gt (parseFloat (redeemPercent st)) JS.n100 = true).
    { destruct Hout as [H | [H | H]].
      - destruct (parseFloat (redeemPercent st)); try discriminate. reflexivity.
      - rewrite H. now rewrite orb_true_r.
      - rewrite H. now rewrite orb_true_r. }
    rewrite Hguard. reflexivity.
  - intros value Hne Hgt. unfold onChange_redeemPercent.
    rewrite (gt_not_le _ _ Hgt), andb_false_r, orb_false_r.
    destruct (String.eqb_spec value ""); [contradiction | reflexivity].
Qed.

Lemma C3_full_percentage_witness :
  let st := setRedeemPercent "100" (setModalMode Redeem initial_state) in
  let rd := sample_reads 4000000000001 3000000000000 0 (Some 1500000) in
  sharesToRedeem 1500000 (parseFloat_decimal (redeemPercent st)) = Ok 1500000 /\
  (forall tx shares signer,
      In tx (submissions
               (snd (fst (handleRedeem parseFloat_decimal connected rd sample_rpc st)))) ->
      In (RedeemIx shares signer) (instructions tx) ->
      shares = 1500000) /\
  submissions (snd (fst (handleRedeem parseFloat_decimal connected rd sample_rpc st))) =
    [{| instructions := [RedeemIx 1500000 sample_wallet];
        recentBlockhash := "blockhash";
        feePayer := sample_wallet |}].
Proof.
  intros st rd.
  assert (Hp : parseFloat_decimal (redeemPercent st) = JS.n100)
    by (vm_compute; reflexivity).
  destruct (C3_full_percentage_redeems_all_shares parseFloat_decimal connected
              rd sample_rpc sample_wallet
              ("share-account-of-" ++ sample_wallet)%string 1500000 st
              Hp eq_refl eq_refl eq_refl) as (Hformula & Hcarried & Hsubmitted).
  split; [exact Hformula |]. split; [exact Hcarried |].
  exact (Hsubmitted "phantom" ("zc-account-of-" ++ sample_wallet)%string
           ("blockhash", 1000) eq_refl eq_refl eq_refl eq_refl).
Defined.

Lemma C9_redeemed_shares_witness :
  let st := setRedeemPercent "12.5" (setModalMode Redeem initial_state) in
  let rd := sample_reads 4000000000001 3000000000000 0 (Some 1500000) in
  (forall p, JS.wf p = true -> JS.lt JS.zero p = true -> JS.le p JS.n100 = true ->
     exists shares, sharesToRedeem 1500000 p = Ok shares /\ 0 <= shares <= 1500000) /\
  forall tx shares signer,
    In tx (submissions
             (snd (fst (handleRedeem parseFloat_decimal connected rd sample_rpc st)))) ->
    In (RedeemIx shares signer) (instructions tx) ->
    0 <= shares <= 1500000.
Proof.
  apply (C9_redeemed_shares_within_balance parseFloat_decimal connected
           (sample_reads 4000000000001 3000000000000 0 (Some 1500000)) sample_rpc
           sample_wallet ("share-account-of-" ++ sample_wallet)%string).
  - vm_compute. reflexivity.
  - reflexivity.
  - reflexivity.
  - reflexivity.
  - lia.
Defined.

Lemma C5_percentage_outside_range_witness :
  let st := setRedeemPercent "0" (setModalMode Redeem initial_state) in
  let rd := sample_reads 4000000000001 3000000000000 0 (Some 1500000) in
  handleRedeem parseFloat_decimal connected rd sample_rpc st =
    (st,
     [ShowToast ToastError
        (Text "Please enter a valid percentage between 0 and 100")],
     Ok tt) /\
  forall value,
    value <> "" -> JS.gt (parseFloat_decimal value) JS.n100 = true ->
    onChange_redeemPercent parseFloat_decimal value st = st.
Proof.
  apply (C5_percentage_outside_range_is_rejected parseFloat_decimal connected).
  right. left. vm_compute. reflexivity.
Defined.

(** ** Failures and the refresh after a transaction: claims C7, C8 *)

(** C7.  When the [try] block of [handleDeposit] or of [handleRedeem]
    throws, at whatever step, the handler prints the error, shows an error
    toast with its message, clears [loading] and ends: it sets no timer, and
    it has handed at most one transaction to the wallet. *)
Theorem C7_failed_transaction_is_not_retried
    (parseFloat : string -> JS.number) (ctx : context) (rd : chain_reads)
    (rpc : wallet_rpc) (w : pubkey) (wp : provider) (st : ui_state) :
  wallet ctx = Some w -> walletProvider ctx = Some wp ->
  (forall st1 evs e,
      JS.falsy (parseFloat (amount st)) || JS.le (parseFloat (amount st)) JS.zero
        = false ->
      handleDeposit_try ctx rd rpc (parseFloat (amount st)) w st
        = (st1, evs, Throw e) ->
      handleDeposit parseFloat ctx rd rpc st =
        (setLoading false st1,
         evs ++ [ConsoleError "Deposit failed:" e;
                 ShowToast ToastError
                   (Text (error_message e "Failed to deposit tokens"))],
         Ok tt) /\
      timer_delays (snd (fst (handleDeposit parseFloat ctx rd rpc st))) = [] /\
      (List.length (submissions (snd (fst (handleDeposit parseFloat ctx rd rpc st))))
         <= 1)%nat) /\
  (forall st1 evs e,
      JS.falsy (parseFloat (redeemPercent st))
      || JS.le (parseFloat (redeemPercent st)) JS.zero
      || JS.gt (parseFloat (redeemPercent st)) JS.n100 = false ->
      handleRedeem_try ctx rd rpc (parseFloat (redeemPercent st)) w st
        = (st1, evs, Throw e) ->
      handleRedeem parseFloat ctx rd rpc st =
        (setLoading false st1,
         evs ++ [ConsoleError "Redemption failed:" e;
                 ShowToast ToastError
                   (Text (error_message e "Failed to redeem shares"))],
         Ok tt) /\
      timer_delays (snd (fst (handleRedeem parseFloat ctx rd rpc st))) = [] /\
      (List.length (submissions (snd (fst (handleRedeem parseFloat ctx rd rpc st))))
         <= 1)%nat).
Proof.
  intros Hw Hwp. split.
  - intros st1 evs e Hguard Htry.
    rewrite (handleDeposit_connected parseFloat ctx rd rpc w wp st Hguard Hw Hwp).
    pose proof (handleDeposit_try_outcome ctx rd rpc (parseFloat (amount st)) w st)
      as Hout.
    rewrite Htry in *. cbn [fst snd].
    split; [reflexivity |].
    rewrite timer_delays_app, submissions_app. cbn [timer_delays submissions].
    rewrite !app_nil_r.
    destruct Hout as [(-> & _) | (bn & tx & _ & _ & _ & [(-> & _) | (_ & [=] & _)])];
      cbn; auto.
  - intros st1 evs e Hguard Htry.
    rewrite (handleRedeem_connected parseFloat ctx rd rpc w wp st Hguard Hw Hwp).
    pose proof (handleRedeem_try_outcome ctx rd rpc
                  (parseFloat (redeemPercent st)) w st) as Hout.
    rewrite Htry in *. cbn [fst snd].
    split; [reflexivity |].
    rewrite timer_delays_app, submissions_app. cbn [timer_delays submissions].
    rewrite !app_nil_r.
    destruct Hout as [(-> & _) |
      (a & T & sh & tx & _ & _ & _ & _ & _ & [(-> & _) | (_ & [=] & _)])];
      cbn; auto.
Qed.

(** The user rejects the deposit in the wallet. *)
Lemma C7_failed_transaction_witness :
  let st := setAmount "2.5" initial_state in
  let rd := sample_reads 4000000000001 3000000000000 5000000 (Some 1500000) in
  let tx := {| instructions := [DepositIx 2500000 sample_wallet];
               recentBlockhash := "blockhash";
               feePayer := sample_wallet |} in
  handleDeposit parseFloat_decimal connected rd rejecting_rpc st =
    (setLoading false (setLoading true st),
     [SignAndSend tx] ++
     [ConsoleError "Deposit failed:" (JsError "User rejected the request");
      ShowToast ToastError (Text "User rejected the request")],
     Ok tt) /\
  timer_delays
    (snd (fst (handleDeposit parseFloat_decimal connected rd rejecting_rpc st))) = [] /\
  (List.length (submissions
             (snd (fst (handleDeposit parseFloat_decimal connected rd rejecting_rpc st))))
     <= 1)%nat.
Proof.
  intros st rd tx.
  pose proof (C7_failed_transaction_is_not_retried parseFloat_decimal connected
                rd rejecting_rpc sample_wallet "phantom" st eq_refl eq_refl)
    as [Hdeposit _].
  specialize (Hdeposit (setLoading true st) [SignAndSend tx]
                (JsError "User rejected the request")).
  assert (Hguard : JS.falsy (parseFloat_decimal (amount st))
                   || JS.le (parseFloat_decimal (amount st)) JS.zero = false)
    by (vm_compute; reflexivity).
  assert (Htry : handleDeposit_try connected rd rejecting_rpc
                   (parseFloat_decimal (amount st)) sample_wallet st =
                 (setLoading true st, [SignAndSend tx],
                  Throw (JsError "User rejected the request")))
    by (vm_compute; reflexivity).
  exact (Hdeposit Hguard Htry).
Defined.


(** ** The market-data route: claim C10 *)

Module RouteFacts.
Import Route.

(** The call in the [catch] clause does not throw. *)
Lemma catch_answer_accepted :
  NextResponse_json (failure "Failed to fetch market data") 500 = Ok internal_error.
Proof. reflexivity. Qed.

Lemma NextResponse_json_accepts data s :
  200 <= s <= 599 -> null_body_status s = false ->
  NextResponse_json data s = Ok {| status := s; body := JSON_stringify data |}.
Proof.
  intros Hrange Hnull. unfold NextResponse_json. rewrite Hnull.
  replace ((s <? 200) || (599 <? s)) with false; [reflexivity |].
  symmetry. apply orb_false_intro; apply Z.ltb_ge; lia.
Qed.

Lemma NextResponse_json_refuses data s :
  s < 200 \/ 599 < s \/ null_body_status s = true ->
  exists e, NextResponse_json data s = Throw e.
Proof.
  intro H. unfold NextResponse_json.
  destruct ((s <? 200) || (599 <? s)) eqn:Hrange; [eauto |].
  apply orb_false_elim in Hrange as [Hlow Hhigh].
  apply Z.ltb_ge in Hlow. apply Z.ltb_ge in Hhigh.
  destruct H as [H | [H | H]]; [lia | lia |]. rewrite H. eauto.
Qed.

(** C10 (amended).  A request whose JSON body is not [null] and has no
    [tokenAddress] is answered with status 400 and
    [{ success: false, data: null, error: 'Token address is required' }].
    When a token address is given, the mock is off and the upstream
    response is not ok, the answer carries
    [{ success: false, data: null, error: 'Failed to fetch market data' }],
    with [data] being [null]; its status is the upstream status when a
    response with a body can carry it, which is a status in 200..599 other
    than 204, 205 and 304, and it is 500, with the error logged, for every
    other upstream status. *)
Theorem C10_missing_token_address_and_upstream_failure
    (env : request_env) (request_body : json) :
  request_json env = Ok request_body -> request_body <> JNull ->
  (get (Json request_body) "tokenAddress" = Ok Undefined ->
   POST env =
     ({| status := 400; body := failure "Token address is required" |}, [])) /\
  (forall tokenAddress upstream_response,
      get (Json request_body) "tokenAddress" = Ok tokenAddress ->
      truthy tokenAddress = true ->
      shouldUseMockBirdeye env = false ->
      fetch env tokenAddress = Ok upstream_response ->
      ok upstream_response = false ->
      0 <= upstream_status upstream_response <= 65535 ->
      (200 <= upstream_status upstream_response <= 599 ->
       null_body_status (upstream_status upstream_response) = false ->
       POST env =
         ({| status := upstream_status upstream_response;
             body := failure "Failed to fetch market data" |}, [])) /\
      (upstream_status upstream_response < 200 \/
       599 < upstream_status upstream_response \/
       null_body_status (upstream_status upstream_response) = true ->
       exists e,
         POST env =
           ({| status := 500; body := failure "Failed to fetch market data" |},
            [LogError "Error fetching market data:" e])) /\
      body (fst (POST env)) = failure "Failed to fetch market data" /\
      get (Json (body (fst (POST env)))) "data" = Ok (Json JNull)).
Proof.
  intros Hbody Hnonnull. split.
  - intro Hmissing. unfold POST, POST_try. rewrite Hbody. cbn [bind].
    rewrite Hmissing. reflexivity.
  - intros tokenAddress up Hget Htruthy Hmock Hfetch Hok _.
    assert (Hpost : POST env =
              match NextResponse_json (failure "Failed to fetch market data")
                      (upstream_status up) with
              | Ok r => (r, [])
              | Throw e =>
                  (internal_error, [LogError "Error fetching market data:" e])
              end).
    { unfold POST, POST_try. rewrite Hbody. cbn [bind].
      rewrite Hget. cbn [bind]. rewrite Htruthy, Hmock. cbn [negb].
      rewrite Hfetch. cbn [bind]. rewrite Hok. cbn [negb].
      destruct (NextResponse_json _ _); reflexivity. }
    split; [| split].
    + intros Hrange Hnull. rewrite Hpost.
      rewrite (NextResponse_json_accepts _ _ Hrange Hnull). reflexivity.
    + intro Hrefused. rewrite Hpost.
      destruct (NextResponse_json_refuses (failure "Failed to fetch market data")
                  _ Hrefused) as [e ->].
      exists e. reflexivity.
    + rewrite Hpost. unfold NextResponse_json.
      destruct (_ || _); [split; reflexivity |].
      destruct (null_body_status _); split; reflexivity.
Qed.

Lemma C10_missing_token_address_witness :
  POST (sample_env (Ok (JObject [("address", JString "So1111")])) rate_limited) =
    ({| status := 400; body := failure "Token address is required" |}, []) /\
  POST (sample_env (Ok (JObject [("tokenAddress", JString "So1111")])) rate_limited) =
    ({| status := 429; body := failure "Failed to fetch market data" |}, []).
Proof.
  split.
  - apply (proj1 (C10_missing_token_address_and_upstream_failure
                    (sample_env (Ok (JObject [("address", JString "So1111")]))
                       rate_limited)
                    (JObject [("address", JString "So1111")]) eq_refl
                    ltac:(discriminate))).
    reflexivity.
  - apply (proj2 (C10_missing_token_address_and_upstream_failure
                    (sample_env (Ok (JObject [("tokenAddress", JString "So1111")]))
                       rate_limited)
                    (JObject [("tokenAddress", JString "So1111")]) eq_refl
                    ltac:(discriminate))
             (Json (JString "So1111")) rate_limited
             eq_refl eq_refl eq_refl eq_refl eq_refl ltac:(cbn; lia)).
    + cbn. lia.
    + reflexivity.
Defined.

(** C10 as stated fails twice.  The JSON body [null] has no [tokenAddress],
    and the answer is 500 with 'Failed to fetch market data', not 400.  And
    an upstream answer 304 is not ok, and the answer is 500, not 304:
    no response with a body can carry that status. *)
Lemma C10_null_body_counterexample :
  let env := sample_env (Ok JNull) rate_limited in
  let env304 :=
    sample_env (Ok (JObject [("tokenAddress", JString "So1111")])) not_modified in
  (status (fst (POST env)) = 500 /\
   body (fst (POST env)) = failure "Failed to fetch market data" /\
   fst (POST env)
     <> {| status := 400; body := failure "Token address is required" |}) /\
  (ok not_modified = false /\
   status (fst (POST env304)) = 500 /\
   status (fst (POST env304)) <> upstream_status not_modified).
Proof. cbn. repeat split; discriminate. Qed.

End RouteFacts.

(** * Further properties of the code *)

(** ** The delays of the retries *)




Lemma retry_delay_overflow : retry_delay 1015 = S754_infinity false.
Proof. vm_compute. reflexivity. Qed.


(** ** The retry loop of [fetchVaultData] *)

Section RetryLoop.

Variable ctx : context.

(** An invocation never throws and always clears [refreshing]; it sets at
    most one timer, the retry with the next count, and only while the
    budget lasts. *)
Lemma fetchVaultData_invocation rd retryCount maxRetries st :
  exists st1 evs,
    fetchVaultData ctx rd retryCount maxRetries st = (st1, evs, Ok tt) /\
    refreshing st1 = false /\
    ((pending_retry evs = None /\ timer_delays evs = []) \/
     ((retryCount < maxRetries)%nat /\
      pending_retry evs = Some ((retryCount + 1)%nat, maxRetries) /\
      timer_delays evs = [retry_delay retryCount])).
Proof.
  destruct (getProgram ctx) as [p |] eqn:Hp.
  2:{ rewrite fetchVaultData_disconnected by (left; exact Hp).
      eexists _, _. split; [reflexivity |]. split; [reflexivity |].
      left. split; reflexivity. }
  destruct (wallet ctx) as [w |] eqn:Hw.
  2:{ rewrite fetchVaultData_disconnected by (right; exact Hw).
      eexists _, _. split; [reflexivity |]. split; [reflexivity |].
      left. split; reflexivity. }
  destruct (fetchVaultData_connected ctx rd retryCount maxRetries st p w Hp Hw)
    as (b & v & ev & Q & _ & Heq).
  cbv zeta in Heq. rewrite Heq.
  match type of Heq with context [readUserShares w rd ?s] =>
    pose proof (readUserShares_events rd w s) as Hev;
    destruct (readUserShares w rd s) as [[st2 ev2] r] end.
  cbn [fst snd] in Hev. subst ev2.
  eexists _, _. split; [reflexivity |].
  unfold settle. destruct r as [[] | e].
  - cbn [fst snd]. split; [reflexivity |]. left.
    rewrite quiet_pending_retry, app_nil_r, quiet_timer_delays by exact Q.
    split; reflexivity.
  - destruct (retryCount <? maxRetries)%nat eqn:Hlt; cbn [fst snd app].
    + split; [reflexivity |]. right.
      apply Nat.ltb_lt in Hlt. split; [exact Hlt |].
      rewrite quiet_pending_retry, timer_delays_app, quiet_timer_delays by exact Q.
      split; reflexivity.
    + split; [reflexivity |]. left.
      rewrite quiet_pending_retry, timer_delays_app, quiet_timer_delays by exact Q.
      split; reflexivity.
Qed.


End RetryLoop.




(** X3.  Inside one invocation the balance is stored before the value is
    fetched: when the share account is read but [previewRedeem] of the
    balance throws while retries are left, the invocation ends with the new
    [userShareBalance], the old [userShareValue] and a retry scheduled. *)
Theorem X3_balance_stored_before_value
    (ctx : context) (rd : chain_reads) (p : provider) (w a : pubkey)
    (amt : Z) (e : thrown) (retryCount maxRetries : nat) (st : ui_state) :
  getProgram ctx = Some p -> wallet ctx = Some w ->
  getAssociatedTokenAddress rd shareMint w = Ok a ->
  getAccount rd a = Ok amt ->
  JS.gt (toDisplay amt) JS.zero = true ->
  view_previewRedeem rd amt = Throw e ->
  (retryCount < maxRetries)%nat ->
  let '(st', evs, _) := fetchVaultData ctx rd retryCount maxRetries st in
  userShareBalance st' = toDisplay amt /\
  userShareValue st' = userShareValue st /\
  pending_retry evs = Some ((retryCount + 1)%nat, maxRetries) /\
  timer_delays evs = [retry_delay retryCount].
Proof.
  intros Hp Hw Ha Hacc Hgt Hview Hlt.
  destruct (fetchVaultData_connected ctx rd retryCount maxRetries st p w Hp Hw)
    as (b & v & ev & Q & _ & Heq).
  cbv zeta in Heq. rewrite Heq.
  unfold readUserShares, bindA, await, set. rewrite Ha, Hacc, Hgt, Hview.
  unfold settle. apply Nat.ltb_lt in Hlt. rewrite Hlt. cbn [fst snd app].
  rewrite quiet_pending_retry, timer_delays_app, quiet_timer_delays by exact Q.
  repeat split; reflexivity.
Qed.

Lemma X3_balance_stored_before_value_witness :
  let rd := {| getAccountInfo_vaultState := Ok None;
               view_totalAssets := Ok 4000000000001;
               view_previewRedeem := fun _ => Throw (JsError "429 Too Many Requests");
               getAssociatedTokenAddress := sample_ata;
               getAccount := fun _ => Ok 1500000;
               getParsedAccountInfo_supply := Ok None |} in
  let '(st', evs, _) := fetchVaultData connected rd 0 3 initial_state in
  userShareBalance st' = toDisplay 1500000 /\
  userShareValue st' = userShareValue initial_state /\
  pending_retry evs = Some ((0 + 1)%nat, 3%nat) /\
  timer_delays evs = [retry_delay 0].
Proof.
  intro rd.
  apply (X3_balance_stored_before_value connected rd "phantom" sample_wallet
           ("share-account-of-" ++ sample_wallet)%string 1500000
           (JsError "429 Too Many Requests") 0 3 initial_state).
  - reflexivity.
  - reflexivity.
  - reflexivity.
  - reflexivity.
  - vm_compute. reflexivity.
  - reflexivity.
  - lia.
Defined.

(** X4.  [fetchVaultData] never throws and touches nothing but the fields
    it reports: the inputs, the mode, [loading], the token balance and
    supply and [postTransactionRefreshing] are as before. *)
Theorem X4_fetchVaultData_frame
    (ctx : context) (rd : chain_reads) (retryCount maxRetries : nat)
    (st : ui_state) :
  let '(st', _, r) := fetchVaultData ctx rd retryCount maxRetries st in
  r = Ok tt /\
  amount st' = amount st /\ redeemPercent st' = redeemPercent st /\
  modalMode st' = modalMode st /\ loading st' = loading st /\
  zcBalance st' = zcBalance st /\ zcTotalSupply st' = zcTotalSupply st /\
  postTransactionRefreshing st' = postTransactionRefreshing st /\
  copiedWallet st' = copiedWallet st.
Proof.
  destruct (getProgram ctx) as [p |] eqn:Hp.
  2:{ rewrite fetchVaultData_disconnected by (left; exact Hp).
      repeat split; reflexivity. }
  destruct (wallet ctx) as [w |] eqn:Hw.
  2:{ rewrite fetchVaultData_disconnected by (right; exact Hw).
      repeat split; reflexivity. }
  destruct (fetchVaultData_connected ctx rd retryCount maxRetries st p w Hp Hw)
    as (b & v & ev & Q & _ & Heq).
  cbv zeta in Heq. rewrite Heq.
  unfold readUserShares, bindA, await, set, settle.
  destruct (getAssociatedTokenAddress rd shareMint w) as [a |].
  2:{ destruct (retryCount <? maxRetries)%nat; repeat split; reflexivity. }
  destruct (getAccount rd a) as [amt |].
  2:{ destruct (retryCount <? maxRetries)%nat; repeat split; reflexivity. }
  destruct (JS.gt (toDisplay amt) JS.zero).
  2:{ repeat split; reflexivity. }
  destruct (view_previewRedeem rd amt).
  - repeat split; reflexivity.
  - destruct (retryCount <? maxRetries)%nat; repeat split; reflexivity.
Qed.

(** X5.  Without a wallet there is no program either, and [fetchVaultData]
    reads nothing: it prints one line, sets no timer and leaves every
    displayed figure as it was. *)
Theorem X5_no_wallet_no_refresh
    (ctx : context) (rd : chain_reads) (retryCount maxRetries : nat)
    (st : ui_state) :
  wallet ctx = None ->
  getProgram ctx = None /\
  fetchVaultData ctx rd retryCount maxRetries st =
    (setRefreshing false (setRefreshing true st),
     [ConsoleLog "No program or wallet available"], Ok tt) /\
  run_fetchVaultData 1 ctx (fun _ => rd) retryCount maxRetries st =
    Some (setRefreshing false (setRefreshing true st),
          [ConsoleLog "No program or wallet available"]).
Proof.
  intro Hw.
  assert (Hp : getProgram ctx = None).
  { unfold getProgram, getProvider. rewrite Hw.
    destruct (window_defined ctx); reflexivity. }
  split; [exact Hp |].
  assert (Heq := fetchVaultData_disconnected ctx rd retryCount maxRetries st
                   (or_intror Hw)).
  split; [exact Heq |].
  cbn [run_fetchVaultData]. rewrite Heq. reflexivity.
Qed.

Lemma X5_no_wallet_witness :
  let ctx := {| wallet := None; window_defined := true;
                window_solana := Some "phantom"; window_solflare := None;
                anchor_provider := Ok tt |} in
  let rd := sample_reads 4000000000001 3000000000000 0 (Some 1500000) in
  getProgram ctx = None /\
  fetchVaultData ctx rd 0 3 initial_state =
    (setRefreshing false (setRefreshing true initial_state),
     [ConsoleLog "No program or wallet available"], Ok tt) /\
  run_fetchVaultData 1 ctx (fun _ => rd) 0 3 initial_state =
    Some (setRefreshing false (setRefreshing true initial_state),
          [ConsoleLog "No program or wallet available"]).
Proof.
  intros ctx rd.
  apply (X5_no_wallet_no_refresh ctx rd 0 3 initial_state). reflexivity.
Defined.

(** ** [fetchZcBalance] *)

Lemma fetchZcBalance_outcome (ctx : context) (rd : chain_reads) (st : ui_state) :
  let '(st', _, r) := fetchZcBalance ctx rd st in
  r = Ok tt /\
  zcBalance st' =
    match wallet ctx with
    | None => JS.zero
    | Some w =>
        match getAssociatedTokenAddress rd ZC_TOKEN_MINT w with
        | Ok a =>
            match getAccount rd a, getParsedAccountInfo_supply rd with
            | Ok amt, Ok _ => toDisplay amt
            | _, _ => JS.zero
            end
        | Throw _ => JS.zero
        end
    end /\
  setZcTotalSupply (zcTotalSupply st) (setZcBalance (zcBalance st) st')
    = st.
Proof.
  unfold fetchZcBalance, try_catch, bindA, await, set, emit, ret.
  destruct st.
  destruct (wallet ctx) as [w |]; [| repeat split; reflexivity].
  destruct (getAssociatedTokenAddress rd ZC_TOKEN_MINT w) as [a |];
    [| repeat split; reflexivity].
  destruct (getAccount rd a) as [amt |]; [| repeat split; reflexivity].
  destruct (getParsedAccountInfo_supply rd) as [[supply |] |];
    repeat split; reflexivity.
Qed.

(** X6.  [fetchZcBalance] shows the token balance only when all of its
    three reads succeed: the address, the account and the mint.  In every
    other case, also when the mint lookup throws after the balance was
    read, it shows 0.  It never throws and touches no other field than
    [zcBalance] and [zcTotalSupply]. *)
Theorem X6_fetchZcBalance_all_or_zero
    (ctx : context) (rd : chain_reads) (st : ui_state) :
  let '(st', _, r) := fetchZcBalance ctx rd st in
  r = Ok tt /\
  zcBalance st' =
    match wallet ctx with
    | None => JS.zero
    | Some w =>
        match getAssociatedTokenAddress rd ZC_TOKEN_MINT w with
        | Ok a =>
            match getAccount rd a, getParsedAccountInfo_supply rd with
            | Ok amt, Ok _ => toDisplay amt
            | _, _ => JS.zero
            end
        | Throw _ => JS.zero
        end
    end /\
  setZcTotalSupply (zcTotalSupply st) (setZcBalance (zcBalance st) st')
    = st.
Proof. exact (fetchZcBalance_outcome ctx rd st). Qed.

(** X7.  The two refreshes started together after a transaction do not
    interfere: whichever of [fetchVaultData] and [fetchZcBalance] runs
    first, the state at the end is the same. *)
Theorem X7_refreshes_commute
    (ctx : context) (rd : chain_reads) (retryCount maxRetries : nat)
    (st : ui_state) :
  fst (fst (fetchZcBalance ctx rd
              (fst (fst (fetchVaultData ctx rd retryCount maxRetries st))))) =
  fst (fst (fetchVaultData ctx rd retryCount maxRetries
              (fst (fst (fetchZcBalance ctx rd st))))).
Proof.
  assert (Hzc : exists f : ui_state -> ui_state,
             (forall s, fst (fst (fetchZcBalance ctx rd s)) = f s) /\
             (f = (fun s => s) \/
              (exists x, f = setZcBalance x) \/
              (exists x y, f = fun s => setZcTotalSupply y (setZcBalance x s)) \/
              (exists x y, f = fun s => setZcBalance y (setZcBalance x s)))).
  { unfold fetchZcBalance, try_catch, bindA, await, set, emit, ret.
    destruct (wallet ctx) as [w |].
    2:{ exists (setZcBalance JS.zero). split; [reflexivity | eauto]. }
    destruct (getAssociatedTokenAddress rd ZC_TOKEN_MINT w) as [a |].
    2:{ exists (setZcBalance JS.zero). split; [reflexivity | eauto]. }
    destruct (getAccount rd a) as [amt |].
    2:{ exists (setZcBalance JS.zero). split; [reflexivity | eauto]. }
    destruct (getParsedAccountInfo_supply rd) as [[supply |] |].
    - exists (fun s => setZcTotalSupply (toDisplay supply)
                         (setZcBalance (toDisplay amt) s)).
      split; [reflexivity | eauto 6].
    - exists (setZcBalance (toDisplay amt)). split; [reflexivity | eauto].
    - exists (fun s => setZcBalance JS.zero (setZcBalance (toDisplay amt) s)).
      split; [reflexivity | eauto 7]. }
  destruct Hzc as (f & Hf & Hshape). rewrite !Hf.
  destruct (getProgram ctx) as [p |] eqn:Hp.
  2:{ rewrite !fetchVaultData_disconnected by (left; exact Hp). cbn [fst].
      destruct Hshape as [-> | [[x ->] | [(x & y & ->) | (x & y & ->)]]];
        reflexivity. }
  destruct (wallet ctx) as [w |] eqn:Hw.
  2:{ rewrite !fetchVaultData_disconnected by (right; exact Hw). cbn [fst].
      destruct Hshape as [-> | [[x ->] | [(x & y & ->) | (x & y & ->)]]];
        reflexivity. }
  unfold fetchVaultData. rewrite Hp, Hw.
  cbv beta iota zeta delta
    [try_finally try_catch bindA await set emit ret
     readVaultState readTotalAssets readExchangeRate readUserShares].
  destruct (getAccountInfo_vaultState rd) as [[info |] | e0];
    [destruct (decode_operationsEnabled info) as [flag | e0] | |];
    destruct (view_totalAssets rd) as [total | e1];
    destruct (view_previewRedeem rd 1000000) as [rate | e2];
    (destruct (getAssociatedTokenAddress rd shareMint w) as [a | e3];
     [destruct (getAccount rd a) as [amt | e4];
      [destruct (JS.gt (toDisplay amt) JS.zero);
       [destruct (view_previewRedeem rd amt) as [assets | e5] |] |] |]);
    destruct (retryCount <? maxRetries)%nat;
    cbv beta iota zeta; cbn [fst snd];
    destruct Hshape as [-> | [[x ->] | [(x & y & ->) | (x & y & ->)]]];
    reflexivity.
Qed.

(** ** The guards and the transactions of the handlers *)

Section HandlerProperties.

Variable parseFloat : string -> JS.number.
Variable ctx : context.
Variable rd : chain_reads.
Variable rpc : wallet_rpc.

(** X8.  An amount that [parseFloat] reads as [NaN] or as a number at most
    0, a missing wallet or a missing wallet adapter stop [handleDeposit]
    before its [try] block: it shows one error toast and does nothing else;
    the state, [loading] included, is untouched.  A missing wallet or
    adapter stops [handleRedeem] in the same way. *)
Theorem X8_handlers_stop_at_their_guards (st : ui_state) :
  JS.isNaN (parseFloat (amount st)) = true \/
  JS.le (parseFloat (amount st)) JS.zero = true \/
  wallet ctx = None \/ walletProvider ctx = None ->
  (exists msg,
      handleDeposit parseFloat ctx rd rpc st =
        (st, [ShowToast ToastError (Text msg)], Ok tt)) /\
  (wallet ctx = None \/ walletProvider ctx = None ->
   exists msg,
      handleRedeem parseFloat ctx rd rpc st =
        (st, [ShowToast ToastError (Text msg)], Ok tt)).
Proof.
  intro H. split.
  - unfold handleDeposit.
    destruct (JS.falsy (parseFloat (amount st))
              || JS.le (parseFloat (amount st)) JS.zero) eqn:Hguard;
      [eexists; reflexivity |].
    apply orb_false_elim in Hguard as [Hf Hle].
    destruct H as [H | [H | [H | H]]].
    + destruct (parseFloat (amount st)); discriminate.
    + congruence.
    + rewrite H. eexists; reflexivity.
    + rewrite H. destruct (wallet ctx); eexists; reflexivity.
  - intro Hnone. unfold handleRedeem.
    destruct (_ || _); [eexists; reflexivity |].
    destruct Hnone as [-> | ->]; [| destruct (wallet ctx)]; eexists; reflexivity.
Qed.

(** X9.  A transaction that [handleDeposit] hands to the wallet is paid by
    the connected wallet and holds the deposit of [new BN(amount * 10^6)]
    base units, preceded by the creation of the wallet's share account
    exactly when that account cannot be read. *)
Theorem X9_deposit_transaction_shape (w : pubkey) (st : ui_state)
    (tx : transaction) :
  wallet ctx = Some w ->
  In tx (submissions (snd (fst (handleDeposit parseFloat ctx rd rpc st)))) ->
  exists ata depositAmountBN latest,
    getAssociatedTokenAddress rd shareMint w = Ok ata /\
    new_BN rpc (JS.mul (parseFloat (amount st)) JS.n1_000_000)
      = Ok depositAmountBN /\
    getLatestBlockhash rpc = Ok latest /\
    tx = {| instructions :=
              match getAccount rd ata with
              | Ok _ => []
              | Throw _ => [CreateAssociatedTokenAccount w ata w shareMint]
              end ++ [DepositIx depositAmountBN w];
            recentBlockhash := fst latest;
            feePayer := w |}.
Proof.
  intros Hw. unfold handleDeposit.
  destruct (_ || _); [intros [] |]. rewrite Hw.
  destruct (walletProvider ctx); [| intros []].
  cbv beta iota zeta delta
    [handleDeposit_try try_finally try_catch bindA await set emit ret throw].
  destruct (getProgram ctx); [| intros []].
  destruct (new_BN rpc _) as [bn | e0]; [| intros []].
  destruct (getAssociatedTokenAddress rd ZC_TOKEN_MINT w) as [a0 | e1];
    [| intros []].
  destruct (getAssociatedTokenAddress rd shareMint w) as [ata | e2];
    [| intros []].
  destruct (getAccount rd ata) as [amt | e3] eqn:Hacc;
    (destruct (instruction_built rpc _) as [u | e4]; [| intros []]);
    (destruct (getLatestBlockhash rpc) as [latest | e5]; [| intros []]);
    (destruct (signAndSendTransaction rpc _) as [sg | e6];
     [destruct (confirmTransaction rpc sg) as [u' | e7] |]);
    cbn [fst snd app submissions];
    intros [<- | []]; exists ata, bn, latest; rewrite Hacc;
    repeat split; reflexivity.
Qed.

(** X10.  A transaction that [handleRedeem] hands to the wallet is paid by
    the connected wallet and holds the redemption of the shares computed
    from the balance of its share account, preceded by the creation of the
    wallet's token account exactly when that account cannot be read. *)
Theorem X10_redeem_transaction_shape (w : pubkey) (st : ui_state)
    (tx : transaction) :
  wallet ctx = Some w ->
  In tx (submissions (snd (fst (handleRedeem parseFloat ctx rd rpc st)))) ->
  exists userShareAccount totalShares shares senderTokenAccount latest,
    getAssociatedTokenAddress rd shareMint w = Ok userShareAccount /\
    getAccount rd userShareAccount = Ok totalShares /\
    sharesToRedeem totalShares (parseFloat (redeemPercent st)) = Ok shares /\
    getAssociatedTokenAddress rd ZC_TOKEN_MINT w = Ok senderTokenAccount /\
    getLatestBlockhash rpc = Ok latest /\
    tx = {| instructions :=
              match getAccount rd senderTokenAccount with
              | Ok _ => []
              | Throw _ =>
                  [CreateAssociatedTokenAccount w senderTokenAccount w ZC_TOKEN_MINT]
              end ++ [RedeemIx shares w];
            recentBlockhash := fst latest;
            feePayer := w |}.
Proof.
  intros Hw. unfold handleRedeem.
  destruct (_ || _); [intros [] |]. rewrite Hw.
  destruct (walletProvider ctx); [| intros []].
  cbv beta iota zeta delta
    [handleRedeem_try try_finally try_catch bindA await set emit ret throw].
  destruct (getProgram ctx); [| intros []].
  destruct (getAssociatedTokenAddress rd shareMint w) as [usa | e0];
    [| intros []].
  destruct (getAccount rd usa) as [total | e1] eqn:Htotal; [| intros []].
  destruct (sharesToRedeem total _) as [shares | e2] eqn:Hshares; [| intros []].
  destruct (getAssociatedTokenAddress rd ZC_TOKEN_MINT w) as [sta | e3];
    [| intros []].
  destruct (getAccount rd sta) as [amt | e4] eqn:Hacc;
    (destruct (instruction_built rpc _) as [u | e5]; [| intros []]);
    (destruct (getLatestBlockhash rpc) as [latest | e6]; [| intros []]);
    (destruct (signAndSendTransaction rpc _) as [sg | e7];
     [destruct (confirmTransaction rpc sg) as [u' | e8] |]);
    cbn [fst snd app submissions];
    intros [<- | []]; exists usa, total, shares, sta, latest; rewrite Hacc;
    repeat split; try reflexivity; assumption.
Qed.

(** X11.  Past its guards a handler changes the state all or nothing, and
    which of the two is decided by the confirmation.  Either it handed the
    wallet one transaction, the wallet sent it and the node confirmed it:
    then the success toast is shown, the input is cleared,
    [postTransactionRefreshing] is set and the 8-second timer is the only
    timer.  Or no transaction that it handed over was both sent and
    confirmed: then an error toast is shown, no timer is set and the state
    is as before, with the typed input still there.  Either way [loading]
    ends as false. *)
Theorem X11_handlers_all_or_nothing (w : pubkey) (wp : provider) (st : ui_state) :
  wallet ctx = Some w -> walletProvider ctx = Some wp ->
  (JS.falsy (parseFloat (amount st)) || JS.le (parseFloat (amount st)) JS.zero
     = false ->
   let '(st', evs, _) := handleDeposit parseFloat ctx rd rpc st in
   (exists tx signature,
       signAndSendTransaction rpc tx = Ok signature /\
       confirmTransaction rpc signature = Ok tt /\
       evs = [SignAndSend tx;
              ShowToast ToastSuccess (Staked (parseFloat (amount st)));
              SetTimeout PostTransactionRefresh (JS.Number 8000)] /\
       st' = setLoading false
               (setPostTransactionRefreshing true (setAmount "" st))) \/
   ((forall tx signature,
        In tx (submissions evs) ->
        signAndSendTransaction rpc tx = Ok signature ->
        confirmTransaction rpc signature <> Ok tt) /\
    (exists e, In (ConsoleError "Deposit failed:" e) evs /\
               In (ShowToast ToastError
                     (Text (error_message e "Failed to deposit tokens"))) evs) /\
    timer_delays evs = [] /\ st' = setLoading false st)) /\
  (JS.falsy (parseFloat (redeemPercent st))
   || JS.le (parseFloat (redeemPercent st)) JS.zero
   || JS.gt (parseFloat (redeemPercent st)) JS.n100 = false ->
   let '(st', evs, _) := handleRedeem parseFloat ctx rd rpc st in
   (exists tx signature,
       signAndSendTransaction rpc tx = Ok signature /\
       confirmTransaction rpc signature = Ok tt /\
       evs = [SignAndSend tx;
              ShowToast ToastSuccess (Redeemed (parseFloat (redeemPercent st)));
              SetTimeout PostTransactionRefresh (JS.Number 8000)] /\
       st' = setLoading false
               (setPostTransactionRefreshing true (setRedeemPercent "" st))) \/
   ((forall tx signature,
        In tx (submissions evs) ->
        signAndSendTransaction rpc tx = Ok signature ->
        confirmTransaction rpc signature <> Ok tt) /\
    (exists e, In (ConsoleError "Redemption failed:" e) evs /\
               In (ShowToast ToastError
                     (Text (error_message e "Failed to redeem shares"))) evs) /\
    timer_delays evs = [] /\ st' = setLoading false st)).
Proof.
  intros Hw Hwp. split; intro Hguard.
  - rewrite (handleDeposit_connected parseFloat ctx rd rpc w wp st Hguard Hw Hwp).
    unfold handleDeposit_try, bindA, try_catch, await, set, emit, throw, ret.
    cbv beta iota zeta.
    destruct (getProgram ctx); cbv beta iota zeta; cbn [app fst snd];
      [| right; split; [intros tx sg [] | split; [| split; reflexivity]];
         eexists; split; [left; reflexivity | right; left; reflexivity]].
    destruct (new_BN rpc _) as [bn | e0]; cbv beta iota zeta; cbn [app fst snd];
      [| right; split; [intros tx sg [] | split; [| split; reflexivity]];
         eexists; split; [left; reflexivity | right; left; reflexivity]].
    destruct (getAssociatedTokenAddress rd ZC_TOKEN_MINT w) as [a0 | e1];
      cbv beta iota zeta; cbn [app fst snd];
      [| right; split; [intros tx sg [] | split; [| split; reflexivity]];
         eexists; split; [left; reflexivity | right; left; reflexivity]].
    destruct (getAssociatedTokenAddress rd shareMint w) as [ata | e2];
      cbv beta iota zeta; cbn [app fst snd];
      [| right; split; [intros tx sg [] | split; [| split; reflexivity]];
         eexists; split; [left; reflexivity | right; left; reflexivity]].
    destruct (getAccount rd ata) as [amt | e3]; cbv beta iota zeta; cbn [app fst snd].
    all: destruct (instruction_built rpc _) as [u | e4];
      cbv beta iota zeta; cbn [app fst snd];
      [| right; split; [intros tx sg [] | split; [| split; reflexivity]];
         eexists; split; [left; reflexivity | right; left; reflexivity]].
    all: destruct (getLatestBlockhash rpc) as [latest | e5];
      cbv beta iota zeta; cbn [app fst snd];
      [| right; split; [intros tx sg [] | split; [| split; reflexivity]];
         eexists; split; [left; reflexivity | right; left; reflexivity]].
    all: destruct (signAndSendTransaction rpc _) as [sg | e6] eqn:Hsend;
      cbv beta iota zeta; cbn [app fst snd].
    all: try (right; split;
              [intros tx sg' [<- | []] Hsg; rewrite Hsend in Hsg; discriminate
              | split; [| split; reflexivity];
                eexists; split; [right; left; reflexivity
                                | right; right; left; reflexivity]]).
    all: destruct (confirmTransaction rpc sg) as [[] | e7] eqn:Hconf;
      cbv beta iota zeta; cbn [app fst snd].
    all: try (left; eexists _, sg; split; [exact Hsend |];
              split; [exact Hconf |]; split; reflexivity).
    all: right; split;
      [intros tx sg' [<- | []] Hsg; rewrite Hsend in Hsg;
       injection Hsg as <-; rewrite Hconf; discriminate
      | split; [| split; reflexivity];
        eexists; split; [right; left; reflexivity
                        | right; right; left; reflexivity]].
  - rewrite (handleRedeem_connected parseFloat ctx rd rpc w wp st Hguard Hw Hwp).
    unfold handleRedeem_try, bindA, try_catch, await, set, emit, throw, ret.
    cbv beta iota zeta.
    destruct (getProgram ctx); cbv beta iota zeta; cbn [app fst snd];
      [| right; split; [intros tx sg [] | split; [| split; reflexivity]];
         eexists; split; [left; reflexivity | right; left; reflexivity]].
    destruct (getAssociatedTokenAddress rd shareMint w) as [usa | e0];
      cbv beta iota zeta; cbn [app fst snd];
      [| right; split; [intros tx sg [] | split; [| split; reflexivity]];
         eexists; split; [left; reflexivity | right; left; reflexivity]].
    destruct (getAccount rd usa) as [total | e1]; cbv beta iota zeta; cbn [app fst snd];
      [| right; split; [intros tx sg [] | split; [| split; reflexivity]];
         eexists; split; [left; reflexivity | right; left; reflexivity]].
    destruct (sharesToRedeem total _) as [shares | e2];
      cbv beta iota zeta; cbn [app fst snd];
      [| right; split; [intros tx sg [] | split; [| split; reflexivity]];
         eexists; split; [left; reflexivity | right; left; reflexivity]].
    destruct (getAssociatedTokenAddress rd ZC_TOKEN_MINT w) as [sta | e3];
      cbv beta iota zeta; cbn [app fst snd];
      [| right; split; [intros tx sg [] | split; [| split; reflexivity]];
         eexists; split; [left; reflexivity | right; left; reflexivity]].
    destruct (getAccount rd sta) as [amt | e4]; cbv beta iota zeta; cbn [app fst snd].
    all: destruct (instruction_built rpc _) as [u | e5];
      cbv beta iota zeta; cbn [app fst snd];
      [| right; split; [intros tx sg [] | split; [| split; reflexivity]];
         eexists; split; [left; reflexivity | right; left; reflexivity]].
    all: destruct (getLatestBlockhash rpc) as [latest | e6];
      cbv beta iota zeta; cbn [app fst snd];
      [| right; split; [intros tx sg [] | split; [| split; reflexivity]];
         eexists; split; [left; reflexivity | right; left; reflexivity]].
    all: destruct (signAndSendTransaction rpc _) as [sg | e7] eqn:Hsend;
      cbv beta iota zeta; cbn [app fst snd].
    all: try (right; split;
              [intros tx sg' [<- | []] Hsg; rewrite Hsend in Hsg; discriminate
              | split; [| split; reflexivity];
                eexists; split; [right; left; reflexivity
                                | right; right; left; reflexivity]]).
    all: destruct (confirmTransaction rpc sg) as [[] | e8] eqn:Hconf;
      cbv beta iota zeta; cbn [app fst snd].
    all: try (left; eexists _, sg; split; [exact Hsend |];
              split; [exact Hconf |]; split; reflexivity).
    all: right; split;
      [intros tx sg' [<- | []] Hsg; rewrite Hsend in Hsg;
       injection Hsg as <-; rewrite Hconf; discriminate
      | split; [| split; reflexivity];
        eexists; split; [right; left; reflexivity
                        | right; right; left; reflexivity]].
Qed.

End HandlerProperties.

Lemma X8_handlers_stop_witness :
  let st := setAmount "." initial_state in
  let rd := sample_reads 4000000000001 3000000000000 5000000 (Some 1500000) in
  (exists msg,
      handleDeposit parseFloat_decimal connected rd sample_rpc st =
        (st, [ShowToast ToastError (Text msg)], Ok tt)) /\
  (wallet connected = None \/ walletProvider connected = None ->
   exists msg,
      handleRedeem parseFloat_decimal connected rd sample_rpc st =
        (st, [ShowToast ToastError (Text msg)], Ok tt)).
Proof.
  intros st rd.
  apply (X8_handlers_stop_at_their_guards parseFloat_decimal connected rd
           sample_rpc st).
  left. reflexivity.
Defined.

Lemma X9_deposit_transaction_witness :
  let st := setAmount "2.5" initial_state in
  let rd := sample_reads 4000000000001 3000000000000 5000000 None in
  let tx := {| instructions :=
                 [CreateAssociatedTokenAccount sample_wallet
                    ("share-account-of-" ++ sample_wallet)%string
                    sample_wallet shareMint;
                  DepositIx 2500000 sample_wallet];
               recentBlockhash := "blockhash";
               feePayer := sample_wallet |} in
  exists ata depositAmountBN latest,
    getAssociatedTokenAddress rd shareMint sample_wallet = Ok ata /\
    new_BN sample_rpc (JS.mul (parseFloat_decimal (amount st)) JS.n1_000_000)
      = Ok depositAmountBN /\
    getLatestBlockhash sample_rpc = Ok latest /\
    tx = {| instructions :=
              match getAccount rd ata with
              | Ok _ => []
              | Throw _ =>
                  [CreateAssociatedTokenAccount sample_wallet ata sample_wallet shareMint]
              end ++ [DepositIx depositAmountBN sample_wallet];
            recentBlockhash := fst latest;
            feePayer := sample_wallet |}.
Proof.
  intros st rd tx.
  assert (Hin : In tx (submissions
                         (snd (fst (handleDeposit parseFloat_decimal connected rd
                                      sample_rpc st)))))
    by (vm_compute; left; reflexivity).
  exact (X9_deposit_transaction_shape parseFloat_decimal connected rd sample_rpc
           sample_wallet st tx eq_refl Hin).
Defined.

Lemma X10_redeem_transaction_witness :
  let st := setRedeemPercent "50" initial_state in
  let rd := sample_reads 4000000000001 3000000000000 5000000 (Some 1500000) in
  let tx := {| instructions := [RedeemIx 750000 sample_wallet];
               recentBlockhash := "blockhash";
               feePayer := sample_wallet |} in
  exists userShareAccount totalShares shares senderTokenAccount latest,
    getAssociatedTokenAddress rd shareMint sample_wallet = Ok userShareAccount /\
    getAccount rd userShareAccount = Ok totalShares /\
    sharesToRedeem totalShares (parseFloat_decimal (redeemPercent st)) = Ok shares /\
    getAssociatedTokenAddress rd ZC_TOKEN_MINT sample_wallet = Ok senderTokenAccount /\
    getLatestBlockhash sample_rpc = Ok latest /\
    tx = {| instructions :=
              match getAccount rd senderTokenAccount with
              | Ok _ => []
              | Throw _ =>
                  [CreateAssociatedTokenAccount sample_wallet senderTokenAccount
                     sample_wallet ZC_TOKEN_MINT]
              end ++ [RedeemIx shares sample_wallet];
            recentBlockhash := fst latest;
            feePayer := sample_wallet |}.
Proof.
  intros st rd tx.
  assert (Hin : In tx (submissions
                         (snd (fst (handleRedeem parseFloat_decimal connected rd
                                      sample_rpc st)))))
    by (vm_compute; left; reflexivity).
  exact (X10_redeem_transaction_shape parseFloat_decimal connected rd sample_rpc
           sample_wallet st tx eq_refl Hin).
Defined.

Lemma X11_handlers_all_or_nothing_witness :
  let st := setAmount "2.5" initial_state in
  let rd := sample_reads 4000000000001 3000000000000 5000000 (Some 1500000) in
  let out := handleDeposit parseFloat_decimal connected rd sample_rpc st in
  exists tx signature,
    signAndSendTransaction sample_rpc tx = Ok signature /\
    confirmTransaction sample_rpc signature = Ok tt /\
    snd (fst out) =
      [SignAndSend tx;
       ShowToast ToastSuccess (Staked (parseFloat_decimal (amount st)));
       SetTimeout PostTransactionRefresh (JS.Number 8000)] /\
    fst (fst out) =
      setLoading false (setPostTransactionRefreshing true (setAmount "" st)).
Proof.
  intros st rd out.
  assert (Hguard : JS.falsy (parseFloat_decimal (amount st))
                   || JS.le (parseFloat_decimal (amount st)) JS.zero = false)
    by (vm_compute; reflexivity).
  assert (Htimer : timer_delays (snd (fst out)) = [JS.Number 8000])
    by (vm_compute; reflexivity).
  pose proof (proj1 (X11_handlers_all_or_nothing parseFloat_decimal connected rd
                       sample_rpc sample_wallet "phantom" st eq_refl eq_refl)
                Hguard) as H.
  fold out in H. destruct out as [[st' evs] r]. cbn [fst snd] in Htimer |- *.
  destruct H as [H | (_ & _ & Hnone & _)]; [exact H |].
  rewrite Hnone in Htimer. discriminate.
Defined.

(** ** The inputs and the action button *)

Section InputProperties.

Variable parseFloat : string -> JS.number.
Variable ctx : context.

Lemma le_not_NaN x y : JS.le x y = true -> JS.isNaN x = false.
Proof. destruct x; cbn; congruence. Qed.

Lemma le_not_gt x y : JS.le x y = true -> JS.gt x y = false.
Proof.
  unfold JS.gt, JS.le, SFltb, SFleb. rewrite (SFcompare_antisym x y).
  destruct (SFcompare x y) as [[] |]; cbn [CompOpp]; congruence.
Qed.

(** X12.  The percentage input only ever holds the empty string or a string
    of digits with at most one point whose value is at most 100: typing,
    the MAX button and [handleRedeem] all keep it so. *)
Theorem X12_percentage_input_invariant
    (rd : chain_reads) (rpc : wallet_rpc) (st : ui_state) (value : string) :
  percent_ok parseFloat (redeemPercent st) ->
  JS.le (parseFloat "100") JS.n100 = true ->
  percent_ok parseFloat (redeemPercent (onChange_redeemPercent parseFloat value st)) /\
  percent_ok parseFloat (redeemPercent (onClick_max_redeem st)) /\
  percent_ok parseFloat
    (redeemPercent (fst (fst (handleRedeem parseFloat ctx rd rpc st)))).
Proof.
  intros Hok H100. repeat split.
  - unfold onChange_redeemPercent.
    destruct (String.eqb_spec value "") as [-> | Hne]; cbn [orb].
    + left. reflexivity.
    + destruct (decimal_pattern value) eqn:Hpat; cbn [andb]; [| exact Hok].
      destruct (JS.le (parseFloat value) JS.n100) eqn:Hle; [| exact Hok].
      right. split; assumption.
  - unfold onClick_max_redeem.
    destruct (JS.gt (userShareBalance st) JS.zero); [| exact Hok].
    right. split; [reflexivity | exact H100].
  - unfold handleRedeem.
    destruct (_ || _) eqn:Hguard; [exact Hok |].
    destruct (wallet ctx) as [w |]; [| exact Hok].
    destruct (walletProvider ctx) as [wp |]; [| exact Hok].
    unfold try_finally, try_catch.
    pose proof (handleRedeem_try_outcome ctx rd rpc
                  (parseFloat (redeemPercent st)) w st) as Hout.
    destruct (handleRedeem_try _ _ _ _ _ _) as [[st1 evs] r].
    destruct Hout as [(-> & [e ->] & ->) |
      (a & T & sh & tx & _ & _ & _ & _ & _ &
       [(-> & [e ->] & ->) | (-> & -> & _ & ->)])].
    + exact Hok.
    + exact Hok.
    + left. reflexivity.
Qed.

(** X13.  With such an input, a click that the action button lets through
    in redeem mode passes the percentage guard of [handleRedeem]: the
    percentage is in (0, 100], redemptions are enabled and the displayed
    share balance is not 0. *)
Theorem X13_enabled_redeem_click_passes_guard (st : ui_state) :
  percent_ok parseFloat (redeemPercent st) ->
  click parseFloat ctx st = Some HandleRedeem ->
  JS.falsy (parseFloat (redeemPercent st))
  || JS.le (parseFloat (redeemPercent st)) JS.zero
  || JS.gt (parseFloat (redeemPercent st)) JS.n100 = false /\
  withdrawalsEnabled st = true /\
  JS.strict_eq (userShareBalance st) JS.zero = false /\
  loading st = false.
Proof.
  intros Hok. unfold click, action_button, action_button_disabled.
  destruct (wallet ctx) as [w |]; cbn [disabled onClick].
  2:{ destruct (loading st); discriminate. }
  destruct (loading st); cbn [orb]; [discriminate |].
  destruct (modalMode st).
  { destruct (_ || _); discriminate. }
  destruct (String.eqb_spec (redeemPercent st) "") as [Hempty | Hne];
    cbn [orb]; [discriminate |].
  destruct (JS.le (parseFloat (redeemPercent st)) JS.zero) eqn:Hle0;
    cbn [orb]; [discriminate |].
  destruct (withdrawalsEnabled st); cbn [negb orb]; [| discriminate].
  destruct (JS.strict_eq (userShareBalance st) JS.zero); [discriminate |].
  intros _.
  destruct Hok as [Hempty | [_ Hle]]; [contradiction |].
  rewrite (le_not_gt _ _ Hle), !orb_false_r.
  pose proof (le_not_NaN _ _ Hle) as Hnan.
  repeat split.
  destruct (parseFloat (redeemPercent st)); try discriminate; reflexivity.
Qed.

(** X14.  The stake button checks less than [handleDeposit] does: a
    non-empty amount that [parseFloat] reads as [NaN] leaves the button
    enabled, and the click only gets the validation toast. *)
Theorem X14_stake_button_lets_NaN_through
    (rd : chain_reads) (rpc : wallet_rpc) (w : pubkey) (st : ui_state) :
  wallet ctx = Some w -> loading st = false -> modalMode st = Deposit ->
  amount st <> "" -> JS.isNaN (parseFloat (amount st)) = true ->
  click parseFloat ctx st = Some HandleDeposit /\
  handleDeposit parseFloat ctx rd rpc st =
    (st, [ShowToast ToastError (Text "Please enter a valid deposit amount")],
     Ok tt).
Proof.
  intros Hw Hl Hm Hne Hnan. split.
  - unfold click, action_button, action_button_disabled.
    rewrite Hw, Hl, Hm. cbn [disabled onClick orb].
    destruct (String.eqb_spec (amount st) ""); [contradiction |].
    destruct (parseFloat (amount st)); try discriminate. reflexivity.
  - unfold handleDeposit.
    destruct (parseFloat (amount st)); try discriminate. reflexivity.
Qed.

End InputProperties.

Lemma X12_percentage_input_witness :
  let rd := sample_reads 4000000000001 3000000000000 5000000 (Some 1500000) in
  let st := setRedeemPercent "12.5" initial_state in
  percent_ok parseFloat_decimal
    (redeemPercent (onChange_redeemPercent parseFloat_decimal "125" st)) /\
  percent_ok parseFloat_decimal (redeemPercent (onClick_max_redeem st)) /\
  percent_ok parseFloat_decimal
    (redeemPercent
       (fst (fst (handleRedeem parseFloat_decimal connected rd sample_rpc st)))).
Proof.
  intros rd st.
  apply (X12_percentage_input_invariant parseFloat_decimal connected rd sample_rpc
           st "125").
  - right. split; vm_compute; reflexivity.
  - vm_compute. reflexivity.
Defined.

Lemma X13_enabled_redeem_click_witness :
  let st := setUserShareBalance (toDisplay 1500000)
              (setRedeemPercent "12.5" (setModalMode Redeem initial_state)) in
  JS.falsy (parseFloat_decimal (redeemPercent st))
  || JS.le (parseFloat_decimal (redeemPercent st)) JS.zero
  || JS.gt (parseFloat_decimal (redeemPercent st)) JS.n100 = false /\
  withdrawalsEnabled st = true /\
  JS.strict_eq (userShareBalance st) JS.zero = false /\
  loading st = false.
Proof.
  intro st.
  apply (X13_enabled_redeem_click_passes_guard parseFloat_decimal connected st).
  - right. split; vm_compute; reflexivity.
  - vm_compute. reflexivity.
Defined.

Lemma X14_stake_button_witness :
  let rd := sample_reads 4000000000001 3000000000000 5000000 (Some 1500000) in
  let st := onChange_amount "." initial_state in
  amount st = "." /\
  click parseFloat_decimal connected st = Some HandleDeposit /\
  handleDeposit parseFloat_decimal connected rd sample_rpc st =
    (st, [ShowToast ToastError (Text "Please enter a valid deposit amount")],
     Ok tt).
Proof.
  intros rd st. split; [reflexivity |].
  apply (X14_stake_button_lets_NaN_through parseFloat_decimal connected rd
           sample_rpc sample_wallet st); try reflexivity.
  discriminate.
Defined.

(** ** The pattern of the inputs, and the program *)

Lemma all_digits_decimal_pattern s : all_digits s = true -> decimal_pattern s = true.
Proof.
  induction s as [| c s IH]; cbn [all_digits decimal_pattern]; [reflexivity |].
  intro H. apply andb_prop in H as [Hc Hs]. rewrite Hc. auto.
Qed.

(** X15.  The pattern of the two inputs accepts exactly the strings made of
    digits with at most one point among them. *)
Theorem X15_decimal_pattern_characterised (s : string) :
  decimal_pattern s = true <->
  exists a b, all_digits a = true /\ all_digits b = true /\
              (s = a \/ s = (a ++ "." ++ b)%string).
Proof.
  split.
  - induction s as [| c s IH]; cbn [decimal_pattern].
    + intros _. exists ""%string, ""%string. auto.
    + destruct (is_digit c) eqn:Hc.
      * intro H. destruct (IH H) as (a & b & Ha & Hb & Hs).
        exists (String c a), b. cbn [all_digits]. rewrite Hc, Ha.
        repeat split; auto.
        destruct Hs as [-> | ->]; [left | right]; reflexivity.
      * destruct (Ascii.eqb_spec c ".") as [-> | Hne]; [| discriminate].
        intro H. exists ""%string, s. repeat split; auto.
  - intros (a & b & Ha & Hb & Hs). revert s Hs.
    induction a as [| c a IH]; intros s Hs.
    + destruct Hs as [-> | ->]; [reflexivity |]. exact Hb.
    + cbn [all_digits] in Ha. apply andb_prop in Ha as [Hc Ha].
      destruct Hs as [-> | ->]; cbn [decimal_pattern append]; rewrite Hc.
      * apply (IH Ha). left. reflexivity.
      * apply (IH Ha). right. reflexivity.
Qed.

(** X16.  There is a program exactly when [window] is defined, a wallet is
    connected, a wallet adapter is installed and the Anchor provider could
    be built; the adapter is [window.solana] when both are installed. *)
Theorem X16_program_availability (ctx : context) (p : provider) :
  (getProgram ctx = Some p <->
   window_defined ctx = true /\ (exists w, wallet ctx = Some w) /\
   walletProvider ctx = Some p /\ (exists u, anchor_provider ctx = Ok u)) /\
  (forall s, window_solana ctx = Some s -> walletProvider ctx = Some s).
Proof.
  split.
  - unfold getProgram, getProvider.
    destruct (window_defined ctx); cbn [negb fst].
    2:{ split; [discriminate | intros (H & _); discriminate]. }
    destruct (wallet ctx) as [w |].
    2:{ split; [discriminate | intros (_ & [w H] & _); discriminate]. }
    destruct (walletProvider ctx) as [wp |].
    2:{ split; [discriminate | intros (_ & _ & H & _); discriminate]. }
    destruct (anchor_provider ctx) as [u | e]; cbn [fst].
    + split.
      * intros [= ->]. repeat split; eauto.
      * intros (_ & _ & [= ->] & _). reflexivity.
    + split; [discriminate | intros (_ & _ & _ & [u H]); discriminate].
  - intros s Hs. unfold walletProvider. now rewrite Hs.
Qed.

Lemma X16_program_availability_witness :
  (getProgram connected = Some "phantom" <->
   window_defined connected = true /\ (exists w, wallet connected = Some w) /\
   walletProvider connected = Some "phantom" /\
   (exists u, anchor_provider connected = Ok u)) /\
  (forall s, window_solana connected = Some s -> walletProvider connected = Some s).
Proof. exact (X16_program_availability connected "phantom"). Defined.

(** ** [formatAddress] *)

Section FormatAddress.

Lemma length_append s t :
  String.length (s ++ t) = (String.length s + String.length t)%nat.
Proof. induction s as [| c s IH]; cbn; [reflexivity | now rewrite IH]. Qed.

Lemma append_assoc s t u : ((s ++ t) ++ u = s ++ t ++ u)%string.
Proof. induction s as [| c s IH]; cbn; [reflexivity | now rewrite IH]. Qed.

Lemma substring_0_short n s :
  (String.length s <= n)%nat -> substring 0 n s = s.
Proof.
  revert n; induction s as [| c s IH]; intros [| n] H; cbn in *;
    try reflexivity; try lia.
  f_equal. apply IH. lia.
Qed.

Lemma substring_0_prefix p r :
  substring 0 (String.length p) (p ++ r) = p.
Proof.
  induction p as [| c p IH]; cbn.
  - destruct r; reflexivity.
  - now rewrite IH.
Qed.

Lemma substring_skip l n q :
  substring (String.length l) n (l ++ q) = substring 0 n q.
Proof. induction l as [| c l IH]; cbn; [reflexivity | exact IH]. Qed.

(** X17.  [formatAddress] keeps the first four and the last four characters
    of an address of eight characters or more, with three dots between
    them; an address of at most four characters is printed twice around the
    dots. *)
Theorem X17_formatAddress_ends (address : string) :
  (forall first middle last,
      String.length first = 4%nat -> String.length last = 4%nat ->
      address = (first ++ middle ++ last)%string ->
      formatAddress address = (first ++ "..." ++ last)%string) /\
  ((String.length address <= 4)%nat ->
   formatAddress address = (address ++ "..." ++ address)%string).
Proof.
  split.
  - intros first middle last Hf Hl ->. unfold formatAddress, slice_first, slice_last.
    rewrite <- Hf at 1. rewrite substring_0_prefix.
    rewrite <- (append_assoc first middle last), length_append, Hl.
    replace (String.length (first ++ middle) + 4 - 4)%nat
      with (String.length (first ++ middle)) by lia.
    rewrite substring_skip, <- Hl, substring_0_short by lia. reflexivity.
  - intro H. unfold formatAddress, slice_first, slice_last.
    replace (String.length address - 4)%nat with 0%nat by lia.
    now rewrite substring_0_short by exact H.
Qed.

End FormatAddress.

Lemma X17_formatAddress_witness :
  formatAddress "GVvPZpC6ymCoiHzYJ7CWZ8LhVn9tL2AUpRjSAsLh6jZC" = "GVvP...6jZC".
Proof.
  apply (proj1 (X17_formatAddress_ends
                  "GVvPZpC6ymCoiHzYJ7CWZ8LhVn9tL2AUpRjSAsLh6jZC")
           "GVvP" "ZpC6ymCoiHzYJ7CWZ8LhVn9tL2AUpRjSAsLh" "6jZC");
    reflexivity.
Defined.

(** ** The market-data route *)

Module RouteProperties.
Import Route.

Lemma or_zero_defined v :
  exists j, or v zero = Json j /\ (Json j = zero \/ truthy (Json j) = true).
Proof.
  unfold or. destruct (truthy v) eqn:Ht.
  - destruct v as [| j]; [discriminate |]. eauto.
  - eexists. split; [reflexivity |]. left. reflexivity.
Qed.

Lemma get_data_never_throws d responseData v :
  get (Json responseData) "data" = Ok d ->
  exists r, get (or d (Json responseData)) v = Ok r.
Proof.
  intro Hd. unfold or. destruct (truthy d) eqn:Ht.
  - destruct d as [| []]; try discriminate; cbn; eauto.
  - destruct responseData; try discriminate; cbn; eauto.
Qed.

(** X18.  A falsy [tokenAddress] counts as a missing one: an empty string,
    0, [false] or [null] in a body that is not [null] gets the same 400, and
    neither the mock nor Birdeye is asked. *)
Theorem X18_falsy_token_address_is_rejected
    (env : request_env) (request_body : json) (tokenAddress : value) :
  request_json env = Ok request_body ->
  get (Json request_body) "tokenAddress" = Ok tokenAddress ->
  truthy tokenAddress = false ->
  POST env =
    ({| status := 400; body := failure "Token address is required" |}, []).
Proof.
  intros Hbody Hget Hfalsy. unfold POST, POST_try.
  rewrite Hbody. cbn [bind]. rewrite Hget. cbn [bind]. now rewrite Hfalsy.
Qed.

Lemma X18_falsy_token_address_witness :
  POST (sample_env (Ok (JObject [("tokenAddress", JString "")])) rate_limited) =
    ({| status := 400; body := failure "Token address is required" |}, []).
Proof.
  apply (X18_falsy_token_address_is_rejected
           (sample_env (Ok (JObject [("tokenAddress", JString "")])) rate_limited)
           (JObject [("tokenAddress", JString "")]) (Json (JString "")));
    reflexivity.
Defined.

(** X19.  Whatever throws inside the handler ends as a 500 with
    'Failed to fetch market data' and a logged error: a request body that
    is not JSON, a failing mock, a failing [fetch], an upstream answer
    that is ok but whose body is not JSON or is [null], or an upstream
    answer that is not ok and whose status no response with a body can
    carry. *)
Theorem X19_every_exception_becomes_500 (env : request_env) (e : thrown) :
  request_json env = Throw e \/
  (exists request_body tokenAddress,
      request_json env = Ok request_body /\
      get (Json request_body) "tokenAddress" = Ok tokenAddress /\
      truthy tokenAddress = true /\
      ((shouldUseMockBirdeye env = true /\
        getTokenMarketData env tokenAddress = Throw e) \/
       (shouldUseMockBirdeye env = false /\
        (fetch env tokenAddress = Throw e \/
         exists up, fetch env tokenAddress = Ok up /\
                    ((ok up = true /\
                      (upstream_json up = Throw e \/
                       (upstream_json up = Ok JNull /\
                        e = JsError "Cannot read properties of null or undefined"))) \/
                     (ok up = false /\
                      0 <= upstream_status up <= 65535 /\
                      NextResponse_json (failure "Failed to fetch market data")
                        (upstream_status up) = Throw e)))))) ->
  POST env =
    ({| status := 500; body := failure "Failed to fetch market data" |},
     [LogError "Error fetching market data:" e]).
Proof.
  unfold POST, POST_try.
  intros [-> | (rb & tok & -> & Hget & Ht & H)]; [reflexivity |].
  cbn [bind]. rewrite Hget. cbn [bind]. rewrite Ht. cbn [negb].
  destruct H as [[-> Hmock] | [-> [Hfetch | (up & Hfetch & Hup)]]];
    cbn [negb].
  - rewrite Hmock. reflexivity.
  - rewrite Hfetch. reflexivity.
  - rewrite Hfetch. cbn [bind].
    destruct Hup as [[Hok Hjson] | (Hok & _ & Hthrow)]; rewrite Hok; cbn [negb].
    + destruct Hjson as [-> | [-> ->]]; reflexivity.
    + rewrite Hthrow. reflexivity.
Qed.

Lemma X19_every_exception_witness :
  POST (sample_env (Throw (JsError "Unexpected end of JSON input")) rate_limited) =
    ({| status := 500; body := failure "Failed to fetch market data" |},
     [LogError "Error fetching market data:"
        (JsError "Unexpected end of JSON input")]) /\
  POST (sample_env (Ok (JObject [("tokenAddress", JString "So1111")]))
          not_modified) =
    ({| status := 500; body := failure "Failed to fetch market data" |},
     [LogError "Error fetching market data:" body_with_null_body_status]).
Proof.
  split.
  - apply (X19_every_exception_becomes_500
             (sample_env (Throw (JsError "Unexpected end of JSON input"))
                rate_limited)).
    left. reflexivity.
  - apply (X19_every_exception_becomes_500
             (sample_env (Ok (JObject [("tokenAddress", JString "So1111")]))
                not_modified)).
    right. exists (JObject [("tokenAddress", JString "So1111")]),
             (Json (JString "So1111")).
    split; [reflexivity |]. split; [reflexivity |]. split; [reflexivity |].
    right. split; [reflexivity |]. right. exists not_modified.
    split; [reflexivity |]. right. split; [reflexivity |].
    split; [cbn; lia | reflexivity].
Defined.

(** X20.  With the mock on, a request with a token address is answered
    with what the mock returns, written as JSON and with status 200, and
    Birdeye is not asked: the answer does not depend on [fetch]. *)
Theorem X20_mock_answers_without_birdeye
    (env : request_env) (other_fetch : value -> result upstream)
    (request_body : json) (tokenAddress : value) (mockData : json) :
  request_json env = Ok request_body ->
  get (Json request_body) "tokenAddress" = Ok tokenAddress ->
  truthy tokenAddress = true ->
  shouldUseMockBirdeye env = true ->
  getTokenMarketData env tokenAddress = Ok mockData ->
  POST env = ({| status := 200; body := JSON_stringify mockData |},
              [LogMock tokenAddress mockData]) /\
  POST {| request_json := request_json env;
          shouldUseMockBirdeye := shouldUseMockBirdeye env;
          getTokenMarketData := getTokenMarketData env;
          fetch := other_fetch |} = POST env.
Proof.
  intros Hbody Hget Ht Hmock Hdata.
  unfold POST, POST_try. cbn [request_json shouldUseMockBirdeye getTokenMarketData].
  rewrite Hbody. cbn [bind]. rewrite Hget. cbn [bind].
  rewrite Ht, Hmock. cbn [negb]. rewrite Hdata. cbn [bind]. split; reflexivity.
Qed.

Lemma X20_mock_answers_witness :
  let env := {| request_json := Ok (JObject [("tokenAddress", JString "So1111")]);
                shouldUseMockBirdeye := true;
                getTokenMarketData := fun _ =>
                  Ok (JObject [("success", JBool true)]);
                fetch := fun _ => Throw (JsError "network") |} in
  POST env = ({| status := 200; body := JObject [("success", JBool true)] |},
              [LogMock (Json (JString "So1111"))
                 (JObject [("success", JBool true)])]) /\
  POST {| request_json := request_json env;
          shouldUseMockBirdeye := shouldUseMockBirdeye env;
          getTokenMarketData := getTokenMarketData env;
          fetch := fun _ => Ok rate_limited |} = POST env.
Proof.
  intro env.
  apply (X20_mock_answers_without_birdeye env (fun _ => Ok rate_limited)
           (JObject [("tokenAddress", JString "So1111")])
           (Json (JString "So1111")) (JObject [("success", JBool true)]));
    reflexivity.
Defined.

(** X21.  An upstream answer that is ok and is JSON other than [null] gets
    status 200 and a normalised object in which [price], [liquidity],
    [total_supply], [circulating_supply], [fdv] and [market_cap] are always
    present.  Each holds the upstream value when that is truthy and the
    number 0 otherwise, as [JSON.stringify] writes it: a number too large
    for a double arrives as [null]. *)
Theorem X21_normalised_fields_are_present
    (env : request_env) (request_body : json) (tokenAddress : value)
    (up : upstream) (responseData : json) :
  request_json env = Ok request_body ->
  get (Json request_body) "tokenAddress" = Ok tokenAddress ->
  truthy tokenAddress = true ->
  shouldUseMockBirdeye env = false ->
  fetch env tokenAddress = Ok up -> ok up = true ->
  upstream_json up = Ok responseData -> responseData <> JNull ->
  exists d fields,
    get (Json responseData) "data" = Ok d /\
    fst (POST env) =
      {| status := 200;
         body := JObject [("success", JBool true); ("data", JObject fields)] |} /\
    (forall key source,
        In (key, source)
           [("price", "price"); ("liquidity", "liquidity");
            ("total_supply", "totalSupply");
            ("circulating_supply", "circulatingSupply"); ("fdv", "fdv")] ->
        exists v, get (or d (Json responseData)) source = Ok v /\
                  lookup key fields = written (or v zero)) /\
    (exists v1 v2,
        get (or d (Json responseData)) "marketCap" = Ok v1 /\
        get (or d (Json responseData)) "market_cap" = Ok v2 /\
        lookup "market_cap" fields = written (or (or v1 v2) zero)) /\
    (forall key,
        In key ["price"; "liquidity"; "total_supply"; "circulating_supply";
                "fdv"; "market_cap"] ->
        lookup key fields <> Undefined).
Proof.
  intros Hbody Hget Ht Hmock Hfetch Hok Hjson Hnonnull.
  unfold POST, POST_try.
  rewrite Hbody. cbn [bind]. rewrite Hget. cbn [bind].
  rewrite Ht, Hmock. cbn [negb]. rewrite Hfetch. cbn [bind].
  rewrite Hok. cbn [negb]. rewrite Hjson. cbn [bind].
  assert (Hd : exists d, get (Json responseData) "data" = Ok d)
    by (destruct responseData; try contradiction; cbn; eauto).
  destruct Hd as [d Hd]. rewrite Hd. cbn [bind].
  exists d.
  unfold normalize.
  destruct (get_data_never_throws d responseData "price" Hd) as [price Hprice].
  destruct (get_data_never_throws d responseData "liquidity" Hd)
    as [liquidity Hliquidity].
  destruct (get_data_never_throws d responseData "totalSupply" Hd)
    as [totalSupply HtotalSupply].
  destruct (get_data_never_throws d responseData "circulatingSupply" Hd)
    as [circulatingSupply HcirculatingSupply].
  destruct (get_data_never_throws d responseData "fdv" Hd) as [fdv Hfdv].
  destruct (get_data_never_throws d responseData "marketCap" Hd)
    as [marketCap HmarketCap].
  destruct (get_data_never_throws d responseData "market_cap" Hd)
    as [market_cap Hmarket_cap].
  destruct (get_data_never_throws d responseData "priceChange24h" Hd)
    as [priceChange24h HpriceChange24h].
  destruct (get_data_never_throws d responseData "price_change_24h" Hd)
    as [price_change_24h Hprice_change_24h].
  rewrite Hprice, Hliquidity, HtotalSupply, HcirculatingSupply, Hfdv,
    HmarketCap, Hmarket_cap, HpriceChange24h, Hprice_change_24h.
  cbn [bind].
  destruct (or_zero_defined price) as (j1 & E1 & _).
  destruct (or_zero_defined liquidity) as (j2 & E2 & _).
  destruct (or_zero_defined totalSupply) as (j3 & E3 & _).
  destruct (or_zero_defined circulatingSupply) as (j4 & E4 & _).
  destruct (or_zero_defined fdv) as (j5 & E5 & _).
  destruct (or_zero_defined (or marketCap market_cap)) as (j6 & E6 & _).
  rewrite E1, E2, E3, E4, E5, E6.
  cbn [fst body status object NextResponse_json Z.ltb Z.compare Pos.compare
              Pos.compare_cont orb null_body_status Z.eqb Pos.eqb bind
              JSON_stringify map].
  eexists. split; [reflexivity |]. split; [reflexivity |].
  split; [| split].
  - intros key source Hin. cbn [In] in Hin.
    repeat destruct Hin as [Hin | Hin]; try contradiction.
    all: injection Hin as <- <-; eexists; (split; [eassumption |]).
    all: cbn [lookup String.eqb Ascii.eqb Bool.eqb].
    all: first [rewrite E1 | rewrite E2 | rewrite E3 | rewrite E4 | rewrite E5];
      reflexivity.
  - exists marketCap, market_cap.
    split; [reflexivity |]. split; [reflexivity |].
    cbn [lookup String.eqb Ascii.eqb Bool.eqb]. rewrite E6. reflexivity.
  - intros key Hkey. cbn [In] in Hkey.
    repeat destruct Hkey as [<- | Hkey]; try contradiction;
      cbn [lookup String.eqb Ascii.eqb Bool.eqb]; discriminate.
Qed.

Lemma X21_normalised_fields_witness :
  let env :=
    sample_env (Ok (JObject [("tokenAddress", JString "So1111")]))
      overflowing_price in
  (exists d fields,
      get (Json (JObject [("success", JBool true);
                          ("data", JObject [("price", JNumber (S754_infinity false));
                                            ("liquidity", JNumber (JS.Number 3));
                                            ("marketCap", JNumber (JS.Number 0))])]))
        "data" = Ok d /\
      fst (POST env) =
        {| status := 200;
           body := JObject [("success", JBool true); ("data", JObject fields)] |} /\
      lookup "price" fields <> Undefined) /\
  body (fst (POST env)) =
    JObject [("success", JBool true);
             ("data", JObject [("price", JNull);
                               ("liquidity", JNumber (JS.Number 3));
                               ("total_supply", JNumber JS.zero);
                               ("circulating_supply", JNumber JS.zero);
                               ("fdv", JNumber JS.zero);
                               ("market_cap", JNumber JS.zero)])].
Proof.
  intro env. split; [| vm_compute; reflexivity].
  destruct (X21_normalised_fields_are_present env
              (JObject [("tokenAddress", JString "So1111")])
              (Json (JString "So1111")) overflowing_price
              (JObject [("success", JBool true);
                        ("data", JObject [("price", JNumber (S754_infinity false));
                                          ("liquidity", JNumber (JS.Number 3));
                                          ("marketCap", JNumber (JS.Number 0))])])
              eq_refl eq_refl eq_refl eq_refl eq_refl eq_refl eq_refl
              ltac:(discriminate))
    as (d & fields & Hd & Hpost & _ & _ & Hpresent).
  exists d, fields. split; [exact Hd |]. split; [exact Hpost |].
  apply Hpresent. left. reflexivity.
Defined.

(** X22.  The [data] wrapper of the upstream answer is optional: an object
    sent bare, with no truthy [data] property of its own, is answered like
    the same object wrapped in [{ data: ... }]. *)
Theorem X22_data_wrapper_is_optional
    (request : result json) (mock : bool)
    (mockData : value -> result json) (upstream_code : Z)
    (fields rest : list (string * json)) :
  truthy (lookup "data" fields) = false ->
  let env_of := fun answer =>
    {| request_json := request;
       shouldUseMockBirdeye := mock;
       getTokenMarketData := mockData;
       fetch := fun _ => Ok {| ok := true; upstream_status := upstream_code;
                               upstream_json := Ok answer |} |} in
  POST (env_of (JObject (("data", JObject fields) :: rest)))
    = POST (env_of (JObject fields)).
Proof.
  intros Hbare env_of. unfold POST, POST_try, env_of.
  cbn [request_json shouldUseMockBirdeye getTokenMarketData fetch].
  destruct request as [request_body | e]; [| reflexivity]. cbn [bind].
  destruct (get (Json request_body) "tokenAddress") as [tokenAddress | e];
    [| reflexivity].
  cbn [bind]. destruct (truthy tokenAddress); [| reflexivity]. cbn [negb].
  destruct mock; [reflexivity |].
  cbn [bind ok upstream_json negb get lookup String.eqb Ascii.eqb Bool.eqb].
  unfold or at 1. cbn [truthy].
  unfold or at 1. rewrite Hbare. reflexivity.
Qed.

Lemma X22_data_wrapper_witness :
  let env_of := fun answer =>
    {| request_json := Ok (JObject [("tokenAddress", JString "So1111")]);
       shouldUseMockBirdeye := false;
       getTokenMarketData := fun _ => Ok JNull;
       fetch := fun _ => Ok {| ok := true; upstream_status := 200;
                               upstream_json := Ok answer |} |} in
  POST (env_of (JObject [("data", JObject [("price", JNumber (JS.Number 3))]);
                         ("success", JBool true)]))
    = POST (env_of (JObject [("price", JNumber (JS.Number 3))])).
Proof.
  apply (X22_data_wrapper_is_optional
           (Ok (JObject [("tokenAddress", JString "So1111")])) false
           (fun _ => Ok JNull) 200 [("price", JNumber (JS.Number 3))]
           [("success", JBool true)]).
  reflexivity.
Defined.

End RouteProperties.

(** ** More on the refresh *)

(** X23.  A share account that is there but empty is no failure: the
    balance and the value are shown as 0, the vault is not asked for a
    preview of the balance, and no retry is scheduled. *)
Theorem X23_empty_share_account_is_not_retried
    (ctx : context) (rd : chain_reads) (p : provider) (w a : pubkey)
    (retryCount maxRetries : nat) (st : ui_state) :
  getProgram ctx = Some p -> wallet ctx = Some w ->
  getAssociatedTokenAddress rd shareMint w = Ok a ->
  getAccount rd a = Ok 0 ->
  let '(st', evs, _) := fetchVaultData ctx rd retryCount maxRetries st in
  JS.strict_eq (userShareBalance st') JS.zero = true /\
  userShareValue st' = JS.zero /\
  pending_retry evs = None /\ timer_delays evs = [] /\
  count_log "User share account not found" evs = 0%nat.
Proof.
  intros Hp Hw Ha Hacc.
  destruct (fetchVaultData_connected ctx rd retryCount maxRetries st p w Hp Hw)
    as (b & v & ev & Q & _ & Heq).
  cbv zeta in Heq. rewrite Heq.
  rewrite (readUserShares_found w rd a 0 0 _ Ha Hacc)
    by (intro H; vm_compute in H; discriminate).
  unfold settle. cbn [fst snd].
  rewrite quiet_pending_retry, app_nil_r, quiet_timer_delays, quiet_count_log
    by exact Q.
  repeat split; reflexivity.
Qed.

Lemma X23_empty_share_account_witness :
  let rd := sample_reads 4000000000001 3000000000000 0 (Some 0) in
  let '(st', evs, _) := fetchVaultData connected rd 0 3 initial_state in
  JS.strict_eq (userShareBalance st') JS.zero = true /\
  userShareValue st' = JS.zero /\
  pending_retry evs = None /\ timer_delays evs = [] /\
  count_log "User share account not found" evs = 0%nat.
Proof.
  intro rd.
  apply (X23_empty_share_account_is_not_retried connected rd "phantom"
           sample_wallet ("share-account-of-" ++ sample_wallet)%string 0 3
           initial_state); reflexivity.
Defined.

(** X24.  The reads of one invocation do not depend on each other: when
    the vault state, the total assets and the rate all fail, the panel
    shows redemptions off, a vault balance of 0 and a rate of 1, and the
    share account is still read and shown. *)
Theorem X24_failed_vault_reads_do_not_stop_the_share_read
    (ctx : context) (rd : chain_reads) (p : provider) (w a : pubkey)
    (e1 e2 e3 : thrown) (amt assets : Z) (retryCount maxRetries : nat)
    (st : ui_state) :
  getProgram ctx = Some p -> wallet ctx = Some w ->
  getAccountInfo_vaultState rd = Throw e1 ->
  view_totalAssets rd = Throw e2 ->
  view_previewRedeem rd 1000000 = Throw e3 ->
  getAssociatedTokenAddress rd shareMint w = Ok a ->
  getAccount rd a = Ok amt ->
  (JS.gt (toDisplay amt) JS.zero = true -> view_previewRedeem rd amt = Ok assets) ->
  fetchVaultData ctx rd retryCount maxRetries st =
    (setRefreshing false
       (setUserShareValue
          (if JS.gt (toDisplay amt) JS.zero then toDisplay assets else JS.zero)
          (setUserShareBalance (toDisplay amt)
             (setExchangeRate JS.one
                (setVaultBalance JS.zero
                   (setWithdrawalsEnabled false (setRefreshing true st)))))),
     [ConsoleError "Failed to fetch vault state:" e1;
      ConsoleError "Failed to fetch vault metrics:" e2;
      ConsoleError "Failed to fetch exchange rate:" e3],
     Ok tt).
Proof.
  intros Hp Hw H1 H2 H3 Ha Hacc Hv.
  unfold fetchVaultData. rewrite Hp, Hw.
  cbv beta iota zeta delta
    [try_finally try_catch bindA await set emit ret
     readVaultState readTotalAssets readExchangeRate].
  rewrite H1, H2, H3. cbv beta iota zeta.
  rewrite (readUserShares_found w rd a amt assets _ Ha Hacc Hv).
  reflexivity.
Qed.

Lemma X24_failed_vault_reads_witness :
  let down := JsError "503 Service Unavailable" in
  let rd := {| getAccountInfo_vaultState := Throw down;
               view_totalAssets := Throw down;
               view_previewRedeem := fun _ => Throw down;
               getAssociatedTokenAddress := sample_ata;
               getAccount := fun _ => Ok 0;
               getParsedAccountInfo_supply := Ok None |} in
  fetchVaultData connected rd 0 3 initial_state =
    (setRefreshing false
       (setUserShareValue
          (if JS.gt (toDisplay 0) JS.zero then toDisplay 0 else JS.zero)
          (setUserShareBalance (toDisplay 0)
             (setExchangeRate JS.one
                (setVaultBalance JS.zero
                   (setWithdrawalsEnabled false (setRefreshing true initial_state)))))),
     [ConsoleError "Failed to fetch vault state:" down;
      ConsoleError "Failed to fetch vault metrics:" down;
      ConsoleError "Failed to fetch exchange rate:" down],
     Ok tt).
Proof.
  intros down rd.
  apply (X24_failed_vault_reads_do_not_stop_the_share_read connected rd "phantom"
           sample_wallet ("share-account-of-" ++ sample_wallet)%string
           down down down 0 0 0 3 initial_state); try reflexivity.
  intro H. vm_compute in H. discriminate.
Defined.

(** X25.  The refresh that follows a transaction always reaches its last
    line: neither of its two calls can throw, so
    [postTransactionRefreshing] and [refreshing] are both cleared at the
    end, whatever the chain answers. *)
Theorem X25_post_transaction_refresh_clears_its_flag
    (ctx : context) (rd : chain_reads) (st : ui_state) :
  let '(st', _, r) := postTransactionRefresh ctx rd st in
  r = Ok tt /\ postTransactionRefreshing st' = false /\ refreshing st' = false.
Proof.
  unfold postTransactionRefresh. unfold bindA at 1.
  destruct (fetchVaultData_invocation ctx rd default_retryCount default_maxRetries st)
    as (st1 & ev1 & Heq & Hr & _).
  rewrite Heq. unfold bindA, set.
  pose proof (fetchZcBalance_outcome ctx rd st1) as Hzc.
  destruct (fetchZcBalance ctx rd st1) as [[st2 ev2] r2].
  destruct Hzc as (-> & _ & Hframe).
  cbn [fst snd]. repeat split.
  rewrite <- Hr, <- Hframe. reflexivity.
Qed.

(** X26.  The label of the action button never announces a reason while
    the button can be clicked: under 'Processing...', 'Redemptions
    Disabled' or 'No Shares to Redeem' the button is disabled. *)
Theorem X26_button_label_matches_disabled
    (parseFloat : string -> JS.number) (ctx : context) (w : pubkey)
    (st : ui_state) :
  wallet ctx = Some w ->
  action_button_label st = "Processing..." \/
  action_button_label st = "Redemptions Disabled" \/
  action_button_label st = "No Shares to Redeem" ->
  disabled (action_button parseFloat ctx st) = true /\
  click parseFloat ctx st = None.
Proof.
  intros Hw Hlabel.
  assert (Hd : disabled (action_button parseFloat ctx st) = true).
  { unfold action_button, action_button_disabled, action_button_label in *.
    rewrite Hw. cbn [disabled].
    destruct (loading st); [reflexivity |]. cbn [orb].
    destruct (modalMode st).
    - destruct Hlabel as [H | [H | H]]; discriminate.
    - destruct (withdrawalsEnabled st); cbn [negb] in *.
      + destruct (JS.strict_eq (userShareBalance st) JS.zero).
        * now rewrite !orb_true_r.
        * destruct Hlabel as [H | [H | H]]; discriminate.
      + now rewrite orb_true_r. }
  split; [exact Hd |]. unfold click. now rewrite Hd.
Qed.

Lemma X26_button_label_witness :
  let st := setUserShareBalance (toDisplay 0)
              (setRedeemPercent "50" (setModalMode Redeem initial_state)) in
  disabled (action_button parseFloat_decimal connected st) = true /\
  click parseFloat_decimal connected st = None.
Proof.
  intro st.
  apply (X26_button_label_matches_disabled parseFloat_decimal connected
           sample_wallet st).
  - reflexivity.
  - right. right. vm_compute. reflexivity.
Defined.

(** ** The position at the end of a refresh *)

Section FinalPosition.

Variable ctx : context.
Variable reads : nat -> chain_reads.
Variables (p : provider) (w : pubkey).
Hypothesis Hprogram : getProgram ctx = Some p.
Hypothesis Hwallet : wallet ctx = Some w.

(** An invocation either schedules the next retry or leaves a position
    that its own read explains. *)
Lemma fetchVaultData_retries_or_settles retryCount maxRetries st :
  exists st1 evs,
    fetchVaultData ctx (reads retryCount) retryCount maxRetries st
      = (st1, evs, Ok tt) /\
    (((retryCount < maxRetries)%nat /\
      pending_retry evs = Some ((retryCount + 1)%nat, maxRetries)) \/
     (pending_retry evs = None /\ position_from_one_read reads w st1)).
Proof.
  destruct (fetchVaultData_connected ctx (reads retryCount) retryCount maxRetries
              st p w Hprogram Hwallet) as (b & v & ev & Q & _ & Heq).
  cbv zeta in Heq. rewrite Heq. clear Heq.
  unfold readUserShares, bindA, await, set, settle.
  destruct (getAssociatedTokenAddress (reads retryCount) shareMint w)
    as [a | e] eqn:Ha.
  2:{ destruct (retryCount <? maxRetries)%nat eqn:Hlt; cbn [fst snd app];
        eexists _, _; (split; [reflexivity |]);
        rewrite quiet_pending_retry by exact Q.
      - left. apply Nat.ltb_lt in Hlt. split; [exact Hlt | reflexivity].
      - right. split; [reflexivity |]. left. split; reflexivity. }
  destruct (getAccount (reads retryCount) a) as [amt | e] eqn:Hacc.
  2:{ destruct (retryCount <? maxRetries)%nat eqn:Hlt; cbn [fst snd app];
        eexists _, _; (split; [reflexivity |]);
        rewrite quiet_pending_retry by exact Q.
      - left. apply Nat.ltb_lt in Hlt. split; [exact Hlt | reflexivity].
      - right. split; [reflexivity |]. left. split; reflexivity. }
  destruct (JS.gt (toDisplay amt) JS.zero) eqn:Hgt.
  2:{ cbn [fst snd app]. eexists _, _. split; [reflexivity |].
      rewrite quiet_pending_retry by exact Q. right. split; [reflexivity |].
      right. exists retryCount, a, amt.
      split; [exact Ha |]. split; [exact Hacc |]. split; [reflexivity |].
      left. split; [exact Hgt | reflexivity]. }
  destruct (view_previewRedeem (reads retryCount) amt) as [assets | e] eqn:Hview.
  - cbn [fst snd app]. eexists _, _. split; [reflexivity |].
    rewrite quiet_pending_retry by exact Q. right. split; [reflexivity |].
    right. exists retryCount, a, amt.
    split; [exact Ha |]. split; [exact Hacc |]. split; [reflexivity |].
    right. exists assets. repeat split; auto.
  - destruct (retryCount <? maxRetries)%nat eqn:Hlt; cbn [fst snd app];
      eexists _, _; (split; [reflexivity |]);
      rewrite quiet_pending_retry by exact Q.
    + left. apply Nat.ltb_lt in Hlt. split; [exact Hlt | reflexivity].
    + right. split; [reflexivity |]. left. split; reflexivity.
Qed.

(** X27.  Whatever the chain answers at each attempt, when an invocation
    of [fetchVaultData] and its retries have ended, the balance and the
    value shown belong together: both are 0, or both come from the read of
    one and the same attempt.  A balance from one attempt is never left
    beside a value from another. *)
Theorem X27_refresh_never_ends_half_updated (maxRetries : nat) :
  forall (d retryCount : nat) (st : ui_state),
    (retryCount + d = maxRetries)%nat ->
    exists st' evs,
      run_fetchVaultData (S d) ctx reads retryCount maxRetries st
        = Some (st', evs) /\
      position_from_one_read reads w st'.
Proof.
  induction d as [| d IH]; intros rc st Hd.
  - rewrite run_fetchVaultData_S.
    destruct (fetchVaultData_retries_or_settles rc maxRetries st)
      as (st1 & evs & Heq & [[Hlt _] | [Hp Hpos]]); [lia |].
    rewrite Heq, Hp. eauto.
  - rewrite run_fetchVaultData_S.
    destruct (fetchVaultData_retries_or_settles rc maxRetries st)
      as (st1 & evs & Heq & [[Hlt Hp] | [Hp Hpos]]).
    + rewrite Heq, Hp.
      destruct (IH (rc + 1)%nat st1 ltac:(lia)) as (st' & evs' & Hrun & Hpos).
      rewrite Hrun. eauto.
    + rewrite Heq, Hp. eauto.
Qed.

End FinalPosition.

Lemma X27_refresh_never_ends_half_updated_witness :
  exists st' evs,
    run_fetchVaultData 4 connected reads_after_two_failures 0 3 initial_state
      = Some (st', evs) /\
    position_from_one_read reads_after_two_failures sample_wallet st'.
Proof.
  apply (X27_refresh_never_ends_half_updated connected reads_after_two_failures
           "phantom" sample_wallet eq_refl eq_refl 3 3 0 initial_state).
  reflexivity.
Defined.
